(** * Manager / Client Telegram bots over a shared Google Sheet

    A shallow embedding of [src/Client.py] (the applicant-facing bot) and
    [src/Manager.py] (the reviewer-facing bot), with the properties of the
    natural-language specification proved, amended or refuted against it.

    Conventions of the embedding:
    - a Python [str] is a [string]; [strip], [lower] and the other text
      operations follow Python on ASCII text, bytes above 127 are neither
      whitespace nor cased;
    - a [datetime] is a [Z] counting microseconds, a [timedelta] likewise;
    - a Python [dict] keyed by strings is a [gmap string _], the process-local
      [set] of row numbers a [gset Z]; the cache, whose insertion order decides
      eviction, is an association list in insertion order;
    - the worksheet is a grid of cells with a schedule of faults for the calls
      made on it, so that the [try]/[except] paths of the code can be run. *)

From Stdlib Require Import ZArith Lia Ascii.
From stdpp Require Import gmap strings list fin_maps pretty.

Local Open Scope Z_scope.

(** ** Python text operations *)

Module Py.

(** [str.isspace] on one ASCII character: TAB..CR, FS..US and the space. *)
Definition isspace (c : ascii) : bool :=
  let n := nat_of_ascii c in
  ((9 <=? n)%nat && (n <=? 13)%nat) || ((28 <=? n)%nat && (n <=? 31)%nat)
  || (n =? 32)%nat.

Fixpoint lstrip_with (p : ascii → bool) (s : string) : string :=
  match s with
  | EmptyString => EmptyString
  | String c s' => if p c then lstrip_with p s' else s
  end.

Definition rstrip_with (p : ascii → bool) (s : string) : string :=
  String.rev (lstrip_with p (String.rev s)).

(** [s.strip()] *)
Definition strip (s : string) : string :=
  rstrip_with isspace (lstrip_with isspace s).

(** [s.lstrip(chars)] *)
Definition lstrip_chars (chars : string) (s : string) : string :=
  lstrip_with (λ c, bool_decide (c ∈ String.list_ascii_of_string chars)) s.

Definition lower_char (c : ascii) : ascii :=
  let n := nat_of_ascii c in
  if (65 <=? n)%nat && (n <=? 90)%nat then ascii_of_nat (n + 32) else c.

(** [s.lower()] *)
Fixpoint lower (s : string) : string :=
  match s with
  | EmptyString => EmptyString
  | String c s' => String (lower_char c) (lower s')
  end.

(** Truth value of a string: [not s] holds for the empty string only. *)
Definition truthy (s : string) : bool := negb (String.eqb s "").

(** [s.split(sep)] for a one-character separator: never an empty list. *)
Fixpoint split (sep : ascii) (s : string) : list string :=
  match s with
  | EmptyString => [EmptyString]
  | String c s' =>
      if Ascii.eqb c sep then EmptyString :: split sep s'
      else match split sep s' with
           | [] => [String c EmptyString]
           | w :: ws => String c w :: ws
           end
  end.

Definition digit (c : ascii) : option Z :=
  let n := nat_of_ascii c in
  if (48 <=? n)%nat && (n <=? 57)%nat then Some (Z.of_nat n - 48) else None.

Fixpoint digits (acc : Z) (s : string) : option Z :=
  match s with
  | EmptyString => Some acc
  | String c s' =>
      match digit c with
      | Some d => digits (10 * acc + d) s'
      | None => None
      end
  end.

(** [int(s)] on a decimal literal with an optional sign, surrounding
    whitespace allowed; [None] stands for the [ValueError]. *)
Definition int (s : string) : option Z :=
  match strip s with
  | EmptyString => None
  | String "-"%char EmptyString | String "+"%char EmptyString => None
  | String "-"%char s' => Z.opp <$> digits 0 s'
  | String "+"%char s' => digits 0 s'
  | s' => digits 0 s'
  end.

(** [str(n)] for an integer. *)
Definition str (n : Z) : string := pretty n.

End Py.

(** ** Exceptions, and the monad of state and exceptions

    A Python call either returns or raises; what it did to the state before
    raising stays done.  [try_except] is the [try: ... except Exception:]
    block. *)

Inductive exn :=
  APIError | TelegramError | StopIteration | ValueError | KeyError | AttributeError.

Inductive result (A : Type) : Type :=
  | Ok (a : A)
  | Raise (e : exn).
Arguments Ok {A} a.
Arguments Raise {A} e.

Definition M (S A : Type) : Type := S → result A * S.

Global Instance M_ret {S} : MRet (M S) := λ A a s, (Ok a, s).

Global Instance M_bind {S} : MBind (M S) := λ A B k m s,
  match m s with
  | (Ok a, s') => k a s'
  | (Raise e, s') => (Raise e, s')
  end.

Global Instance M_fmap {S} : FMap (M S) := λ A B f m s,
  match m s with
  | (Ok a, s') => (Ok (f a), s')
  | (Raise e, s') => (Raise e, s')
  end.

Definition raise {S A} (e : exn) : M S A := λ s, (Raise e, s).

Definition try_except {S A} (body : M S A) (handler : exn → M S A) : M S A :=
  λ s, match body s with
       | (Ok a, s') => (Ok a, s')
       | (Raise e, s') => handler e s'
       end.

Definition gets {S A} (f : S → A) : M S A := λ s, (Ok (f s), s).
Definition modify {S} (f : S → S) : M S unit := λ s, (Ok (), f s).

(** Runs a computation on a component of the state. *)
Definition zoom {S T A} (get : S → T) (set : T → S → S) (m : M T A) : M S A :=
  λ s, let (r, t) := m (get s) in (r, set t s).

(** ** The worksheet (gspread)

    The sheet is a grid of text cells, rows and columns counted from 1.  Every
    call of the API takes the next entry of the fault schedule: [NoFault] lets
    it through, [FailBefore] raises with nothing done, [FailAfter] raises after
    the request was carried out (a lost reply).  An exhausted schedule means no
    fault.  [api_calls] counts the calls made. *)

Module gspread.

Inductive fault := NoFault | FailBefore | FailAfter.

Record worksheet := Worksheet {
  cells : list (list string);
  faults : list fault;
  api_calls : nat;
}.

Definition next_fault : M worksheet fault := λ ws,
  (Ok (hd NoFault (faults ws)),
   Worksheet (cells ws) (tl (faults ws)) (S (api_calls ws))).

Definition set_cells (g : list (list string)) (ws : worksheet) : worksheet :=
  Worksheet g (faults ws) (api_calls ws).

(** A read: raises on any fault, and on a row or column below 1. *)
Definition read {A} (valid : bool) (f : list (list string) → A) : M worksheet A :=
  flt ← next_fault;
  match flt with
  | NoFault => if valid then gets (λ ws, f (cells ws)) else raise APIError
  | _ => raise APIError
  end.

Definition cell (g : list (list string)) (row col : Z) : string :=
  nth (Z.to_nat (col - 1)) (nth (Z.to_nat (row - 1)) g []) "".

(** [worksheet.row_values(row)] *)
Definition row_values (row : Z) : M worksheet (list string) :=
  read (1 <=? row) (λ g, nth (Z.to_nat (row - 1)) g []).

(** [worksheet.col_values(col)] *)
Definition col_values (col : Z) : M worksheet (list string) :=
  read (1 <=? col) (λ g, (λ r, nth (Z.to_nat (col - 1)) r "") <$> g).

(** [worksheet.get_all_values()] *)
Definition get_all_values : M worksheet (list (list string)) :=
  read true (λ g, g).

(** An A1 range of one cell, [f'{col_letter}{row}'], kept as its two parts. *)
Record a1 := A1 { a1_col : ascii; a1_row : Z }.

Definition col_of_letter (c : ascii) : Z := Z.of_nat (nat_of_ascii c) - 64.

(** [worksheet.acell(range).value or ""] *)
Definition acell (r : a1) : M worksheet string :=
  read ((1 <=? a1_row r) && (1 <=? col_of_letter (a1_col r)))
       (λ g, cell g (a1_row r) (col_of_letter (a1_col r))).

Definition pad {A} (d : A) (n : nat) (l : list A) : list A :=
  l ++ replicate (n - length l) d.

(** Writes one cell, growing the grid with empty cells as needed. *)
Definition set_cell (g : list (list string)) (row col : Z) (v : string)
    : list (list string) :=
  let r := Z.to_nat (row - 1) in
  let c := Z.to_nat (col - 1) in
  let g' := pad [] (S r) g in
  <[r := <[c := v]> (pad "" (S c) (nth r g' []))]> g'.

Record update := Update { range : a1; value : string }.

Definition valid_update (u : update) : bool :=
  (1 <=? a1_row (range u)) && (1 <=? col_of_letter (a1_col (range u))).

Definition apply_updates (us : list update) (g : list (list string))
    : list (list string) :=
  foldl (λ g u, set_cell g (a1_row (range u)) (col_of_letter (a1_col (range u)))
                  (value u)) g us.

(** [worksheet.batch_update(updates, value_input_option='RAW')] *)
Definition batch_update (us : list update) : M worksheet unit :=
  flt ← next_fault;
  match flt with
  | FailBefore => raise APIError
  | _ =>
      if forallb valid_update us then
        modify (λ ws, set_cells (apply_updates us (cells ws)) ws);;
        match flt with NoFault => mret () | _ => raise APIError end
      else raise APIError
  end.

End gspread.

(** ** Insertion-ordered dictionaries

    A Python [dict] whose iteration order matters (the cache): entries in
    insertion order, at most one per key.  Assigning to a key that is present
    keeps its place; a new key goes last. *)

Module PyDict.
Section PyDict.
Context {V : Type}.

Definition t := list (string * V).

Definition keys (d : t) : list string := fst <$> d.

Fixpoint get (k : string) (d : t) : option V :=
  match d with
  | [] => None
  | (k', v) :: d' => if decide (k' = k) then Some v else get k d'
  end.

(** [k in d] *)
Definition contains (k : string) (d : t) : bool := bool_decide (k ∈ keys d).

(** [d[k] = v] *)
Fixpoint set (k : string) (v : V) (d : t) : t :=
  match d with
  | [] => [(k, v)]
  | (k', v') :: d' => if decide (k' = k) then (k, v) :: d' else (k', v') :: set k v d'
  end.

(** [d.pop(k, None)] *)
Fixpoint pop (k : string) (d : t) : t :=
  match d with
  | [] => []
  | (k', v') :: d' => if decide (k' = k) then d' else (k', v') :: pop k d'
  end.

(** [next(iter(d))]: the key inserted first, [None] for [StopIteration]. *)
Definition first_key (d : t) : option string := fst <$> head d.
End PyDict.
Arguments t : clear implicits.
End PyDict.

(** ** Records, messages and configuration *)

(** A row as the bots hold it: the cells under their header names, and the
    integer entry ['row_number'].  The empty dict [{}] has neither. *)
Record Dict := mkDict {
  fields : gmap string string;
  row_number : option Z;
}.

Definition empty_dict : Dict := mkDict ∅ None.

(** Truth value of a dict: [{}] is false, every other dict is true. *)
Definition dict_truthy (d : Dict) : bool :=
  negb (bool_decide (fields d = ∅)) || bool_decide (is_Some (row_number d)).

(** Truth value of an [Optional[Dict]]. *)
Definition truthy (r : option Dict) : bool :=
  match r with Some d => dict_truthy d | None => false end.

(** [record.get(key, default)] on a text entry. *)
Definition get (d : Dict) (key default : string) : string :=
  from_option id default (fields d !! key).

(** [d[key] = v] on a text entry. *)
Definition set_field (key v : string) (d : Dict) : Dict :=
  mkDict (<[key := v]> (fields d)) (row_number d).

(** What the bots say.  The wording is configuration and localisation; a
    message is kept as its template and the values put into it. *)
Inductive message :=
  (* Client *)
  | MsgBanned (minutes : Z)
  | MsgUserNotFound
  | MsgTooManyRequests (minutes : Z)
  | MsgWelcome (name : option string)
  | MsgSessionExpired
  | MsgWrongPassword
  | MsgAccepted (name committee : option string) (group_link team_link : string)
  | MsgRejected (name committee : option string)
  | MsgPending (name : option string)
  (* Manager *)
  | MsgNotAuthorised
  | MsgFetching
  | MsgNothingPending
  | MsgFound (n : nat)
  | MsgProgress (idx n success_count failed_count : nat)
  | MsgSweepDone (success_count failed_count : nat)
  | MsgInvalidCallback
  | MsgAlreadyProcessed
  | MsgRecordNotFound
  | MsgStatusAlready (current_status : string)
  | MsgCaption (row : Z) (accepted : bool) (notification : option bool)
  | MsgDecided (accepted notified : bool)
  | MsgDecisionError.

(** ** Telegram

    Every call of the Bot API takes the next entry of the channel's fault
    schedule and raises [TelegramError] when it is [true]; a message to a chat
    listed in [blocked] fails as well (a reviewer or applicant the bot cannot
    reach).  What went through is appended to [outbox]. *)

Module Telegram.

Inductive call :=
  | reply_text (m : message)
  | edit_text (m : message)
  | answer (m : message) (show_alert : bool)
  | edit_message_caption (m : message)
  | send_prompt (chat_id : Z) (row : Z) (photo : bool)
  | send_notification (chat_id : string) (m : message).

Record channel := Channel {
  outbox : list call;
  tg_faults : list bool;
  blocked : list string;
}.

Definition recipient (c : call) : option string :=
  match c with
  | send_prompt chat_id _ _ => Some (Py.str chat_id)
  | send_notification chat_id _ => Some chat_id
  | _ => None
  end.

Definition unreachable (c : call) (ch : channel) : bool :=
  match recipient c with
  | Some chat => bool_decide (chat ∈ blocked ch)
  | None => false
  end.

Definition send (c : call) : M channel unit := λ ch,
  let ch' := Channel (outbox ch) (tl (tg_faults ch)) (blocked ch) in
  if hd false (tg_faults ch) || unreachable c ch then (Raise TelegramError, ch')
  else (Ok (), Channel (outbox ch ++ [c]) (tl (tg_faults ch)) (blocked ch)).

End Telegram.

(** The options of [config.json] the code reads, with the names it reads them
    under; [team_link] is [config["executive_team"]["Link"]]. *)
Record Config := mkConfig {
  admin_ids : list Z;
  committee_links : gmap string string;
  team_link : string;
  max_cache_size : Z;
  enable_cache : bool;
  max_unknown_attempts : Z;
  unknown_ban_minutes : Z;
  max_logged_requests : Z;
  logged_limit_minutes : Z;
}.

(** [timedelta(minutes=m)] in microseconds. *)
Definition minutes (m : Z) : Z := m * 60000000.

(** One entry of [ClientBot.user_attempts]. *)
Record attempt_info := mkAttempt {
  count : Z;
  first_attempt : Z;
  banned_until : option Z;
}.

(** One user's [context.user_data]. *)
Record UserData := mkUserData {
  user_record : option Dict;
  ud_telegram_id : option string;
}.

(** ** The world: the shared sheet, Telegram, the clock, and the state each
    process keeps in memory *)

Record World := mkWorld {
  worksheet : gspread.worksheet;
  telegram : Telegram.channel;
  now : Z;
  (* ManagerBot *)
  processed_records : gset Z;
  (* GoogleSheetsClient: [None] when the cache is disabled *)
  _user_cache : option (PyDict.t Dict);
  (* the [gspread] module the client process imported: whether it defines
     [gspread.exceptions.CellNotFound], the one name of [gspread.exceptions]
     the code looks up *)
  has_CellNotFound : bool;
  (* ClientBot *)
  user_attempts : gmap string attempt_info;
  logged_user_requests : gmap string (list Z);
  (* [context.user_data] of the client bot, by Telegram user *)
  user_data : gmap Z UserData;
}.

Definition set_worksheet (x : gspread.worksheet) (w : World) : World :=
  mkWorld x (telegram w) (now w) (processed_records w) (_user_cache w)
          (has_CellNotFound w)
          (user_attempts w) (logged_user_requests w) (user_data w).
Definition set_telegram (x : Telegram.channel) (w : World) : World :=
  mkWorld (worksheet w) x (now w) (processed_records w) (_user_cache w)
          (has_CellNotFound w)
          (user_attempts w) (logged_user_requests w) (user_data w).
Definition set_now (x : Z) (w : World) : World :=
  mkWorld (worksheet w) (telegram w) x (processed_records w) (_user_cache w)
          (has_CellNotFound w)
          (user_attempts w) (logged_user_requests w) (user_data w).
Definition set_processed_records (x : gset Z) (w : World) : World :=
  mkWorld (worksheet w) (telegram w) (now w) x (_user_cache w)
          (has_CellNotFound w)
          (user_attempts w) (logged_user_requests w) (user_data w).
Definition set_user_cache (x : option (PyDict.t Dict)) (w : World) : World :=
  mkWorld (worksheet w) (telegram w) (now w) (processed_records w) x
          (has_CellNotFound w)
          (user_attempts w) (logged_user_requests w) (user_data w).
Definition set_user_attempts (x : gmap string attempt_info) (w : World) : World :=
  mkWorld (worksheet w) (telegram w) (now w) (processed_records w) (_user_cache w)
          (has_CellNotFound w)
          x (logged_user_requests w) (user_data w).
Definition set_logged_user_requests (x : gmap string (list Z)) (w : World) : World :=
  mkWorld (worksheet w) (telegram w) (now w) (processed_records w) (_user_cache w)
          (has_CellNotFound w)
          (user_attempts w) x (user_data w).
Definition set_user_data (x : gmap Z UserData) (w : World) : World :=
  mkWorld (worksheet w) (telegram w) (now w) (processed_records w) (_user_cache w)
          (has_CellNotFound w)
          (user_attempts w) (logged_user_requests w) x.

(** The sheet and Telegram calls, run in the world. *)
Definition sheet {A} (m : M gspread.worksheet A) : M World A :=
  zoom worksheet set_worksheet m.
Definition tg (c : Telegram.call) : M World unit :=
  zoom telegram set_telegram (Telegram.send c).

(** [datetime.now()] *)
Definition datetime_now : M World Z := gets now.

(** ** SHA-256 ([hashlib.sha256(...).hexdigest()])

    FIPS 180-4 on 32-bit words kept as [Z] with the wrap-around written out. *)

Module Sha256.

Definition w32 (x : Z) : Z := x mod 2 ^ 32.
Definition add32 (x y : Z) : Z := w32 (x + y).
Definition rotr (n x : Z) : Z := Z.lor (Z.shiftr x n) (w32 (Z.shiftl x (32 - n))).
Definition not32 (x : Z) : Z := Z.lxor x 0xffffffff.

Definition Ch (x y z : Z) : Z := Z.lxor (Z.land x y) (Z.land (not32 x) z).
Definition Maj (x y z : Z) : Z :=
  Z.lxor (Z.lxor (Z.land x y) (Z.land x z)) (Z.land y z).
Definition Sigma0 (x : Z) : Z := Z.lxor (Z.lxor (rotr 2 x) (rotr 13 x)) (rotr 22 x).
Definition Sigma1 (x : Z) : Z := Z.lxor (Z.lxor (rotr 6 x) (rotr 11 x)) (rotr 25 x).
Definition sigma0 (x : Z) : Z := Z.lxor (Z.lxor (rotr 7 x) (rotr 18 x)) (Z.shiftr x 3).
Definition sigma1 (x : Z) : Z := Z.lxor (Z.lxor (rotr 17 x) (rotr 19 x)) (Z.shiftr x 10).

(** The constants are taken from their definition: the first 32 bits of the
    fractional parts of the cube roots (for [K]) and of the square roots (for
    [H0]) of the first primes. *)
Definition is_prime (n : Z) : bool :=
  forallb (λ d, negb (n mod d =? 0)) (seqZ 2 (n - 2)).

Definition primes (k : nat) : list Z := take k (filter (λ n, is_prime n) (seqZ 2 310)).

(** The largest [x] below [2 ^ bits] with [x ^ 3 ≤ n], bit by bit. *)
Fixpoint cube_root (bits : nat) (n acc : Z) : Z :=
  match bits with
  | O => acc
  | S b =>
      let c := acc + 2 ^ Z.of_nat b in
      cube_root b n (if c ^ 3 <=? n then c else acc)
  end.

Definition K : list Z :=
  (λ p, w32 (cube_root 40 (p * 2 ^ 96) 0)) <$> primes 64.

Definition H0 : list Z :=
  (λ p, w32 (Z.sqrt (p * 2 ^ 64))) <$> primes 8.

(** [s.encode()] *)
Definition encode (s : string) : list Z :=
  (λ c, Z.of_nat (nat_of_ascii c)) <$> String.list_ascii_of_string s.

(** Big-endian bytes of [x], [n] of them. *)
Fixpoint be_bytes (n : nat) (x : Z) : list Z :=
  match n with
  | O => []
  | S n' => be_bytes n' (Z.shiftr x 8) ++ [x mod 256]
  end.

Definition pad_message (bs : list Z) : list Z :=
  let l := length bs in
  bs ++ [128] ++ replicate ((119 - l mod 64) mod 64)%nat 0
     ++ be_bytes 8 (8 * Z.of_nat l).

Fixpoint chunks {A} (fuel size : nat) (l : list A) : list (list A) :=
  match fuel, l with
  | O, _ | _, [] => []
  | S fuel', _ => take size l :: chunks fuel' size (drop size l)
  end.

Definition be_word (bs : list Z) : Z := foldl (λ acc b, acc * 256 + b) 0 bs.

(** The message schedule, most recent word first. *)
Fixpoint schedule (n : nat) (rev_w : list Z) : list Z :=
  match n with
  | O => rev_w
  | S n' =>
      let w := add32 (add32 (sigma1 (nth 1 rev_w 0)) (nth 6 rev_w 0))
                     (add32 (sigma0 (nth 14 rev_w 0)) (nth 15 rev_w 0)) in
      schedule n' (w :: rev_w)
  end.

Definition round (st : list Z) (kw : Z * Z) : list Z :=
  match st with
  | [a; b; c; d; e; f; g; h] =>
      let t1 := add32 (add32 (add32 h (Sigma1 e)) (add32 (Ch e f g) kw.1)) kw.2 in
      let t2 := add32 (Sigma0 a) (Maj a b c) in
      [add32 t1 t2; a; b; c; add32 d t1; e; f; g]
  | _ => st
  end.

Definition compress (h : list Z) (block : list Z) : list Z :=
  let w := reverse (schedule 48 (reverse (be_word <$> chunks 16 4 block))) in
  zip_with add32 h (foldl round h (zip K w)).

Definition hex_digit (x : Z) : ascii :=
  ascii_of_nat (Z.to_nat (if x <? 10 then 48 + x else 87 + x)).

Definition hex_word (x : Z) : string :=
  String.string_of_list_ascii
    ((λ i, hex_digit (Z.shiftr x (4 * Z.of_nat i) mod 16)) <$> [7; 6; 5; 4; 3; 2; 1; 0]%nat).

Definition hexdigest (s : string) : string :=
  let m := pad_message (encode s) in
  let h := foldl compress H0 (chunks (length m) 64 m) in
  foldr (λ x acc, hex_word x +:+ acc) "" h.

End Sha256.

(** The sixteen columns, as both bots declare them. *)
Definition HEADERS : list (string * Z) :=
  [ ("Submission_ID", 1); ("Respondent_ID", 2); ("Submitted_at", 3);
    ("Name", 4); ("Student_Number", 5); ("Major", 6); ("Email", 7);
    ("Info", 8); ("Committee", 9); ("Group_Link", 10); ("Username", 11);
    ("Telegram_ID", 12); ("Password", 13); ("Signature", 14); ("Status", 15);
    ("Logged_In", 16) ].

(** [HEADERS[h]]; [None] is the [KeyError]. *)
Definition HEADERS_get (h : string) : option Z := PyDict.get h HEADERS.

(** [HEADERS[h]] for a header the code names literally. *)
Definition col (h : string) : Z := default 0 (HEADERS_get h).

(** [_get_column_letter]: [chr(64 + col_num)]. *)
Definition _get_column_letter (col_num : Z) : ascii :=
  ascii_of_nat (Z.to_nat (64 + col_num)).

(** [f'{_get_column_letter(HEADERS[h])}{row}'] *)
Definition cell_range (h : string) (row : Z) : gspread.a1 :=
  gspread.A1 (_get_column_letter (col h)) row.

(** * The applicant-facing bot ([src/Client.py]) *)

Module Client.

Inductive conversation := END | WAITING_PASSWORD.

Section Client.
Variable config : Config.

(** ** GoogleSheetsClient *)

(** [_get_from_cache].  [_cache_enabled] and [_user_cache is not None] are
    set together by [__init__] and never again: one option stands for both. *)
Definition _get_from_cache (telegram_id : string)
    : M (option (PyDict.t Dict)) (option Dict) :=
  gets (λ cache,
    match cache with
    | None => None
    | Some c =>
        if negb (Py.truthy telegram_id) then None
        else PyDict.get ("tg_" +:+ telegram_id) c
    end).

(** [_set_cache] *)
Definition _set_cache (telegram_id : string) (record : Dict)
    : M (option (PyDict.t Dict)) unit := λ cache,
  match cache with
  | None => (Ok (), cache)
  | Some c =>
      if negb (Py.truthy telegram_id) then (Ok (), cache)
      else
        let key := "tg_" +:+ telegram_id in
        if negb (PyDict.contains key c)
           && bool_decide (max_cache_size config ≤ Z.of_nat (length c))
        then match PyDict.first_key c with
             | None => (Raise StopIteration, cache)
             | Some oldest_key =>
                 (Ok (), Some (PyDict.set key record (PyDict.pop oldest_key c)))
             end
        else (Ok (), Some (PyDict.set key record c))
  end.

Definition cache {A} (m : M (option (PyDict.t Dict)) A) : M World A :=
  zoom _user_cache set_user_cache m.

(** The dict comprehension of [get_record_by_row]:
    [{h: values[c-1] if c-1 < len(values) else "" for h, c in HEADERS.items()}] *)
Definition record_of (values : list string) : gmap string string :=
  list_to_map
    ((λ hc : string * Z,
        (hc.1, if bool_decide (hc.2 - 1 < Z.of_nat (length values))
               then nth (Z.to_nat (hc.2 - 1)) values ""
               else "")) <$> HEADERS).

(** [get_record_by_row] *)
Definition get_record_by_row (row : Z) : M World Dict :=
  try_except
    (values ← sheet (gspread.row_values row);
     mret (mkDict (record_of values) (Some row)))
    (λ _, mret empty_dict).

(** [find_user_by_telegram_id] *)
Definition find_user_by_telegram_id (telegram_id : string) : M World (option Dict) :=
  let telegram_id := Py.strip telegram_id in
  cached ← cache (_get_from_cache telegram_id);
  if truthy cached then mret cached
  else
    try_except
      (col_values ← sheet (gspread.col_values (col "Telegram_ID"));
       match list_find (λ v, v = telegram_id) col_values with
       | Some (i, _) =>
           let row_number := Z.of_nat i + 1 in
           record ← get_record_by_row row_number;
           cache (_set_cache telegram_id record);;
           mret (Some record)
       | None => mret None
       end)
      (* [except gspread.exceptions.CellNotFound: return None], then
         [except Exception: return None]: the name of the first clause is
         looked up when an exception arrives, and where [gspread.exceptions]
         does not have it that lookup raises [AttributeError] out of the
         [try] statement *)
      (λ _, defined ← gets has_CellNotFound;
            if defined : bool then mret None else raise AttributeError).

(** The normal form of a username: [s.strip().lstrip('@').lower()]. *)
Definition clean (s : string) : string :=
  Py.lower (Py.lstrip_chars "@" (Py.strip s)).

(** The loop of [find_user_by_username] over [enumerate(usernames[1:], 2)]:
    the row of the first stored username whose normal form is [search]. *)
Fixpoint first_match (search : string) (i : Z) (usernames : list string)
    : option Z :=
  match usernames with
  | [] => None
  | stored_username :: rest =>
      if decide (clean stored_username = search) then Some i
      else first_match search (i + 1) rest
  end.

(** [find_user_by_username] *)
Definition find_user_by_username (username telegram_id : string)
    : M World (option Dict) :=
  if negb (Py.truthy username) then mret None
  else
    let search := clean username in
    cached ← cache (_get_from_cache telegram_id);
    if truthy cached then mret cached
    else
      try_except
        (usernames ← sheet (gspread.col_values (col "Username"));
         match first_match search 2 (drop 1 usernames) with
         | Some i =>
             record ← get_record_by_row i;
             cache (_set_cache telegram_id record);;
             mret (Some record)
         | None => mret None
         end)
        (λ _, mret None).

(** The [updates] list of [update_user_fields]; [None] is the [KeyError] of
    a field that is no header. *)
Definition field_updates (row : Z) (fields : list (string * string))
    : option (list gspread.update) :=
  mapM (λ fv : string * string,
          c ← HEADERS_get fv.1;
          Some (gspread.Update (gspread.A1 (_get_column_letter c) row) fv.2))
       fields.

(** [update_user_fields] *)
Definition update_user_fields (record : Dict) (fields : list (string * string))
    (telegram_id : string) : M World Dict :=
  match row_number record with
  | None => raise KeyError
  | Some row =>
      match field_updates row fields with
      | None => raise KeyError
      | Some updates =>
          try_except
            (sheet (gspread.batch_update updates);;
             let updated_record :=
               foldl (λ r (fv : string * string), set_field fv.1 fv.2 r)
                     record fields in
             cache (_set_cache telegram_id updated_record);;
             mret updated_record)
            (λ _, mret record)
      end
  end.

(** [hash_password] *)
Definition hash_password (password : string) : string :=
  Sha256.hexdigest password.

(** ** ClientBot *)

Definition the_user_data (user_id : Z) : M World UserData :=
  gets (λ w, default (mkUserData None None) (user_data w !! user_id)).

Definition put_user_data (user_id : Z) (f : UserData → UserData) : M World unit :=
  modify (λ w, set_user_data
                 (<[user_id := f (default (mkUserData None None)
                                          (user_data w !! user_id))]> (user_data w)) w).

(** [_is_user_banned] *)
Definition _is_user_banned (telegram_id : string) : M World (bool * option Z) :=
  attempts ← gets user_attempts;
  match attempts !! telegram_id with
  | None => mret (false, None)
  | Some attempt_info =>
      match banned_until attempt_info with
      | None => mret (false, None)
      | Some until =>
          t ← datetime_now;
          if bool_decide (t < until) then mret (true, Some until)
          else
            t' ← datetime_now;
            if bool_decide (until ≤ t') then
              modify (λ w, set_user_attempts (delete telegram_id (user_attempts w)) w);;
              mret (false, None)
            else mret (false, None)
      end
  end.

(** [_record_failed_attempt] *)
Definition _record_failed_attempt (telegram_id : string) : M World unit :=
  t ← datetime_now;
  modify (λ w, set_user_attempts
    (match user_attempts w !! telegram_id with
     | None => <[telegram_id := mkAttempt 1 t None]> (user_attempts w)
     | Some a =>
         <[telegram_id := mkAttempt (count a + 1) (first_attempt a) (banned_until a)]>
           (user_attempts w)
     end) w);;
  attempts ← gets user_attempts;
  match attempts !! telegram_id with
  | None => raise KeyError
  | Some attempt_info =>
      if bool_decide (max_unknown_attempts config ≤ count attempt_info) then
        modify (λ w, set_user_attempts
          (<[telegram_id := mkAttempt (count attempt_info) (first_attempt attempt_info)
               (Some (t + minutes (unknown_ban_minutes config)))]> (user_attempts w)) w)
      else mret ()
  end.

(** [_check_logged_user_rate_limit]: [true] when the request is over the cap. *)
Definition _check_logged_user_rate_limit (telegram_id : string) : M World bool :=
  t ← datetime_now;
  requests ← gets (λ w, default [] (logged_user_requests w !! telegram_id));
  let recent_requests :=
    filter (λ req, t - req < minutes (logged_limit_minutes config)) requests in
  modify (λ w, set_logged_user_requests
                 (<[telegram_id := recent_requests]> (logged_user_requests w)) w);;
  if bool_decide (max_logged_requests config ≤ Z.of_nat (length recent_requests))
  then mret true
  else
    modify (λ w, set_logged_user_requests
                   (<[telegram_id := recent_requests ++ [t]]> (logged_user_requests w)) w);;
    mret false.

(** [_is_user_logged_in] *)
Definition _is_user_logged_in (record : Dict) : bool :=
  bool_decide (Py.lower (Py.strip (get record "Logged_In" ""))
               ∈ ["yes"; "y"; "true"; "1"]).

(** The lower-cased, stripped status of a record. *)
Definition status_of (record : Dict) : string :=
  Py.lower (Py.strip (get record "Status" "")).

(** [send_accepted]: the group link goes into the message when, stripped,
    it is not empty; [MsgAccepted] carries it stripped. *)
Definition send_accepted (record : Dict) : M World conversation :=
  let name := fields record !! "Name" in
  let committee := fields record !! "Committee" in
  let group_link := Py.strip (get record "Group_Link" "") in
  tg (Telegram.reply_text (MsgAccepted name committee group_link (team_link config)));;
  mret END.

(** [send_rejected] *)
Definition send_rejected (record : Dict) : M World conversation :=
  tg (Telegram.reply_text
        (MsgRejected (fields record !! "Name") (fields record !! "Committee")));;
  mret END.

(** [send_pending] *)
Definition send_pending (record : Dict) : M World conversation :=
  tg (Telegram.reply_text (MsgPending (fields record !! "Name")));;
  mret END.

(** The [try] block of [show_status] up to the assignments to [record]:
    the record with the fresh cells when the fresh status differs, [None]
    when it does not; raises where the reads raise. *)
Definition fresh_status (record : Dict) (current_status : string)
    : M World (option Dict) :=
  match row_number record with
  | None => raise KeyError
  | Some row =>
      current_status_value ← sheet (gspread.acell (cell_range "Status" row));
      if decide (Py.lower (Py.strip current_status_value) ≠ current_status) then
        current_group_link ← sheet (gspread.acell (cell_range "Group_Link" row));
        mret (Some (set_field "Group_Link" current_group_link
                      (set_field "Status" current_status_value record)))
      else mret None
  end.

(** [show_status].  The [try] block is run in two steps, the reads and then
    the stores, so that an exception of the reads leaves [record] as it was
    and an exception of [_set_cache] leaves it updated, as in the code. *)
Definition show_status (user_id : Z) (record : Dict) : M World conversation :=
  ud ← the_user_data user_id;
  let telegram_id := default "" (ud_telegram_id ud) in
  let current_status := status_of record in
  if bool_decide (current_status ∈ ["accepted"; "rejected"]) then
    if decide (current_status = "accepted") then send_accepted record
    else send_rejected record
  else
    fresh ← try_except (fresh_status record current_status) (λ _, mret None);
    record ← match fresh with
             | None => mret record
             | Some record' =>
                 put_user_data user_id
                   (λ ud, mkUserData (Some record') (ud_telegram_id ud));;
                 try_except (cache (_set_cache telegram_id record')) (λ _, mret ());;
                 mret record'
             end;
    let status := status_of record in
    if decide (status = "accepted") then send_accepted record
    else if decide (status = "rejected") then send_rejected record
    else send_pending record.

(** Lines 310-319 of [start_command]: by Telegram id, then by username,
    binding the Telegram id to the row found by username. *)
Definition lookup (telegram_id username : string) : M World (option Dict) :=
  record ← find_user_by_telegram_id telegram_id;
  if negb (truthy record) && Py.truthy username then
    record ← find_user_by_username username telegram_id;
    match record with
    | Some r =>
        if dict_truthy r then
          Some <$> update_user_fields r [("Telegram_ID", telegram_id)] telegram_id
        else mret record
    | None => mret record
    end
  else mret record.

(** [start_command] for the user [user_id] whose username is [username]
    ([""] for none). *)
Definition start_command (user_id : Z) (username : string) : M World conversation :=
  let telegram_id := Py.str user_id in
  banned ← _is_user_banned telegram_id;
  match banned with
  | (true, until) =>
      t ← datetime_now;
      let remaining := default 0 until - t in
      let minutes := Z.quot remaining 60000000 + 1 in
      tg (Telegram.reply_text (MsgBanned minutes));;
      mret END
  | (false, _) =>
      record ← lookup telegram_id username;
      match record with
      | Some r =>
          if dict_truthy r then
            modify (λ w, set_user_attempts (delete telegram_id (user_attempts w)) w);;
            put_user_data user_id (λ _, mkUserData (Some r) (Some telegram_id));;
            if _is_user_logged_in r then
              limited ← _check_logged_user_rate_limit telegram_id;
              if limited : bool then
                tg (Telegram.reply_text
                      (MsgTooManyRequests (logged_limit_minutes config)));;
                mret END
              else show_status user_id r
            else
              tg (Telegram.reply_text (MsgWelcome (fields r !! "Name")));;
              mret WAITING_PASSWORD
          else
            _record_failed_attempt telegram_id;;
            tg (Telegram.reply_text MsgUserNotFound);;
            mret END
      | None =>
          _record_failed_attempt telegram_id;;
          tg (Telegram.reply_text MsgUserNotFound);;
          mret END
      end
  end.

(** [handle_password] for the text [text] sent by [user_id]. *)
Definition handle_password (user_id : Z) (text : string) : M World conversation :=
  let password := Py.strip text in
  ud ← the_user_data user_id;
  let telegram_id := default "" (ud_telegram_id ud) in
  match user_record ud with
  | None =>
      tg (Telegram.reply_text MsgSessionExpired);;
      mret END
  | Some record =>
      if negb (dict_truthy record) then
        tg (Telegram.reply_text MsgSessionExpired);;
        mret END
      else
        let hashed_input := hash_password password in
        let stored_password_plain := Py.strip (get record "Password" "") in
        let stored_password_hashed := hash_password stored_password_plain in
        if decide (stored_password_hashed ≠ hashed_input) then
          tg (Telegram.reply_text MsgWrongPassword);;
          mret WAITING_PASSWORD
        else
          record ← update_user_fields record [("Logged_In", "Yes")] telegram_id;
          put_user_data user_id (λ ud, mkUserData (Some record) (ud_telegram_id ud));;
          show_status user_id record
  end.

End Client.
End Client.

(** * The reviewer-facing bot ([src/Manager.py]) *)

Module Manager.

Section Manager.
Variable config : Config.

(** [download_image]: whether the signature at a URL could be fetched as an
    image.  It catches every exception of its own. *)
Variable download_image : string → bool.

(** ** OptimizedGoogleSheetsManager *)

(** The loop that pads a row to [max(HEADERS.values())] cells. *)
Definition pad_row (values : list string) : list string :=
  gspread.pad "" (Z.to_nat (foldr Z.max 0 (snd <$> HEADERS))) values.

(** The dict built from a padded row: every cell stripped. *)
Definition record_of (values : list string) : gmap string string :=
  list_to_map
    ((λ hc : string * Z,
        let value := if bool_decide (hc.2 ≤ Z.of_nat (length values))
                     then nth (Z.to_nat (hc.2 - 1)) values "" else "" in
        (hc.1, if Py.truthy value then Py.strip value else "")) <$> HEADERS).

(** The test of [get_pending_records] on a status. *)
Definition undecided (status : string) : bool :=
  bool_decide (status = "") || bool_decide (Py.lower status = "pending").

Fixpoint pending_from (i : Z) (rows : list (list string)) : list Dict :=
  match rows with
  | [] => []
  | row :: rest =>
      let record := record_of (pad_row row) in
      let status := Py.strip (default "" (record !! "Status")) in
      if undecided status
      then mkDict record (Some i) :: pending_from (i + 1) rest
      else pending_from (i + 1) rest
  end.

(** [get_pending_records] *)
Definition get_pending_records : M World (list Dict) :=
  try_except
    (all_values ← sheet gspread.get_all_values;
     if bool_decide (length all_values < 2)%nat then mret []
     else mret (pending_from 2 (drop 1 all_values)))
    (λ _, mret []).

(** [get_record_by_row] *)
Definition get_record_by_row (row_number : Z) : M World Dict :=
  try_except
    (values ← sheet (gspread.row_values row_number);
     match values with
     | [] => mret empty_dict
     | _ => mret (mkDict (record_of (pad_row values)) (Some row_number))
     end)
    (λ _, mret empty_dict).

(** [update_status_and_group_link]; [group_link] is [""] for [None]. *)
Definition update_status_and_group_link (row_number : Z) (status group_link : string)
    : M World unit :=
  try_except
    (let updates :=
       gspread.Update (cell_range "Status" row_number) status
       :: (if Py.truthy group_link
           then [gspread.Update (cell_range "Group_Link" row_number) group_link]
           else []) in
     sheet (gspread.batch_update updates))
    (λ e, raise e).

(** ** ManagerBot *)

Definition is_admin (user_id : Z) : bool := bool_decide (user_id ∈ admin_ids config).

(** The loop of [send_request_for_review] over [admin_ids]. *)
Fixpoint send_to_admins (row_number : Z) (photo : bool) (admins : list Z)
    (sent_to_all : bool) : M World bool :=
  match admins with
  | [] => mret sent_to_all
  | admin_id :: rest =>
      ok ← try_except
             (tg (Telegram.send_prompt admin_id row_number photo);; mret true)
             (λ _, mret false);
      send_to_admins row_number photo rest (sent_to_all && ok)
  end.

(** [send_request_for_review] *)
Definition send_request_for_review (record : Dict) : M World bool :=
  match row_number record with
  | None => mret false
  | Some row_number =>
      if decide (row_number = 0) then mret false
      else
        let signature_url := Py.strip (get record "Signature" "") in
        let image_bytes :=
          if Py.truthy signature_url
             && (String.prefix "http://" signature_url
                 || String.prefix "https://" signature_url)
          then download_image signature_url else false in
        send_to_admins row_number image_bytes (admin_ids config) true
  end.

(** The loop of [check_command] over [enumerate(pending_records, 1)];
    returns [(success_count, failed_count)]. *)
Fixpoint review_all (n idx : nat) (records : list Dict)
    (success_count failed_count : nat) : M World (nat * nat) :=
  match records with
  | [] => mret (success_count, failed_count)
  | record :: rest =>
      (if decide (idx mod 5 = 0)%nat
       then tg (Telegram.edit_text (MsgProgress idx n success_count failed_count))
       else mret ());;
      sent ← send_request_for_review record;
      if sent : bool then
        match row_number record with
        | Some r => update_status_and_group_link r "Pending" ""
        | None => raise KeyError
        end;;
        review_all n (S idx) rest (S success_count) failed_count
      else review_all n (S idx) rest success_count (S failed_count)
  end.

(** [check_command] *)
Definition check_command (user_id : Z) : M World unit :=
  if negb (is_admin user_id) then tg (Telegram.reply_text MsgNotAuthorised)
  else
    tg (Telegram.reply_text MsgFetching);;
    pending_records ← get_pending_records;
    match pending_records with
    | [] => tg (Telegram.edit_text MsgNothingPending)
    | _ =>
        tg (Telegram.edit_text (MsgFound (length pending_records)));;
        counts ← review_all (length pending_records) 1 pending_records 0 0;
        tg (Telegram.edit_text (MsgSweepDone counts.1 counts.2))
    end.

(** [send_notification_to_user] *)
Definition send_notification_to_user (telegram_id : string) (m : message)
    : M World bool :=
  if negb (Py.truthy telegram_id) || bool_decide (Py.strip telegram_id = "")
  then mret false
  else try_except (tg (Telegram.send_notification telegram_id m);; mret true)
                  (λ _, mret false).

(** [_is_user_logged_in] *)
Definition _is_user_logged_in (record : Dict) : bool :=
  bool_decide (Py.lower (Py.strip (get record "Logged_In" ""))
               ∈ ["yes"; "y"; "true"; "1"]).

(** The test of [handle_decision] on the status it re-read. *)
Definition unresolved (current_status : string) : bool :=
  bool_decide (current_status ∈ [""; "Pending"]).

(** [handle_decision] from the claim of the row on: lines 477-532. *)
Definition apply_decision (action : string) (row_number : Z) (record : Dict)
    : M World unit :=
  let telegram_id := Py.strip (get record "Telegram_ID" "") in
  let name := fields record !! "Name" in
  let committee := Py.strip (get record "Committee" "نامشخص") in
  modify (λ w, set_processed_records ({[row_number]} ∪ processed_records w) w);;
  let user_logged_in := _is_user_logged_in record in
  let accepted := bool_decide (action = "accept") in
  notification_sent ←
    (if accepted then
       let group_link := default "" (committee_links config !! committee) in
       update_status_and_group_link row_number "Accepted" group_link;;
       if user_logged_in then
         Some <$> send_notification_to_user telegram_id
                    (MsgAccepted name (Some committee) group_link (team_link config))
       else mret None
     else
       update_status_and_group_link row_number "Rejected" "";;
       if user_logged_in then
         Some <$> send_notification_to_user telegram_id
                    (MsgRejected name (Some committee))
       else mret None);
  tg (Telegram.edit_message_caption (MsgCaption row_number accepted notification_sent));;
  tg (Telegram.answer (MsgDecided accepted user_logged_in) false).

(** [handle_decision] from the parsed row number to the claim: lines 456-468. *)
Definition decide_row (action : string) (row_number : Z) : M World unit :=
  processed ← gets processed_records;
  if bool_decide (row_number ∈ processed) then
    tg (Telegram.answer MsgAlreadyProcessed true)
  else
    record ← get_record_by_row row_number;
    if negb (dict_truthy record) then tg (Telegram.answer MsgRecordNotFound true)
    else
      let current_status := Py.strip (get record "Status" "") in
      if negb (unresolved current_status) then
        tg (Telegram.answer (MsgStatusAlready current_status) true)
      else apply_decision action row_number record.

(** The [except Exception] block of [handle_decision]; [row_number] is
    [None] while the name is not yet in [locals()]. *)
Definition on_error (row_number : option Z) : M World unit :=
  tg (Telegram.answer MsgDecisionError true);;
  match row_number with
  | Some r =>
      modify (λ w, set_processed_records (processed_records w ∖ {[r]}) w)
  | None => mret ()
  end.

(** [handle_decision] for the callback [callback_data] pressed by [user_id]. *)
Definition handle_decision (user_id : Z) (callback_data : string) : M World unit :=
  if negb (is_admin user_id) then tg (Telegram.answer MsgNotAuthorised true)
  else
    match Py.split "_" callback_data with
    | action :: row_text :: _ =>
        match Py.int row_text with
        | None => on_error None
        | Some row_number =>
            try_except (decide_row action row_number)
                       (λ _, on_error (Some row_number))
        end
    | _ => try_except (tg (Telegram.answer MsgInvalidCallback true))
                      (λ _, on_error None)
    end.

End Manager.
End Manager.

(** ** Scenarios used by the properties *)

(** A run of [_set_cache] calls, one per [(telegram_id, record)], each caller
    going on after a call that raised. *)
Fixpoint puts (config : Config) (calls : list (string * Dict))
    (cache : option (PyDict.t Dict)) : option (PyDict.t Dict) :=
  match calls with
  | [] => cache
  | (telegram_id, record) :: rest =>
      puts config rest (Client._set_cache config telegram_id record cache).2
  end.

(** The cache key of a Telegram id. *)
Definition cache_key (telegram_id : string) : string := "tg_" +:+ telegram_id.

(** The number of entries of the cache, none when it is disabled. *)
Definition cache_size (cache : option (PyDict.t Dict)) : nat :=
  match cache with Some c => length c | None => 0%nat end.

(** Requests of one logged-in user at the given times: the clock is set and
    [_check_logged_user_rate_limit] is asked; the answers in order. *)
Fixpoint requests (config : Config) (telegram_id : string) (times : list Z)
    : M World (list bool) :=
  match times with
  | [] => mret []
  | t :: rest =>
      modify (set_now t);;
      limited ← Client._check_logged_user_rate_limit config telegram_id;
      cons limited <$> requests config telegram_id rest
  end.



(** ** Examples *)

(** A configuration for the examples: two reviewers, a cache of two
    entries, a ban of five minutes after three failed lookups, two requests
    in five minutes for a logged-in user. *)
Definition demo_config : Config :=
  mkConfig [1; 2] {["Tech" := "https://t.me/tech"]} "" 2 true 3 5 2 5.

(** A row of the sheet with the cells the bots read. *)
Definition demo_row (name committee username telegram_id password status logged_in : string)
    : list string :=
  [ "s1"; "r1"; "2024-01-01"; name; "4001"; "CS"; "a@b.c"; "-"; committee; "";
    username; telegram_id; password; ""; status; logged_in ].

(** A sheet: the header row, Ann in row 2 (no decision yet, never logged in)
    and Bob in row 3 (prompt sent, logged in). *)
Definition demo_cells : list (list string) :=
  [ HEADERS.*1;
    demo_row "Ann" "Tech" "@Ann" "" "abc" "" "";
    demo_row "Bob" "Art" "bob" "77" "pw" "Pending" "Yes" ].

(** The sheet with Ann's status typed in lower case. *)
Definition lowercase_pending_cells : list (list string) :=
  [ HEADERS.*1; demo_row "Ann" "Tech" "@Ann" "" "abc" "pending" "" ].

(** An empty world at time [t]: a sheet with the given cells, no faults, no
    message sent, nothing in the memory of either process, and a [gspread]
    that defines [exceptions.CellNotFound]. *)
Definition world_at (t : Z) (cells : list (list string)) : World :=
  mkWorld (gspread.Worksheet cells [] 0) (Telegram.Channel [] [] []) t
          ∅ (Some []) true ∅ ∅ ∅.

(** ** Vocabulary of the properties *)

(** No call on the sheet is scheduled to fail. *)
Definition fault_free (w : World) : Prop := gspread.faults (worksheet w) = [].

(** No call of the Bot API is scheduled to fail. *)
Definition tg_fault_free (w : World) : Prop := Telegram.tg_faults (telegram w) = [].

(** The cells of the sheet. *)
Definition cells_of (w : World) : list (list string) := gspread.cells (worksheet w).

(** The world after one call on the sheet that changed no cell. *)
Definition after_call (w : World) : World :=
  set_worksheet
    (gspread.Worksheet (gspread.cells (worksheet w)) (tl (gspread.faults (worksheet w)))
                       (S (gspread.api_calls (worksheet w)))) w.

(** The stored usernames below the header row: [usernames[1:]]. *)
Definition stored_usernames (w : World) : list string :=
  drop 1 ((λ r, nth (Z.to_nat (col "Username" - 1)) r "") <$> cells_of w).

(** The record [get_record_by_row] builds for a row of the sheet. *)
Definition record_at (w : World) (row : Z) : Dict :=
  mkDict (Client.record_of (nth (Z.to_nat (row - 1)) (cells_of w) [])) (Some row).

(** What [_get_from_cache] finds for a Telegram id. *)
Definition cache_lookup (w : World) (telegram_id : string) : option Dict :=
  match _user_cache w with
  | None => None
  | Some c =>
      if negb (Py.truthy telegram_id) then None
      else PyDict.get (cache_key telegram_id) c
  end.

(** The demo world after Ann (Telegram user 55, username "ann") sent
    [/start]: her row is bound to the Telegram id and the conversation awaits
    the password. *)
Definition waiting_world : World :=
  (Client.start_command demo_config 55 "ann" (world_at 0 demo_cells)).2.

Definition waiting_user_data : UserData :=
  default (mkUserData None None) (user_data waiting_world !! 55).

Definition waiting_record : Dict :=
  default empty_dict (user_record waiting_user_data).

(** The world with the given fault schedule for the calls on the sheet. *)
Definition with_faults (fs : list gspread.fault) (w : World) : World :=
  set_worksheet
    (gspread.Worksheet (gspread.cells (worksheet w)) fs (gspread.api_calls (worksheet w))) w.

(** The world of a client process whose [gspread] has no
    [exceptions.CellNotFound]. *)
Definition without_CellNotFound (w : World) : World :=
  mkWorld (worksheet w) (telegram w) (now w) (processed_records w) (_user_cache w)
          false (user_attempts w) (logged_user_requests w) (user_data w).

(** The world with the given fault schedule for the calls of the Bot API. *)
Definition with_tg_faults (fs : list bool) (w : World) : World :=
  set_telegram
    (Telegram.Channel (Telegram.outbox (telegram w)) fs (Telegram.blocked (telegram w))) w.

(** The demo world after reviewer 1 accepted Ann's application (row 2). *)
Definition accepted_world : World :=
  (Manager.handle_decision demo_config 1 "accept_2" (world_at 0 demo_cells)).2.

(** Ann's row as the applicant process read it before the decision. *)
Definition stale_record : Dict := record_at (world_at 0 demo_cells) 2.

(** The next call on the sheet is scheduled to fail. *)
Definition failing (w : World) : Prop :=
  hd gspread.NoFault (gspread.faults (worksheet w)) ≠ gspread.NoFault.

(** The number of calls made on the sheet so far. *)
Definition calls_of (w : World) : nat := gspread.api_calls (worksheet w).

(** The reviewer [admin_id] can be reached by the bot. *)
Definition reachable (w : World) (admin_id : Z) : bool :=
  bool_decide (Py.str admin_id ∉ Telegram.blocked (telegram w)).

(** The messages sent so far. *)
Definition outbox_of (w : World) : list Telegram.call := Telegram.outbox (telegram w).

(** The sheet with the status of the given rows set to Pending, in order. *)
Definition mark_pending (rows : list Z) (g : list (list string)) : list (list string) :=
  foldl (λ g r, gspread.set_cell g r (col "Status") "Pending") g rows.

(** The rows the sweep selects: [get_pending_records] on the cells. *)
Definition selected (w : World) : list Dict :=
  Manager.pending_from 2 (drop 1 (cells_of w)).

(** Neither the sheet nor the Bot API is scheduled to fail. *)
Definition calm (w : World) : Prop := fault_free w ∧ tg_fault_free w.

(** Every configured reviewer can be reached. *)
Definition all_reachable (config : Config) (w : World) : bool :=
  forallb (reachable w) (admin_ids config).


(** The row numbers of a list of records. *)
Definition rows_of (records : list Dict) : list Z :=
  (λ d, default 0 (row_number d)) <$> records.


(** The record the manager's [get_record_by_row] builds for a row that has
    at least one value. *)
Definition manager_record_at (w : World) (row : Z) : Dict :=
  mkDict (Manager.record_of (Manager.pad_row (nth (Z.to_nat (row - 1)) (cells_of w) [])))
         (Some row).

(** The status the decision handler reads for a row. *)
Definition status_read (w : World) (row : Z) : string :=
  Py.strip (get (manager_record_at w row) "Status" "").

(** The updates of [update_status_and_group_link]. *)
Definition status_updates (row : Z) (status group_link : string) : list gspread.update :=
  gspread.Update (cell_range "Status" row) status
  :: (if Py.truthy group_link
      then [gspread.Update (cell_range "Group_Link" row) group_link] else []).

(** The callback data parses to an action and a row number, the way
    [handle_decision] reads it. *)
Definition parses (callback_data action : string) (row : Z) : Prop :=
  ∃ row_text rest,
    Py.split "_" callback_data = action :: row_text :: rest
    ∧ Py.int row_text = Some row.

(** The world with one more message sent. *)
Definition sent (c : Telegram.call) (w : World) : World :=
  set_telegram
    (Telegram.Channel (Telegram.outbox (telegram w) ++ [c])
       (tl (Telegram.tg_faults (telegram w))) (Telegram.blocked (telegram w))) w.

(** The Conflict answers of the decision handler. *)
Definition conflict (m : message) : Prop :=
  m = MsgAlreadyProcessed ∨ ∃ status, m = MsgStatusAlready status.

(** The timestamps of [tid] that are younger than the window at [now w]. *)
Definition recent (config : Config) (tid : string) (w : World) : list Z :=
  filter (λ req, now w - req < minutes (logged_limit_minutes config))
         (default [] (logged_user_requests w !! tid)).

(** A computation leaves the component [f] of the world alone. *)
Definition preserves {A X} (f : World → X) (m : M World A) : Prop :=
  ∀ w, f (m w).2 = f w.

(** * Further functions of the reviewer-facing bot ([src/Manager.py]) *)

Module ManagerBot.

(** [s.replace(old, new)] for an [old] of one character. *)
Fixpoint replace (old : ascii) (new : string) (s : string) : string :=
  match s with
  | EmptyString => EmptyString
  | String c s' =>
      if Ascii.eqb c old then new +:+ replace old new s'
      else String c (replace old new s')
  end.

(** [_escape_text] on a [str]. *)
Definition _escape_text (text : string) : string :=
  if negb (Py.truthy text) then ""
  else replace ">" "&gt;" (replace "<" "&lt;" (replace "&" "&amp;" text)).

(** The callback data of the two buttons of a prompt, as
    [send_request_for_review] builds them: [f"accept_{row_number}"] and
    [f"reject_{row_number}"]. *)
Definition accept_callback (row_number : Z) : string := "accept_" +:+ Py.str row_number.
Definition reject_callback (row_number : Z) : string := "reject_" +:+ Py.str row_number.

End ManagerBot.

Module Stats.

(** What [stats_command] puts into its report. *)
Record report := Report { total : Z; accepted : Z; rejected : Z; pending : Z }.

(** The status [stats_command] reads off a row:
    [row[HEADERS['Status'] - 1] if len(row) >= HEADERS['Status'] else ""],
    stripped. *)
Definition status (row : list string) : string :=
  Py.strip (if bool_decide (col "Status" ≤ Z.of_nat (length row))
            then nth (Z.to_nat (col "Status" - 1)) row "" else "").

(** The loop of [stats_command] over [all_values[1:]]. *)
Definition status_counts (rows : list (list string)) : gmap string Z :=
  foldl (λ counts row, <[status row := default 0 (counts !! status row) + 1]> counts)
        {["Accepted" := 0; "Rejected" := 0; "Pending" := 0; "" := 0]} rows.

(** Lines 392-402 of [stats_command]: the figures of the report. *)
Definition count (all_values : list (list string)) : report :=
  let total := Z.of_nat (length all_values) - 1 in
  let status_counts := status_counts (drop 1 all_values) in
  let accepted := default 0 (status_counts !! "Accepted") in
  let rejected := default 0 (status_counts !! "Rejected") in
  let pending := default 0 (status_counts !! "Pending")
                 + default 0 (status_counts !! "") in
  Report total accepted rejected pending.

End Stats.

(** ** Vocabulary of the further properties *)

(** Every character of a string passes the test. *)
Fixpoint all_chars (P : ascii → bool) (s : string) : bool :=
  match s with
  | EmptyString => true
  | String c s' => P c && all_chars P s'
  end.

(** The text that stands for one character after [_escape_text]. *)
Definition entity (c : ascii) : string :=
  if Ascii.eqb c "&" then "&amp;"
  else if Ascii.eqb c "<" then "&lt;"
  else if Ascii.eqb c ">" then "&gt;"
  else String c "".

Fixpoint entities (s : string) : string :=
  match s with
  | EmptyString => EmptyString
  | String c s' => entity c +:+ entities s'
  end.

(** A character that is none of [&], [<] and [>]. *)
Definition plain (c : ascii) : bool :=
  negb (Ascii.eqb c "&") && negb (Ascii.eqb c "<") && negb (Ascii.eqb c ">").

(** A decimal digit. *)
Definition is_digit (c : ascii) : bool := bool_decide (is_Some (Py.digit c)).

(** The number of rows with a given status. *)
Definition rows_with (P : string → Prop) `{∀ s, Decision (P s)}
    (rows : list (list string)) : Z :=
  Z.of_nat (length (filter (λ row, P (Stats.status row)) rows)).

(** A computation changes no cell outside [P], whatever the world it starts
    in and however it ends. *)
Definition writes_within {A} (P : Z → Z → Prop) (m : M World A) : Prop :=
  ∀ w r c, 1 ≤ r → 1 ≤ c → ¬ P r c →
           gspread.cell (cells_of (m w).2) r c = gspread.cell (cells_of w) r c.

(** The two cells a decision on [row] may write. *)
Definition decision_cell (row r c : Z) : Prop :=
  r = row ∧ (c = col "Status" ∨ c = col "Group_Link").

(** The row number [handle_decision] reads off the callback data: [None]
    when there are fewer than two parts or the second is no integer. *)
Definition callback_row (callback_data : string) : option Z :=
  match Py.split "_" callback_data with
  | _ :: row_text :: _ => Py.int row_text
  | _ => None
  end.

(** From the grid [g] to the grid [g'] nothing changed but, at most, the
    Status cells of some of the rows [rows], which now hold "Pending". *)
Definition marked (rows : list Z) (g g' : list (list string)) : Prop :=
  ∀ r c, 1 ≤ r → 1 ≤ c →
         gspread.cell g' r c = gspread.cell g r c
         ∨ (c = col "Status" ∧ r ∈ rows ∧ gspread.cell g' r c = "Pending").

(** Every run of [m] takes a world to one related to it by [R], however it
    ends. *)
Definition relates {A} (R : World → World → Prop) (m : M World A) : Prop :=
  ∀ w, R w (m w).2.

(** What a sweep over the rows [rows] may do to the world. *)
Definition swept (rows : list Z) (w w' : World) : Prop :=
  marked rows (cells_of w) (cells_of w') ∧ processed_records w' = processed_records w.

(** From the world [w] to the world [w'] every cell is as it was or holds a
    value [P] allows for it. *)
Definition wrote (P : Z → Z → string → Prop) (w w' : World) : Prop :=
  ∀ r c, 1 ≤ r → 1 ≤ c →
         gspread.cell (cells_of w') r c = gspread.cell (cells_of w) r c
         ∨ P r c (gspread.cell (cells_of w') r c).

(** The cells of the Telegram_ID column, the header row included: what
    [col_values] returns to [find_user_by_telegram_id]. *)
Definition stored_telegram_ids (w : World) : list string :=
  (λ r, nth (Z.to_nat (col "Telegram_ID" - 1)) r "") <$> cells_of w.

(** The cache, were it enabled, would drop the entry of [tid'] to make room
    for a new entry of [tid]. *)
Definition evicts (config : Config) (tid tid' : string) (c : PyDict.t Dict) : Prop :=
  (cache_key tid ∉ PyDict.keys c)
  ∧ max_cache_size config ≤ Z.of_nat (length c)
  ∧ PyDict.first_key c = Some (cache_key tid').

(** The notification of a decision to the applicant, as [handle_decision]
    words it for a record. *)
Definition decision_message (config : Config) (accepted : bool) (record : Dict)
    : message :=
  let committee := Py.strip (get record "Committee" "نامشخص") in
  if accepted
  then MsgAccepted (fields record !! "Name") (Some committee)
                   (default "" (committee_links config !! committee)) (team_link config)
  else MsgRejected (fields record !! "Name") (Some committee).

(** Whether a notification to [telegram_id] goes through when no call of
    the Bot API is scheduled to fail. *)
Definition notifiable (w : World) (telegram_id : string) : bool :=
  Py.truthy telegram_id && negb (bool_decide (Py.strip telegram_id = ""))
  && negb (bool_decide (telegram_id ∈ Telegram.blocked (telegram w))).

(** * Properties *)

(** ** The monad *)

Lemma bind_ok {S A B} (m : M S A) (k : A → M S B) s a s' :
  m s = (Ok a, s') → (m ≫= k) s = k a s'.
Proof. intros H. unfold mbind, M_bind. by rewrite H. Qed.

Lemma bind_raise {S A B} (m : M S A) (k : A → M S B) s e s' :
  m s = (Raise e, s') → (m ≫= k) s = (Raise e, s').
Proof. intros H. unfold mbind, M_bind. by rewrite H. Qed.

Lemma try_ok {S A} (m : M S A) h s a s' :
  m s = (Ok a, s') → try_except m h s = (Ok a, s').
Proof. intros H. unfold try_except. by rewrite H. Qed.

Lemma try_raise {S A} (m : M S A) h s e s' :
  m s = (Raise e, s') → try_except m h s = h e s'.
Proof. intros H. unfold try_except. by rewrite H. Qed.

(** ** Insertion-ordered dictionaries *)

Lemma PyDict_set_fresh {V} k (v : V) d :
  k ∉ PyDict.keys d → PyDict.set k v d = d ++ [(k, v)].
Proof.
  induction d as [|[k' v'] d IH]; simpl; [done|].
  intros Hk. apply not_elem_of_cons in Hk as [Hne Hk].
  destruct (decide (k' = k)); [congruence|]. by rewrite IH.
Qed.

Lemma PyDict_set_present {V} k (v : V) d :
  k ∈ PyDict.keys d →
  PyDict.keys (PyDict.set k v d) = PyDict.keys d ∧ length (PyDict.set k v d) = length d.
Proof.
  induction d as [|[k' v'] d IH]; simpl.
  - intros H. by apply elem_of_nil in H.
  - intros Hk. destruct (decide (k' = k)) as [->|Hne]; simpl; [done|].
    apply elem_of_cons in Hk as [->|Hk]; [done|].
    destruct (IH Hk) as [-> ->]. done.
Qed.

Lemma PyDict_get_set {V} k (v : V) d : PyDict.get k (PyDict.set k v d) = Some v.
Proof.
  induction d as [|[k' v'] d IH]; simpl.
  - by rewrite decide_True.
  - destruct (decide (k' = k)) as [->|Hne]; simpl.
    + by rewrite decide_True.
    + by rewrite decide_False.
Qed.

Lemma PyDict_pop_oldest {V} (d : PyDict.t V) k :
  PyDict.first_key d = Some k → PyDict.pop k d = drop 1 d.
Proof.
  destruct d as [|[k' v'] d]; simpl; [done|].
  intros [= ->]. by rewrite decide_True.
Qed.

Lemma PyDict_get_None {V} k (d : PyDict.t V) :
  PyDict.get k d = None ↔ k ∉ PyDict.keys d.
Proof.
  induction d as [|[k' v'] d IH]; simpl.
  - split; [intros _; apply not_elem_of_nil|done].
  - destruct (decide (k' = k)) as [->|Hne].
    + split; [done|]. intros H. exfalso. apply H. left.
    + rewrite IH. rewrite not_elem_of_cons. split; [by intros ?; split|by intros [_ ?]].
Qed.

(** ** The cache ([_set_cache]) *)

Arguments Client._set_cache : simpl never.

Lemma truthy_nonempty (s : string) : Py.truthy s = true ↔ s ≠ "".
Proof.
  unfold Py.truthy. destruct (String.eqb_spec s "") as [->|Hne]; simpl; split; try done.
Qed.

Lemma cache_key_inj a b : cache_key a = cache_key b → a = b.
Proof. unfold cache_key. apply (inj (String.app "tg_")). Qed.

Lemma set_cache_present config tid rec c :
  tid ≠ "" → cache_key tid ∈ PyDict.keys c →
  Client._set_cache config tid rec (Some c)
  = (Ok (), Some (PyDict.set (cache_key tid) rec c)).
Proof.
  intros Htid Hin. unfold Client._set_cache.
  apply truthy_nonempty in Htid. rewrite Htid. simpl.
  unfold PyDict.contains. fold (cache_key tid). by rewrite bool_decide_eq_true_2.
Qed.

Lemma set_cache_room config tid rec c :
  tid ≠ "" → cache_key tid ∉ PyDict.keys c →
  Z.of_nat (length c) < max_cache_size config →
  Client._set_cache config tid rec (Some c)
  = (Ok (), Some (c ++ [(cache_key tid, rec)])).
Proof.
  intros Htid Hin Hlen. unfold Client._set_cache.
  apply truthy_nonempty in Htid. rewrite Htid. simpl.
  unfold PyDict.contains. fold (cache_key tid).
  rewrite bool_decide_eq_false_2 by done. simpl.
  rewrite bool_decide_eq_false_2 by lia. by rewrite PyDict_set_fresh.
Qed.

Lemma set_cache_full config tid rec e c :
  tid ≠ "" → cache_key tid ∉ PyDict.keys (e :: c) →
  max_cache_size config ≤ Z.of_nat (length (e :: c)) →
  Client._set_cache config tid rec (Some (e :: c))
  = (Ok (), Some (c ++ [(cache_key tid, rec)])).
Proof.
  intros Htid Hin Hlen. unfold Client._set_cache.
  apply truthy_nonempty in Htid. rewrite Htid. simpl negb. cbv iota.
  unfold PyDict.contains. fold (cache_key tid).
  rewrite bool_decide_eq_false_2 by done. simpl negb.
  rewrite bool_decide_eq_true_2 by done. simpl andb. cbv iota.
  destruct e as [k0 v0]. simpl. rewrite decide_True by done.
  rewrite PyDict_set_fresh; [done|].
  intros H. apply Hin. simpl. by right.
Qed.

Lemma set_cache_bound config tid rec cache :
  Z.of_nat (cache_size cache) ≤ max_cache_size config →
  Z.of_nat (cache_size (Client._set_cache config tid rec cache).2)
  ≤ max_cache_size config.
Proof.
  intros Hlen. destruct cache as [c|]; [|done].
  destruct (decide (tid = "")) as [->|Htid]; [done|].
  destruct (decide (cache_key tid ∈ PyDict.keys c)) as [Hin|Hin].
  - rewrite set_cache_present by done. simpl.
    destruct (PyDict_set_present (cache_key tid) rec c Hin) as [_ ->]. done.
  - destruct (decide (Z.of_nat (length c) < max_cache_size config)) as [Hlt|Hge].
    + rewrite set_cache_room by done. simpl. rewrite length_app. simpl. lia.
    + destruct c as [|e c].
      * unfold Client._set_cache. apply truthy_nonempty in Htid. rewrite Htid. simpl.
        rewrite bool_decide_eq_true_2 by (simpl in *; lia). done.
      * rewrite set_cache_full by (done || lia). simpl in *.
        rewrite length_app. simpl. lia.
Qed.

Lemma puts_bound config calls cache :
  Z.of_nat (cache_size cache) ≤ max_cache_size config →
  Z.of_nat (cache_size (puts config calls cache)) ≤ max_cache_size config.
Proof.
  revert cache. induction calls as [|[tid rec] calls IH]; intros cache Hlen; simpl.
  - done.
  - apply IH. by apply set_cache_bound.
Qed.

(** The cache after inserts under keys that are new and distinct: the last
    [max_cache_size] entries, oldest first. *)
Lemma puts_distinct config calls c :
  1 ≤ max_cache_size config →
  Forall (λ call : string * Dict, call.1 ≠ "") calls →
  NoDup (PyDict.keys c ++ (cache_key <$> calls.*1)) →
  Z.of_nat (length c) ≤ max_cache_size config →
  puts config calls (Some c)
  = Some (drop (length c + length calls - Z.to_nat (max_cache_size config))
               (c ++ ((λ call : string * Dict, (cache_key call.1, call.2)) <$> calls))).
Proof.
  intros HK. revert c.
  induction calls as [|[tid rec] calls IH]; intros c Hne Hnd Hlen; simpl.
  - rewrite app_nil_r.
    replace (length c + 0 - Z.to_nat (max_cache_size config))%nat with 0%nat by lia.
    done.
  - apply Forall_cons in Hne as [Htid Hne]. simpl in Htid.
    apply NoDup_app in Hnd as (Hc & Hdisj & Hcalls).
    apply NoDup_cons in Hcalls as [Hfresh Hcalls].
    assert (cache_key tid ∉ PyDict.keys c) as Hin.
    { intros H. apply (Hdisj _ H). left. }
    destruct (decide (Z.of_nat (length c) < max_cache_size config)) as [Hlt|Hge].
    + rewrite set_cache_room by done. simpl. rewrite IH; first last.
      * rewrite length_app. simpl. lia.
      * unfold PyDict.keys. rewrite fmap_app. simpl. rewrite <- app_assoc. simpl.
        apply NoDup_app. split_and!; [done| |by apply NoDup_cons].
        intros x Hx. apply Hdisj. done.
      * done.
      * rewrite <- app_assoc. simpl. rewrite length_app. simpl.
        f_equal. f_equal. lia.
    + destruct c as [|e c]; [simpl in *; lia|].
      rewrite set_cache_full by (done || lia). simpl. rewrite IH; first last.
      * rewrite length_app. simpl in *. lia.
      * unfold PyDict.keys in *. rewrite fmap_app. simpl. rewrite <- app_assoc. simpl.
        simpl in Hc. apply NoDup_cons in Hc as [_ Hc].
        apply NoDup_app. split_and!; [done| |by apply NoDup_cons].
        intros x Hx. apply Hdisj. simpl. by right.
      * done.
      * rewrite <- app_assoc. simpl. rewrite length_app. simpl in *.
        replace (length c + 1 + length calls - Z.to_nat (max_cache_size config))%nat
          with (length calls) by lia.
        replace (S (length c + S (length calls)) - Z.to_nat (max_cache_size config))%nat
          with (S (length calls)) by lia.
        done.
Qed.

(** C8.  The cache never holds more than [max_cache_size] entries, whatever
    the run of [_set_cache] calls.  At capacity, an insert under a new key
    drops the entry inserted first and puts the new one last (FIFO), so after
    [max_cache_size + 1] inserts under distinct keys the cache holds the later
    [max_cache_size] entries in order and the first key is gone.  An insert
    under a key that is present replaces the record in place and drops
    nothing.  A lookup leaves the order alone. *)
Theorem cache_bounded_fifo (config : Config) :
  (∀ cache calls,
     Z.of_nat (cache_size cache) ≤ max_cache_size config →
     Z.of_nat (cache_size (puts config calls cache)) ≤ max_cache_size config)
  ∧ (∀ c tid rec,
       1 ≤ max_cache_size config → tid ≠ "" →
       cache_key tid ∉ PyDict.keys c →
       Z.of_nat (length c) = max_cache_size config →
       Client._set_cache config tid rec (Some c)
       = (Ok (), Some (drop 1 c ++ [(cache_key tid, rec)])))
  ∧ (∀ first rest,
       1 ≤ max_cache_size config →
       Z.of_nat (length rest) = max_cache_size config →
       NoDup (first :: rest).*1 →
       Forall (λ call : string * Dict, call.1 ≠ "") (first :: rest) →
       puts config (first :: rest) (Some [])
       = Some ((λ call : string * Dict, (cache_key call.1, call.2)) <$> rest)
       ∧ cache_key first.1
         ∉ PyDict.keys ((λ call : string * Dict, (cache_key call.1, call.2)) <$> rest))
  ∧ (∀ c tid rec,
       tid ≠ "" → cache_key tid ∈ PyDict.keys c →
       Client._set_cache config tid rec (Some c)
       = (Ok (), Some (PyDict.set (cache_key tid) rec c))
       ∧ PyDict.keys (PyDict.set (cache_key tid) rec c) = PyDict.keys c
       ∧ PyDict.get (cache_key tid) (PyDict.set (cache_key tid) rec c) = Some rec)
  ∧ (∀ cache tid, (Client._get_from_cache tid cache).2 = cache).
Proof.
  split_and!.
  - intros cache calls. apply puts_bound.
  - intros c tid rec HK Htid Hin Hlen.
    destruct c as [|e c]; [simpl in Hlen; lia|].
    rewrite set_cache_full by (done || lia). done.
  - intros first rest HK Hlen Hnd Hne.
    assert (NoDup (cache_key <$> (first :: rest).*1)) as Hnd'.
    { apply NoDup_fmap_2; [|done]. intros a b. apply cache_key_inj. }
    rewrite puts_distinct; [| done | done | done | simpl; lia].
    split.
    + simpl. replace (S (length rest) - Z.to_nat (max_cache_size config))%nat
        with 1%nat by lia. done.
    + simpl in Hnd'. apply NoDup_cons in Hnd' as [Hfresh _].
      unfold PyDict.keys. rewrite <- list_fmap_compose.
      intros H. apply Hfresh. rewrite <- list_fmap_compose. exact H.
  - intros c tid rec Htid Hin. split_and!.
    + by apply set_cache_present.
    + by apply PyDict_set_present.
    + apply PyDict_get_set.
  - intros [c|] tid; done.
Qed.

Lemma cache_bounded_fifo_witness :
  Client._set_cache demo_config "3" empty_dict
    (Some [("tg_1", empty_dict); ("tg_2", empty_dict)])
  = (Ok (), Some [("tg_2", empty_dict); ("tg_3", empty_dict)])
  ∧ puts demo_config [("1", empty_dict); ("2", empty_dict); ("3", empty_dict)] (Some [])
    = Some [("tg_2", empty_dict); ("tg_3", empty_dict)].
Proof.
  destruct (cache_bounded_fifo demo_config) as (_ & Hevict & Hfifo & _).
  split.
  - apply (Hevict [("tg_1", empty_dict); ("tg_2", empty_dict)] "3" empty_dict).
    + vm_compute. discriminate.
    + discriminate.
    + apply (bool_decide_unpack _). vm_compute. exact I.
    + reflexivity.
  - apply (Hfifo ("1", empty_dict) [("2", empty_dict); ("3", empty_dict)]).
    + vm_compute. discriminate.
    + reflexivity.
    + apply (bool_decide_unpack _). vm_compute. exact I.
    + repeat constructor; discriminate.
Defined.

(** ** The sliding window ([_check_logged_user_rate_limit]) *)

Lemma rate_limit_step config tid w :
  Client._check_logged_user_rate_limit config tid w
  = if bool_decide (max_logged_requests config ≤ Z.of_nat (length (recent config tid w)))
    then (Ok true,
          set_logged_user_requests
            (<[tid := recent config tid w]> (logged_user_requests w)) w)
    else (Ok false,
          set_logged_user_requests
            (<[tid := recent config tid w ++ [now w]]> (logged_user_requests w)) w).
Proof.
  unfold Client._check_logged_user_rate_limit, recent.
  unfold mbind, M_bind, datetime_now, gets, modify, mret, M_ret. simpl.
  case_bool_decide; [done|].
  unfold set_logged_user_requests. simpl. by rewrite insert_insert_eq.
Qed.

Lemma filter_all {A} (P : A → Prop) `{∀ x, Decision (P x)} (l : list A) :
  (∀ x, x ∈ l → P x) → filter P l = l.
Proof.
  induction l as [|a l IH]; intros Hall; [done|].
  rewrite filter_cons_True by (apply Hall; left).
  f_equal. apply IH. intros x Hx. apply Hall. by right.
Qed.

(** Requests that all fall within one window of each other and of the
    timestamps already kept are let through while the cap is not reached. *)
Lemma requests_within_window config tid ts w acc :
  logged_user_requests w !! tid = Some acc ∨ (logged_user_requests w !! tid = None ∧ acc = []) →
  (∀ a t, a ∈ acc ++ ts → t ∈ ts → t - a < minutes (logged_limit_minutes config)) →
  Z.of_nat (length acc + length ts) ≤ max_logged_requests config →
  ∃ w', requests config tid ts w = (Ok (replicate (length ts) false), w')
        ∧ (ts ≠ [] → logged_user_requests w' !! tid = Some (acc ++ ts))
        ∧ (ts = [] → w' = w).
Proof.
  revert w acc. induction ts as [|t ts IH]; intros w acc Hacc Hwin Hlen.
  - exists w. done.
  - cbn [requests]. unfold modify at 1.
    unfold mbind at 1, M_bind at 1. cbv beta iota.
    set (w0 := set_now t w).
    assert (recent config tid w0 = acc) as Hrecent.
    { unfold recent, w0. simpl.
      destruct Hacc as [->|[-> ->]]; simpl; [|done].
      apply filter_all. intros a Ha. apply Hwin; [|left].
      apply elem_of_app. by left. }
    erewrite bind_ok; last first.
    { rewrite rate_limit_step, Hrecent.
      rewrite bool_decide_eq_false_2; [reflexivity|]. simpl in Hlen. lia. }
    set (w1 := set_logged_user_requests _ w0).
    destruct (IH w1 (acc ++ [t])) as (w' & Hrun & Hlog & Hnil).
    + left. unfold w1. simpl. by rewrite lookup_insert_eq.
    + intros a t' Ha Ht'. apply Hwin; [|by right].
      rewrite <- app_assoc in Ha. exact Ha.
    + rewrite length_app. simpl in *. lia.
    + exists w'. split_and!.
      * unfold fmap, M_fmap. rewrite Hrun. done.
      * intros _. destruct ts as [|t2 ts].
        -- rewrite (Hnil eq_refl). unfold w1. simpl. by rewrite lookup_insert_eq.
        -- rewrite Hlog by done. by rewrite <- app_assoc.
      * done.
Qed.

(** C7.  Every rate check first prunes the timestamps that are a window or
    more old; with [max_logged_requests] or more left it answers "limited" and
    stores the pruned list only, otherwise it lets the request through and
    appends the current time.  Hence, for a user with no requests so far: as
    many requests as the cap, all within one window, are let through; one
    more inside that window is refused and not recorded; and once a window
    has passed since the first of them a request is let through again. *)
Theorem sliding_window_rate_limit (config : Config) (tid : string) :
  (∀ w,
     Client._check_logged_user_rate_limit config tid w
     = if bool_decide (max_logged_requests config
                       ≤ Z.of_nat (length (recent config tid w)))
       then (Ok true,
             set_logged_user_requests
               (<[tid := recent config tid w]> (logged_user_requests w)) w)
       else (Ok false,
             set_logged_user_requests
               (<[tid := recent config tid w ++ [now w]]> (logged_user_requests w)) w))
  ∧ (∀ w t1 ts t t',
       logged_user_requests w !! tid = None →
       Z.of_nat (length (t1 :: ts)) = max_logged_requests config →
       (∀ a b, a ∈ t1 :: ts → b ∈ t1 :: ts →
               b - a < minutes (logged_limit_minutes config)) →
       (∀ a, a ∈ t1 :: ts → t - a < minutes (logged_limit_minutes config)) →
       minutes (logged_limit_minutes config) ≤ t' - t1 →
       ∃ w1 w2 w3 kept,
         requests config tid (t1 :: ts) w
         = (Ok (replicate (length (t1 :: ts)) false), w1)
         ∧ logged_user_requests w1 !! tid = Some (t1 :: ts)
         ∧ Client._check_logged_user_rate_limit config tid (set_now t w1)
           = (Ok true, w2)
         ∧ logged_user_requests w2 !! tid = Some (t1 :: ts)
         ∧ Client._check_logged_user_rate_limit config tid (set_now t' w2)
           = (Ok false, w3)
         ∧ logged_user_requests w3 !! tid = Some (kept ++ [t'])
         ∧ t1 ∉ kept).
Proof.
  split; [apply rate_limit_step|].
  intros w t1 ts t t' Hnone Hlen Hwin Ht Ht'.
  destruct (requests_within_window config tid (t1 :: ts) w []) as (w1 & Hrun & Hlog & _).
  { by right. }
  { intros a b Ha Hb. by apply Hwin. }
  { simpl in *. lia. }
  specialize (Hlog ltac:(done)). simpl in Hlog.
  assert (recent config tid (set_now t w1) = t1 :: ts) as Hrec.
  { unfold recent. simpl. rewrite Hlog. simpl. by apply filter_all. }
  set (w2 := set_logged_user_requests
               (<[tid := t1 :: ts]> (logged_user_requests (set_now t w1))) (set_now t w1)).
  assert (logged_user_requests w2 !! tid = Some (t1 :: ts)) as Hlog2.
  { unfold w2. simpl. by rewrite lookup_insert_eq. }
  set (kept := recent config tid (set_now t' w2)).
  assert (kept = filter (λ req, t' - req < minutes (logged_limit_minutes config)) ts)
    as Hkept.
  { unfold kept, recent. cbn [now set_now logged_user_requests].
    change (logged_user_requests w2) with
      (<[tid := t1 :: ts]> (logged_user_requests (set_now t w1))).
    rewrite lookup_insert_eq. simpl. rewrite filter_cons_False by lia. done. }
  eexists w1, w2, _, kept. split_and!.
  - exact Hrun.
  - exact Hlog.
  - rewrite rate_limit_step, Hrec. rewrite bool_decide_eq_true_2; [done|].
    rewrite <- Hlen. done.
  - exact Hlog2.
  - rewrite rate_limit_step. fold kept. rewrite bool_decide_eq_false_2; [reflexivity|].
    rewrite Hkept. pose proof (length_filter (λ req, t' - req < minutes (logged_limit_minutes config)) ts).
    simpl in Hlen. lia.
  - simpl. by rewrite lookup_insert_eq.
  - rewrite Hkept. intros Hin. apply list_elem_of_filter in Hin as [Hlt _]. lia.
Qed.

Lemma sliding_window_rate_limit_witness :
  ∃ w1 w2 w3 kept,
    requests demo_config "77" [0; 1000] (world_at 0 [])
    = (Ok (replicate (length [0; 1000]) false), w1)
    ∧ logged_user_requests w1 !! "77" = Some [0; 1000]
    ∧ Client._check_logged_user_rate_limit demo_config "77" (set_now 2000 w1)
      = (Ok true, w2)
    ∧ logged_user_requests w2 !! "77" = Some [0; 1000]
    ∧ Client._check_logged_user_rate_limit demo_config "77" (set_now 300000000 w2)
      = (Ok false, w3)
    ∧ logged_user_requests w3 !! "77" = Some (kept ++ [300000000])
    ∧ 0 ∉ kept.
Proof.
  destruct (sliding_window_rate_limit demo_config "77") as [_ Hscenario].
  apply (Hscenario (world_at 0 []) 0 [1000] 2000 300000000).
  - reflexivity.
  - reflexivity.
  - intros a b Ha Hb.
    apply elem_of_cons in Ha as [->|Ha]; [|apply list_elem_of_singleton in Ha as ->];
    (apply elem_of_cons in Hb as [->|Hb]; [|apply list_elem_of_singleton in Hb as ->]);
    vm_compute; reflexivity.
  - intros a Ha.
    apply elem_of_cons in Ha as [->|Ha]; [|apply list_elem_of_singleton in Ha as ->];
    vm_compute; reflexivity.
  - vm_compute. discriminate.
Defined.

(** ** Frames: what a computation leaves alone *)

Lemma preserves_ret {A X} (f : World → X) (a : A) : preserves f (mret a).
Proof. done. Qed.

Lemma preserves_raise {A X} (f : World → X) e : preserves f (raise e : M World A).
Proof. done. Qed.

Lemma preserves_gets {A X} (f : World → X) (g : World → A) : preserves f (gets g).
Proof. done. Qed.

Lemma preserves_bind {A B X} (f : World → X) (m : M World A) (k : A → M World B) :
  preserves f m → (∀ a, preserves f (k a)) → preserves f (m ≫= k).
Proof.
  intros Hm Hk w. unfold mbind, M_bind. specialize (Hm w).
  destruct (m w) as [[a|e] w']; simpl in *; [|done]. by rewrite Hk.
Qed.

Lemma preserves_fmap {A B X} (f : World → X) (g : A → B) (m : M World A) :
  preserves f m → preserves f (g <$> m).
Proof.
  intros Hm w. unfold fmap, M_fmap. specialize (Hm w).
  by destruct (m w) as [[a|e] w'].
Qed.

Lemma preserves_try {A X} (f : World → X) (m : M World A) h :
  preserves f m → (∀ e, preserves f (h e)) → preserves f (try_except m h).
Proof.
  intros Hm Hh w. unfold try_except. specialize (Hm w).
  destruct (m w) as [[a|e] w']; simpl in *; [done|]. by rewrite Hh.
Qed.

Lemma preserves_modify {X} (f : World → X) (g : World → World) :
  (∀ w, f (g w) = f w) → preserves f (modify g).
Proof. intros Hg w. apply Hg. Qed.

Lemma preserves_zoom {A T X} (f : World → X) (get : World → T) set (m : M T A) :
  (∀ t w, f (set t w) = f w) → preserves f (zoom get set m).
Proof.
  intros Hset w. unfold zoom. destruct (m (get w)) as [r t]. apply Hset.
Qed.

Lemma preserves_sheet {A X} (f : World → X) (m : M gspread.worksheet A) :
  (∀ t w, f (set_worksheet t w) = f w) → preserves f (sheet m).
Proof. apply preserves_zoom. Qed.

Lemma preserves_tg {X} (f : World → X) c :
  (∀ t w, f (set_telegram t w) = f w) → preserves f (tg c).
Proof. apply preserves_zoom. Qed.

Lemma preserves_cache {A X} (f : World → X) (m : M (option (PyDict.t Dict)) A) :
  (∀ t w, f (set_user_cache t w) = f w) → preserves f (Client.cache m).
Proof. apply preserves_zoom. Qed.

(** A read of the sheet changes no cell. *)
Lemma preserves_cells_read {A} (valid : bool) (f : list (list string) → A) :
  preserves (λ w, gspread.cells (worksheet w)) (sheet (gspread.read valid f)).
Proof.
  intros w. unfold sheet, zoom, gspread.read, gspread.next_fault, mbind, M_bind.
  destruct (hd _ _); simpl; try done. by destruct valid.
Qed.

(** Breaks a frame goal down along the structure of the computation. *)
Ltac frame_step :=
  match goal with
  | |- preserves _ (mret _) => apply preserves_ret
  | |- preserves _ (raise _) => apply preserves_raise
  | |- preserves _ (gets _) => apply preserves_gets
  | |- preserves _ (_ ≫= _) => apply preserves_bind; [|intros ?]
  | |- preserves _ (_ <$> _) => apply preserves_fmap
  | |- preserves _ (try_except _ _) => apply preserves_try; [|intros ?]
  | |- preserves _ (sheet _) =>
      first [apply preserves_sheet; done | apply preserves_cells_read]
  | |- preserves _ (tg _) => apply preserves_tg; done
  | |- preserves _ (Client.cache _) => apply preserves_cache; done
  | |- preserves _ (modify _) => apply preserves_modify; done
  | |- preserves _ (datetime_now) => apply preserves_gets
  | |- preserves _ (match ?x with _ => _ end) => destruct x
  | |- preserves _ (if ?x then _ else _) => destruct x
  | |- preserves _ (let _ := _ in _) => cbv zeta
  end.

Ltac frame := repeat frame_step.

(** The lookups and the status display touch neither the attempt records nor
    the clock. *)
Lemma get_record_by_row_frame {X} (f : World → X) row :
  (∀ t w, f (set_worksheet t w) = f w) →
  preserves f (Client.get_record_by_row row).
Proof. intros H. unfold Client.get_record_by_row. frame. Qed.

Lemma lookup_frame {X} (f : World → X) config tid username :
  (∀ t w, f (set_worksheet t w) = f w) →
  (∀ t w, f (set_user_cache t w) = f w) →
  preserves f (Client.lookup config tid username).
Proof.
  intros Hs Hc.
  unfold Client.lookup, Client.find_user_by_telegram_id, Client.find_user_by_username,
    Client.update_user_fields.
  frame; by apply get_record_by_row_frame.
Qed.

(** ** Bans ([_is_user_banned], [_record_failed_attempt], [start_command]) *)

Lemma is_banned_absent tid w :
  user_attempts w !! tid = None → Client._is_user_banned tid w = (Ok (false, None), w).
Proof.
  intros H. unfold Client._is_user_banned, mbind, M_bind, gets. by rewrite H.
Qed.

Lemma is_banned_free tid w a :
  user_attempts w !! tid = Some a → banned_until a = None →
  Client._is_user_banned tid w = (Ok (false, None), w).
Proof.
  intros H Hb. unfold Client._is_user_banned, mbind, M_bind, gets. by rewrite H, Hb.
Qed.














(** ** Calls on the sheet *)

Lemma sheet_read_ok {A} (valid : bool) (f : list (list string) → A) w :
  hd gspread.NoFault (gspread.faults (worksheet w)) = gspread.NoFault →
  valid = true →
  sheet (gspread.read valid f) w = (Ok (f (cells_of w)), after_call w).
Proof.
  intros Hf ->. unfold sheet, zoom, gspread.read, gspread.next_fault.
  unfold mbind, M_bind. rewrite Hf. done.
Qed.

Lemma sheet_read_fault {A} (valid : bool) (f : list (list string) → A) w :
  hd gspread.NoFault (gspread.faults (worksheet w)) ≠ gspread.NoFault →
  sheet (gspread.read valid f) w = (Raise APIError, after_call w).
Proof.
  intros Hf. unfold sheet, zoom, gspread.read, gspread.next_fault.
  unfold mbind, M_bind.
  destruct (hd gspread.NoFault (gspread.faults (worksheet w))); done.
Qed.

Lemma fault_free_hd w :
  fault_free w → hd gspread.NoFault (gspread.faults (worksheet w)) = gspread.NoFault.
Proof. unfold fault_free. by intros ->. Qed.

Lemma fault_free_after_call w : fault_free w → fault_free (after_call w).
Proof. unfold fault_free, after_call. simpl. by intros ->. Qed.

Lemma get_record_by_row_ok row w :
  hd gspread.NoFault (gspread.faults (worksheet w)) = gspread.NoFault →
  1 ≤ row →
  Client.get_record_by_row row w = (Ok (record_at w row), after_call w).
Proof.
  intros Hf Hrow. unfold Client.get_record_by_row, gspread.row_values.
  erewrite try_ok; [reflexivity|].
  erewrite bind_ok; [reflexivity|].
  apply sheet_read_ok; [done|]. by apply Z.leb_le.
Qed.

(** ** Lookup by username ([find_user_by_username]) *)

Lemma first_match_lower_bound search i l j :
  Client.first_match search i l = Some j → i ≤ j.
Proof.
  revert i. induction l as [|u l IH]; intros i; simpl; [done|].
  destruct (decide (Client.clean u = search)); [intros [= ->]; lia|].
  intros H. apply IH in H. lia.
Qed.

(** [first_match] finds the first position whose username has the normal
    form looked for, counting rows from [i]. *)
Lemma first_match_Some search i l j :
  Client.first_match search i l = Some j ↔
  ∃ k u, j = i + Z.of_nat k ∧ l !! k = Some u ∧ Client.clean u = search
         ∧ ∀ k' u', (k' < k)%nat → l !! k' = Some u' → Client.clean u' ≠ search.
Proof.
  revert i. induction l as [|u l IH]; intros i; simpl.
  - split; [done|]. intros (k & u & _ & Hk & _). by rewrite lookup_nil in Hk.
  - destruct (decide (Client.clean u = search)) as [Heq|Hne].
    + split.
      * intros [= <-]. exists 0%nat, u. split_and!; [lia|done|done|lia].
      * intros (k & u' & -> & Hk & Hc & Hmin). destruct k as [|k]; [f_equal; lia|].
        exfalso. apply (Hmin 0%nat u); [lia|done|done].
    + rewrite IH. split.
      * intros (k & u' & -> & Hk & Hc & Hmin). exists (S k), u'.
        split_and!; [lia|done|done|].
        intros [|k'] u'' Hlt Hk'; simpl in Hk'; [by injection Hk' as <-|].
        apply (Hmin k'); [lia|done].
      * intros (k & u' & -> & Hk & Hc & Hmin). destruct k as [|k].
        { simpl in Hk. injection Hk as <-. done. }
        exists k, u'. split_and!; [lia|done|done|].
        intros k' u'' Hlt Hk'. apply (Hmin (S k')); [lia|done].
Qed.

Lemma first_match_None search i l :
  Client.first_match search i l = None ↔ ∀ u, u ∈ l → Client.clean u ≠ search.
Proof.
  revert i. induction l as [|u l IH]; intros i; simpl.
  - split; [|done]. intros _ u Hu. by apply elem_of_nil in Hu.
  - destruct (decide (Client.clean u = search)) as [Heq|Hne].
    + split; [done|]. intros H. exfalso. apply (H u); [left|done].
    + rewrite IH. split.
      * intros H u' Hu'. apply elem_of_cons in Hu' as [->|Hu']; [done|by apply H].
      * intros H u' Hu'. apply H. by right.
Qed.

Lemma get_from_cache_run tid w :
  Client.cache (Client._get_from_cache tid) w = (Ok (cache_lookup w tid), w).
Proof. by destruct w. Qed.

Lemma set_cache_ok config tid rec cache :
  1 ≤ max_cache_size config →
  ∃ cache', Client._set_cache config tid rec cache = (Ok (), cache').
Proof.
  intros HK. unfold Client._set_cache. destruct cache as [c|]; [|by eexists].
  destruct (negb (Py.truthy tid)); [by eexists|].
  destruct (negb _ && _) eqn:Hfull; [|by eexists].
  destruct c as [|e c]; [|by eexists]. exfalso.
  apply andb_true_iff in Hfull as [_ Hfull].
  apply bool_decide_eq_true in Hfull. simpl in Hfull. lia.
Qed.

Lemma cache_set_run config tid rec w :
  1 ≤ max_cache_size config →
  ∃ cache', Client.cache (Client._set_cache config tid rec) w
            = (Ok (), set_user_cache cache' w)
            ∧ Client._set_cache config tid rec (_user_cache w) = (Ok (), cache').
Proof.
  intros HK. destruct (set_cache_ok config tid rec (_user_cache w) HK) as [c' Hc'].
  exists c'. split; [|done]. unfold Client.cache, zoom. by rewrite Hc'.
Qed.

Lemma find_by_username_empty config tid w :
  Client.find_user_by_username config "" tid w = (Ok None, w).
Proof. done. Qed.

Lemma find_by_username_cached config username tid w d :
  username ≠ "" → cache_lookup w tid = Some d → dict_truthy d = true →
  Client.find_user_by_username config username tid w = (Ok (Some d), w).
Proof.
  intros Hu Hc Hd. unfold Client.find_user_by_username.
  apply truthy_nonempty in Hu. rewrite Hu. cbn [negb]. cbv beta iota zeta.
  rewrite (bind_ok _ _ _ _ _ (get_from_cache_run tid w)).
  rewrite Hc. simpl. by rewrite Hd.
Qed.

Lemma find_by_username_scan config username tid w :
  username ≠ "" → truthy (cache_lookup w tid) = false →
  fault_free w → 1 ≤ max_cache_size config →
  match Client.first_match (Client.clean username) 2 (stored_usernames w) with
  | Some i =>
      ∃ w', Client.find_user_by_username config username tid w
            = (Ok (Some (record_at w i)), w')
            ∧ cells_of w' = cells_of w
            ∧ Client._set_cache config tid (record_at w i) (_user_cache w)
              = (Ok (), _user_cache w')
  | None =>
      Client.find_user_by_username config username tid w = (Ok None, after_call w)
  end.
Proof.
  intros Hu Hmiss Hff HK. unfold Client.find_user_by_username.
  apply truthy_nonempty in Hu. rewrite Hu. cbn [negb]. cbv beta iota zeta.
  rewrite (bind_ok _ _ _ _ _ (get_from_cache_run tid w)). rewrite Hmiss.
  assert (sheet (gspread.col_values (col "Username")) w
          = (Ok ((λ r, nth (Z.to_nat (col "Username" - 1)) r "") <$> cells_of w),
             after_call w)) as Hcol.
  { apply sheet_read_ok; [by apply fault_free_hd|done]. }
  fold (stored_usernames w).
  destruct (Client.first_match _ 2 (stored_usernames w)) as [i|] eqn:Hfm.
  - pose proof (first_match_lower_bound _ _ _ _ Hfm) as Hi.
    destruct (cache_set_run config tid (record_at w i) (after_call (after_call w)) HK)
      as (c' & Hset & Hpure).
    eexists. split_and!.
    + erewrite try_ok; [reflexivity|].
      erewrite bind_ok by exact Hcol. unfold stored_usernames in Hfm. rewrite Hfm.
      erewrite bind_ok; last first.
      { apply get_record_by_row_ok; [|lia].
        apply fault_free_hd. by apply fault_free_after_call. }
      change (record_at (after_call w) i) with (record_at w i).
      erewrite bind_ok by exact Hset. reflexivity.
    + done.
    + exact Hpure.
  - erewrite try_ok; [reflexivity|].
    erewrite bind_ok by exact Hcol. unfold stored_usernames in Hfm. by rewrite Hfm.
Qed.

(** What [_set_cache] leaves under the id it was called for: the record, or
    nothing. *)
Lemma set_cache_lookup config tid rec cache cache' :
  Client._set_cache config tid rec cache = (Ok (), cache') →
  match cache' with
  | None => True
  | Some c =>
      Py.truthy tid = true → PyDict.get (cache_key tid) c = Some rec
  end.
Proof.
  unfold Client._set_cache. destruct cache as [c|]; [|by intros [= <-]].
  destruct (negb (Py.truthy tid)) eqn:Htid.
  { intros [= <-] Ht. rewrite Ht in Htid. done. }
  fold (cache_key tid). destruct (negb _ && _).
  - destruct (PyDict.first_key c); [|done]. intros [= <-] _. apply PyDict_get_set.
  - intros [= <-] _. apply PyDict_get_set.
Qed.

(** A call of [_set_cache] that raises leaves the cache as it was. *)
Lemma set_cache_raise config tid rec cache e cache' :
  Client._set_cache config tid rec cache = (Raise e, cache') → cache' = cache.
Proof.
  unfold Client._set_cache. destruct cache as [c|]; [|by intros [=]].
  destruct (negb (Py.truthy tid)); [by intros [=]|].
  destruct (negb _ && _); [|by intros [=]].
  destruct (PyDict.first_key c); [by intros [=]|]. by intros [= _ <-].
Qed.

(** After [find_user_by_telegram_id] returned nothing for an id, the cache
    holds no record under it: what [start_command] knows when it goes on to
    [find_user_by_username]. *)
Lemma telegram_id_miss_not_cached config tid r w0 w :
  Py.strip tid = tid →
  Client.find_user_by_telegram_id config tid w0 = (Ok r, w) →
  truthy r = false →
  truthy (cache_lookup w tid) = false.
Proof.
  intros Hstrip. unfold Client.find_user_by_telegram_id. cbv zeta. rewrite Hstrip.
  rewrite (bind_ok _ _ _ _ _ (get_from_cache_run tid w0)).
  destruct (truthy (cache_lookup w0 tid)) eqn:Hmiss.
  { intros [= <- <-] Hr. congruence. }
  unfold try_except. unfold mbind at 1, M_bind at 1.
  destruct (sheet (gspread.col_values (col "Telegram_ID")) w0) as [[vals|e] w1] eqn:Hcol.
  2:{ unfold mbind, M_bind, gets.
      pose proof (preserves_sheet has_CellNotFound (gspread.col_values (col "Telegram_ID"))
                    ltac:(done) w0) as Hh.
      pose proof (preserves_sheet _user_cache (gspread.col_values (col "Telegram_ID"))
                    ltac:(done) w0) as Hc.
      rewrite Hcol in Hh, Hc. cbn [snd] in Hh, Hc.
      destruct (has_CellNotFound w1); [|done]. intros [= <- <-] _.
      unfold cache_lookup in *. by rewrite Hc. }
  assert (_user_cache w1 = _user_cache w0) as Hc1.
  { pose proof (preserves_sheet _user_cache (gspread.col_values (col "Telegram_ID"))
                  ltac:(done) w0) as Hc. by rewrite Hcol in Hc. }
  destruct (list_find (λ v, v = tid) vals) as [[i v]|]; last first.
  { intros [= <- <-] _. unfold cache_lookup in *. by rewrite Hc1. }
  unfold mbind at 1, M_bind at 1.
  destruct (Client.get_record_by_row (Z.of_nat i + 1) w1) as [[d|e] w2] eqn:Hget.
  2:{ unfold Client.get_record_by_row, try_except in Hget.
      match type of Hget with
      | (let (_, _) := ?m in _) = _ => destruct m as [[]]; done
      | match ?m with _ => _ end = _ => destruct m as [[]]; done
      end. }
  assert (_user_cache w2 = _user_cache w0) as Hc2.
  { pose proof (get_record_by_row_frame _user_cache (Z.of_nat i + 1) ltac:(done) w1) as Hc.
    rewrite Hget in Hc. cbn [snd] in Hc. by rewrite Hc. }
  unfold mbind at 1, M_bind at 1, Client.cache, zoom.
  destruct (Client._set_cache config tid d (_user_cache w2)) as [[[]|e] c'] eqn:Hset.
  - intros [= <- <-] Hr. cbn [truthy] in Hr.
    pose proof (set_cache_lookup _ _ _ _ _ Hset) as Hlook.
    unfold cache_lookup. cbn [_user_cache set_user_cache].
    destruct c' as [c'|]; [|done].
    destruct (Py.truthy tid) eqn:Ht; [|done]. cbn [negb]. by rewrite (Hlook eq_refl).
  - apply set_cache_raise in Hset as ->.
    unfold mbind, M_bind, gets.
    destruct (has_CellNotFound _); [|done]. intros [= <- <-] _.
    unfold cache_lookup in *. cbn [_user_cache set_user_cache]. by rewrite Hc2.
Qed.

(** C10.  [find_user_by_username] returns [None] without a call on the sheet
    when the username is empty.  Otherwise the query and every stored
    username are normalised by [strip], [lstrip('@')] and [lower], and the
    record of the first data row, counted from row 2, whose normalised
    username equals the normalised query is returned; [None] when no row
    matches.  This is the function as [start_command], its one caller, runs
    it: after [find_user_by_telegram_id] returned nothing for the same id,
    which leaves no record in the cache under that id (third part; [strip]
    leaves the [str] of a user id as it is); the reads of the sheet succeed
    and the cache has room for at least one entry. *)
Theorem find_user_by_username_normalised
    (config : Config) (username tid : string) (w : World) :
  (∀ s, Client.clean s = Py.lower (Py.lstrip_chars "@" (Py.strip s)))
  ∧ (username = "" →
     Client.find_user_by_username config username tid w = (Ok None, w))
  ∧ (∀ r w0,
       Py.strip tid = tid →
       Client.find_user_by_telegram_id config tid w0 = (Ok r, w) →
       truthy r = false →
       truthy (cache_lookup w tid) = false)
  ∧ (username ≠ "" → truthy (cache_lookup w tid) = false →
     fault_free w → 1 ≤ max_cache_size config →
     (∀ k u,
        stored_usernames w !! k = Some u →
        Client.clean u = Client.clean username →
        (∀ k' u', (k' < k)%nat → stored_usernames w !! k' = Some u' →
                  Client.clean u' ≠ Client.clean username) →
        (Client.find_user_by_username config username tid w).1
        = Ok (Some (record_at w (2 + Z.of_nat k))))
     ∧ ((∀ u, u ∈ stored_usernames w → Client.clean u ≠ Client.clean username) →
        Client.find_user_by_username config username tid w = (Ok None, after_call w))).
Proof.
  split_and!.
  - done.
  - intros ->. apply find_by_username_empty.
  - intros r w0. apply telegram_id_miss_not_cached.
  - intros Hu Hmiss Hff HK.
    pose proof (find_by_username_scan config username tid w Hu Hmiss Hff HK) as Hscan.
    split.
    + intros k u Hk Hc Hmin.
      assert (Client.first_match (Client.clean username) 2 (stored_usernames w)
              = Some (2 + Z.of_nat k)) as Hfm.
      { apply first_match_Some. by exists k, u. }
      rewrite Hfm in Hscan. destruct Hscan as (w' & -> & _). done.
    + intros Hnone.
      assert (Client.first_match (Client.clean username) 2 (stored_usernames w) = None)
        as Hfm by by apply first_match_None.
      by rewrite Hfm in Hscan.
Qed.

Lemma find_user_by_username_normalised_witness :
  (Client.find_user_by_username demo_config " @BOB" "99" (world_at 0 demo_cells)).1
  = Ok (Some (record_at (world_at 0 demo_cells) (2 + Z.of_nat 1)))
  ∧ Client.find_user_by_username demo_config "carol" "99" (world_at 0 demo_cells)
    = (Ok None, after_call (world_at 0 demo_cells))
  ∧ truthy (cache_lookup (after_call (world_at 0 demo_cells)) "99") = false.
Proof.
  split_and!.
  - destruct (find_user_by_username_normalised demo_config " @BOB" "99"
                (world_at 0 demo_cells)) as (_ & _ & _ & Hscan).
    destruct Hscan as [Hfound _];
      [discriminate | reflexivity | reflexivity | vm_compute; discriminate |].
    apply (Hfound 1%nat "bob"); [reflexivity | reflexivity |].
    intros [|[|k']] u' Hlt Hk'; [|lia..].
    vm_compute in Hk'. injection Hk' as <-. vm_compute. discriminate.
  - destruct (find_user_by_username_normalised demo_config "carol" "99"
                (world_at 0 demo_cells)) as (_ & _ & _ & Hscan).
    destruct Hscan as [_ Hnone];
      [discriminate | reflexivity | reflexivity | vm_compute; discriminate |].
    apply Hnone. intros u Hu.
    apply elem_of_cons in Hu as [->|Hu]; [vm_compute; discriminate|].
    apply list_elem_of_singleton in Hu as ->. vm_compute. discriminate.
  - destruct (find_user_by_username_normalised demo_config "carol" "99"
                (after_call (world_at 0 demo_cells))) as (_ & _ & Hsite & _).
    apply (Hsite None (world_at 0 demo_cells)); [reflexivity| |reflexivity].
    vm_compute. reflexivity.
Defined.

(** ** Checks of the text operations and of SHA-256 on known values *)

Example strip_ex : Py.strip "  @Bob " = "@Bob".
Proof. reflexivity. Qed.

Example normalise_ex : Client.clean " @@Bob_1 " = "bob_1".
Proof. reflexivity. Qed.

Example split_ex : Py.split "_"%char "accept_12" = ["accept"; "12"].
Proof. reflexivity. Qed.

Example int_ex : Py.int "12" = Some 12 ∧ Py.int "-3" = Some (-3) ∧ Py.int "x" = None.
Proof. repeat split; reflexivity. Qed.

Example str_ex : Py.str 4711 = "4711".
Proof. reflexivity. Qed.

Example sha256_constants :
  head Sha256.K = Some 0x428a2f98 ∧ last Sha256.K = Some 0xc67178f2
  ∧ length Sha256.K = 64%nat ∧ head Sha256.H0 = Some 0x6a09e667.
Proof. vm_compute. repeat split. Qed.

Example sha256_abc :
  Sha256.hexdigest "abc"
  = "ba7816bf8f01cfea414140de5dae2223b00361a396177a9cb410ff61f20015ad".
Proof. vm_compute. reflexivity. Qed.

Example sha256_empty :
  Sha256.hexdigest ""
  = "e3b0c44298fc1c149afbf4c8996fb92427ae41e4649b934ca495991b7852b855".
Proof. vm_compute. reflexivity. Qed.

Example sha256_two_blocks :
  Sha256.hexdigest "abcdbcdecdefdefgefghfghighijhijkijkljklmklmnlmnomnopnopq"
  = "248d6a61d20638b8e5c026930c3e6039a33ce45964ff2167f6ecedd419db06c1".
Proof. vm_compute. reflexivity. Qed.

(** ** Writes to the sheet *)

Lemma pad_length {A} (d : A) n l : (n ≤ length (gspread.pad d n l))%nat.
Proof. unfold gspread.pad. rewrite length_app, length_replicate. lia. Qed.

Lemma nth_insert_eq {A} (l : list A) i x d :
  (i < length l)%nat → nth i (<[i:=x]> l) d = x.
Proof. intros H. by rewrite nth_lookup, list_lookup_insert_eq. Qed.

Lemma nth_insert_ne {A} (l : list A) i j x d :
  i ≠ j → nth j (<[i:=x]> l) d = nth j l d.
Proof. intros H. by rewrite !nth_lookup, list_lookup_insert_ne. Qed.

Lemma pad_nth {A} (d : A) n l i : nth i (gspread.pad d n l) d = nth i l d.
Proof.
  unfold gspread.pad. destruct (decide (i < length l)%nat).
  - by rewrite app_nth1.
  - rewrite app_nth2 by lia. rewrite (nth_overflow l) by lia.
    rewrite nth_lookup. destruct (replicate _ _ !! _) eqn:H; [|done].
    apply lookup_replicate in H as [-> _]. done.
Qed.

Lemma cell_set_cell g row col v :
  1 ≤ row → 1 ≤ col → gspread.cell (gspread.set_cell g row col v) row col = v.
Proof.
  intros Hr Hc. unfold gspread.cell, gspread.set_cell.
  set (r := Z.to_nat (row - 1)). set (c := Z.to_nat (col - 1)).
  pose proof (pad_length [] (S r) g).
  rewrite nth_insert_eq by lia.
  pose proof (pad_length "" (S c) (nth r (gspread.pad [] (S r) g) [])).
  by rewrite nth_insert_eq by lia.
Qed.

(** A write to one cell leaves every other cell as it reads. *)
Lemma cell_set_cell_other g row col v row' col' :
  1 ≤ row → 1 ≤ col → 1 ≤ row' → 1 ≤ col' → (row', col') ≠ (row, col) →
  gspread.cell (gspread.set_cell g row col v) row' col' = gspread.cell g row' col'.
Proof.
  intros Hr Hc Hr' Hc' Hne. unfold gspread.cell, gspread.set_cell.
  pose proof (pad_length [] (S (Z.to_nat (row - 1))) g).
  destruct (decide (row = row')) as [<-|Hrr].
  - rewrite nth_insert_eq by lia.
    assert (Z.to_nat (col - 1) ≠ Z.to_nat (col' - 1)) as Hcc.
    { intros Heq. apply Hne. f_equal. lia. }
    rewrite nth_insert_ne by done. by rewrite !pad_nth.
  - rewrite nth_insert_ne by lia. by rewrite pad_nth.
Qed.

Lemma sheet_batch_update_ok us w :
  hd gspread.NoFault (gspread.faults (worksheet w)) ≠ gspread.FailBefore →
  forallb gspread.valid_update us = true →
  ∃ r, sheet (gspread.batch_update us) w
       = (r, set_worksheet
               (gspread.Worksheet (gspread.apply_updates us (cells_of w))
                  (tl (gspread.faults (worksheet w)))
                  (S (gspread.api_calls (worksheet w)))) w)
       ∧ (hd gspread.NoFault (gspread.faults (worksheet w)) = gspread.NoFault → r = Ok ()).
Proof.
  intros Hf Hv. unfold sheet, zoom, gspread.batch_update, gspread.next_fault.
  unfold mbind, M_bind. simpl.
  destruct (hd gspread.NoFault (gspread.faults (worksheet w))); [| done |];
    rewrite Hv; simpl; eexists; (split; [reflexivity|done]).
Qed.

Lemma sheet_batch_update_before us w :
  hd gspread.NoFault (gspread.faults (worksheet w)) = gspread.FailBefore →
  sheet (gspread.batch_update us) w = (Raise APIError, after_call w).
Proof.
  intros Hf. unfold sheet, zoom, gspread.batch_update, gspread.next_fault.
  unfold mbind, M_bind. simpl. by rewrite Hf.
Qed.

(** ** Records read from the sheet *)

Lemma PyDict_get_elem {V} k (v : V) d : PyDict.get k d = Some v → (k, v) ∈ d.
Proof.
  induction d as [|[k' v'] d IH]; simpl; [done|].
  destruct (decide (k' = k)) as [->|Hne].
  - intros [= ->]. left.
  - intros H. right. by apply IH.
Qed.

Lemma HEADERS_NoDup : NoDup HEADERS.*1.
Proof. apply (bool_decide_unpack _). vm_compute. exact I. Qed.

Lemma nth_guarded (values : list string) (c : Z) :
  (if bool_decide (c - 1 < Z.of_nat (length values))
   then nth (Z.to_nat (c - 1)) values "" else "")
  = nth (Z.to_nat (c - 1)) values "".
Proof. case_bool_decide; [done|]. rewrite nth_overflow; [done|lia]. Qed.

(** Every header of a record read by the client holds the cell of its
    column, the empty text where the row is shorter. *)
Lemma record_of_lookup values h c :
  HEADERS_get h = Some c →
  Client.record_of values !! h = Some (nth (Z.to_nat (c - 1)) values "").
Proof.
  intros Hh. unfold Client.record_of. apply elem_of_list_to_map_1.
  - rewrite <- list_fmap_compose.
    erewrite list_fmap_ext; [apply HEADERS_NoDup|]. by intros i [h' c'] _.
  - apply PyDict_get_elem in Hh. rewrite <- nth_guarded.
    apply list_elem_of_fmap. by exists (h, c).
Qed.

Lemma record_at_field w row h c :
  HEADERS_get h = Some c →
  fields (record_at w row) !! h = Some (gspread.cell (cells_of w) row c).
Proof. intros Hh. unfold record_at. simpl. by apply record_of_lookup. Qed.

(** ** The password step ([handle_password]) *)

Arguments Client.update_user_fields : simpl never.
Arguments Client.show_status : simpl never.
Arguments Client.put_user_data : simpl never.
Arguments Client.hash_password : simpl never.

Lemma show_status_cells config user_id record :
  preserves (λ w, gspread.cells (worksheet w)) (Client.show_status config user_id record).
Proof.
  unfold Client.show_status, Client.the_user_data, Client.put_user_data,
    Client.fresh_status, Client.send_accepted, Client.send_rejected, Client.send_pending.
  frame.
Qed.

Lemma update_logged_in_run config record tid row w :
  row_number record = Some row → 1 ≤ row →
  hd gspread.NoFault (gspread.faults (worksheet w)) ≠ gspread.FailBefore →
  ∃ r' w1,
    Client.update_user_fields config record [("Logged_In", "Yes")] tid w = (Ok r', w1)
    ∧ cells_of w1 = gspread.set_cell (cells_of w) row (col "Logged_In") "Yes"
    ∧ user_data w1 = user_data w
    ∧ (hd gspread.NoFault (gspread.faults (worksheet w)) = gspread.NoFault →
       1 ≤ max_cache_size config →
       r' = set_field "Logged_In" "Yes" record).
Proof.
  intros Hrow Hge Hf. unfold Client.update_user_fields. rewrite Hrow.
  change (Client.field_updates row [("Logged_In", "Yes")])
    with (Some [gspread.Update (cell_range "Logged_In" row) "Yes"]).
  cbv beta iota.
  destruct (sheet_batch_update_ok
              [gspread.Update (cell_range "Logged_In" row) "Yes"] w Hf)
    as (r & Hrun & HrOk).
  { simpl. rewrite andb_true_r. apply andb_true_iff. split; [by apply Z.leb_le|done]. }
  unfold try_except. unfold mbind at 1, M_bind at 1. rewrite Hrun.
  set (w1 := set_worksheet _ w) in *.
  assert (cells_of w1 = gspread.set_cell (cells_of w) row (col "Logged_In") "Yes")
    as Hw1 by done.
  assert (user_data w1 = user_data w) as Hud1 by done.
  clearbody w1.
  destruct r as [[]|e]; cbv beta iota.
  - set (rec' := foldl _ record _).
    pose proof (preserves_cache (λ w, gspread.cells (worksheet w))
                  (Client._set_cache config tid rec') ltac:(done) w1) as Hcells.
    pose proof (preserves_cache user_data
                  (Client._set_cache config tid rec') ltac:(done) w1) as Hud.
    unfold mbind, M_bind.
    destruct (Client.cache (Client._set_cache config tid rec') w1)
      as [[[]|e] w2] eqn:Hc; simpl in Hcells, Hud;
      eexists _, _; (split_and!; [reflexivity|by rewrite <- Hw1|by rewrite <- Hud1|]).
    + done.
    + intros _ HK.
      destruct (cache_set_run config tid rec' w1 HK) as (c' & Hset & _).
      rewrite Hset in Hc. done.
  - eexists _, _. split_and!; [reflexivity|done|done|].
    intros H. specialize (HrOk H). done.
Qed.

Lemma logged_in_after_write g row w :
  1 ≤ row →
  cells_of w = gspread.set_cell g row (col "Logged_In") "Yes" →
  Client._is_user_logged_in (record_at w row) = true.
Proof.
  intros Hrow Hcells. unfold Client._is_user_logged_in, get.
  rewrite (record_at_field w row "Logged_In" (col "Logged_In")) by done.
  rewrite Hcells, cell_set_cell by done. done.
Qed.

(** C9.  [hash_password] is a function of its argument.  For a conversation
    that awaits the password (a non-empty record in [user_data]):
    - a text whose hash differs from the hash of the stored password is
      answered with the wrong-password message and the conversation stays in
      [WAITING_PASSWORD]; no call is made on the sheet and [user_data] is as
      it was;
    - a text whose hash equals it writes "Yes" to the Logged_In cell of the
      record's row (the write not failing before it is carried out) and goes
      on to the status display, which changes no cell; any process reading
      that row afterwards finds the user logged in. *)
Theorem password_check (config : Config) (user_id : Z) (text : string) (w : World)
    (ud : UserData) (record : Dict) :
  user_data w !! user_id = Some ud →
  user_record ud = Some record →
  dict_truthy record = true →
  (∀ x y, x = y → Client.hash_password x = Client.hash_password y)
  ∧ (Client.hash_password (Py.strip text)
     ≠ Client.hash_password (Py.strip (get record "Password" "")) →
     Client.handle_password config user_id text w
     = (tg (Telegram.reply_text MsgWrongPassword);; mret Client.WAITING_PASSWORD) w
     ∧ (tg_fault_free w →
        (Client.handle_password config user_id text w).1 = Ok Client.WAITING_PASSWORD)
     ∧ worksheet (Client.handle_password config user_id text w).2 = worksheet w
     ∧ user_data (Client.handle_password config user_id text w).2 = user_data w)
  ∧ (Client.hash_password (Py.strip text)
     = Client.hash_password (Py.strip (get record "Password" "")) →
     ∀ row,
       row_number record = Some row → 1 ≤ row →
       hd gspread.NoFault (gspread.faults (worksheet w)) ≠ gspread.FailBefore →
       ∃ record' w1,
         Client.handle_password config user_id text w
         = (Client.put_user_data user_id
              (λ ud, mkUserData (Some record') (ud_telegram_id ud));;
            Client.show_status config user_id record') w1
         ∧ (hd gspread.NoFault (gspread.faults (worksheet w)) = gspread.NoFault →
            1 ≤ max_cache_size config →
            record' = set_field "Logged_In" "Yes" record)
         ∧ cells_of (Client.handle_password config user_id text w).2
           = gspread.set_cell (cells_of w) row (col "Logged_In") "Yes"
         ∧ ∀ fresh,
             cells_of fresh = cells_of (Client.handle_password config user_id text w).2 →
             hd gspread.NoFault (gspread.faults (worksheet fresh)) = gspread.NoFault →
             ∃ d, (Client.get_record_by_row row fresh).1 = Ok d
                  ∧ Client._is_user_logged_in d = true).
Proof.
  intros Hud Hrec Htruthy. split_and!.
  - by intros x y ->.
  - intros Hne.
    assert (Client.handle_password config user_id text w
            = (tg (Telegram.reply_text MsgWrongPassword);;
               mret Client.WAITING_PASSWORD) w) as Hrun.
    { unfold Client.handle_password, Client.the_user_data.
      unfold mbind at 1, M_bind at 1, gets. rewrite Hud. simpl. rewrite Hrec, Htruthy.
      simpl. rewrite decide_True; [done|]. intros Heq. apply Hne. by rewrite Heq. }
    rewrite Hrun. split_and!; [done|..].
    + intros Hff. unfold tg, zoom, Telegram.send, mbind, M_bind. rewrite Hff. done.
    + match goal with
      | |- worksheet (?m ?w2).2 = _ =>
          assert (preserves worksheet m) as Hp by frame; by rewrite (Hp w2)
      end.
    + match goal with
      | |- user_data (?m ?w2).2 = _ =>
          assert (preserves user_data m) as Hp by frame; by rewrite (Hp w2)
      end.
  - intros Heq row Hrow Hge Hf.
    destruct (update_logged_in_run config record (default "" (ud_telegram_id ud))
                row w Hrow Hge Hf) as (r' & w1 & Hrun & Hcells & _ & Hr').
    assert (Client.handle_password config user_id text w
            = (Client.put_user_data user_id
                 (λ ud, mkUserData (Some r') (ud_telegram_id ud));;
               Client.show_status config user_id r') w1) as Hhandle.
    { unfold Client.handle_password, Client.the_user_data.
      unfold mbind at 1, M_bind at 1, gets. rewrite Hud. simpl.
      rewrite Hrec, Htruthy. simpl.
      rewrite decide_False by (intros Hne; apply Hne; by rewrite Heq).
      erewrite bind_ok by exact Hrun. done. }
    assert (cells_of (Client.handle_password config user_id text w).2
            = gspread.set_cell (cells_of w) row (col "Logged_In") "Yes") as Hfinal.
    { rewrite Hhandle, <- Hcells.
      match goal with
      | |- cells_of (?m ?w2).2 = _ =>
          assert (preserves (λ w, gspread.cells (worksheet w)) m) as Hp;
            [|exact (Hp w2)]
      end.
      apply preserves_bind; [unfold Client.put_user_data; frame|].
      intros _. apply show_status_cells. }
    exists r', w1. split_and!; [exact Hhandle|exact Hr'|exact Hfinal|].
    intros fresh Hfresh Hff. exists (record_at fresh row). split.
    + by rewrite get_record_by_row_ok.
    + apply (logged_in_after_write (cells_of w)); [done|]. by rewrite Hfresh.
Qed.

Lemma password_check_witness :
  (Client.handle_password demo_config 55 "wrong" waiting_world).1
  = Ok Client.WAITING_PASSWORD
  ∧ cells_of (Client.handle_password demo_config 55 " abc " waiting_world).2
    = gspread.set_cell (cells_of waiting_world) 2 (col "Logged_In") "Yes".
Proof.
  assert (user_data waiting_world !! 55 = Some waiting_user_data) as Hud
    by (vm_compute; reflexivity).
  assert (user_record waiting_user_data = Some waiting_record) as Hrec
    by (vm_compute; reflexivity).
  assert (dict_truthy waiting_record = true) as Htruthy by (vm_compute; reflexivity).
  split.
  - destruct (password_check demo_config 55 "wrong" waiting_world
                waiting_user_data waiting_record Hud Hrec Htruthy) as (_ & Hwrong & _).
    destruct Hwrong as (_ & Hstay & _); [vm_compute; discriminate|].
    apply Hstay. vm_compute. reflexivity.
  - destruct (password_check demo_config 55 " abc " waiting_world
                waiting_user_data waiting_record Hud Hrec Htruthy) as (_ & _ & Hright).
    destruct (Hright ltac:(vm_compute; reflexivity) 2)
      as (r' & w1 & _ & _ & Hcells & _);
      [vm_compute; reflexivity | vm_compute; discriminate | vm_compute; discriminate |].
    exact Hcells.
Defined.

(** ** The status display ([show_status]) *)

Lemma acell_ok h row w :
  hd gspread.NoFault (gspread.faults (worksheet w)) = gspread.NoFault →
  1 ≤ row → 1 ≤ col h →
  gspread.col_of_letter (_get_column_letter (col h)) = col h →
  sheet (gspread.acell (cell_range h row)) w
  = (Ok (gspread.cell (cells_of w) row (col h)), after_call w).
Proof.
  intros Hf Hrow Hcol Hletter. unfold gspread.acell.
  rewrite sheet_read_ok; [|done|].
  - unfold cell_range. simpl. by rewrite Hletter.
  - unfold cell_range. simpl. rewrite Hletter.
    apply andb_true_iff. split; by apply Z.leb_le.
Qed.

Lemma send_accepted_run config record w :
  Client.send_accepted config record w
  = (tg (Telegram.reply_text
           (MsgAccepted (fields record !! "Name") (fields record !! "Committee")
                        (Py.strip (get record "Group_Link" "")) (team_link config)));;
     mret Client.END) w.
Proof. done. Qed.

(** A record that is held with a final status is shown as held. *)
Lemma show_status_held config user_id record w :
  (Client.status_of record = "accepted" →
   Client.show_status config user_id record w = Client.send_accepted config record w)
  ∧ (Client.status_of record = "rejected" →
     Client.show_status config user_id record w = Client.send_rejected record w).
Proof.
  split; intros Hs;
    unfold Client.show_status, Client.the_user_data, mbind, M_bind, gets;
    rewrite Hs; done.
Qed.

(** The status display of a record held without a final status, when the
    sheet says otherwise and the two reads succeed. *)
Lemma show_status_refresh config user_id record w row fresh_status fresh_link :
  row_number record = Some row → 1 ≤ row →
  Client.status_of record ∉ ["accepted"; "rejected"] →
  fault_free w →
  gspread.cell (cells_of w) row (col "Status") = fresh_status →
  gspread.cell (cells_of w) row (col "Group_Link") = fresh_link →
  Py.lower (Py.strip fresh_status) ≠ Client.status_of record →
  ∃ w',
    Client.show_status config user_id record w
    = (let record' := set_field "Group_Link" fresh_link
                        (set_field "Status" fresh_status record) in
       let status := Client.status_of record' in
       if decide (status = "accepted") then Client.send_accepted config record'
       else if decide (status = "rejected") then Client.send_rejected record'
       else Client.send_pending record') w'
    ∧ cells_of w' = cells_of w
    ∧ telegram w' = telegram w
    ∧ (user_record <$> user_data w' !! user_id)
      = Some (Some (set_field "Group_Link" fresh_link
                      (set_field "Status" fresh_status record)))
    ∧ (1 ≤ max_cache_size config →
       Client._set_cache config
         (default "" (user_data w !! user_id ≫= ud_telegram_id))
         (set_field "Group_Link" fresh_link (set_field "Status" fresh_status record))
         (_user_cache w)
       = (Ok (), _user_cache w')).
Proof.
  intros Hrow Hge Hheld Hff Hstatus Hlink Hdiff.
  unfold Client.show_status, Client.the_user_data.
  unfold mbind at 1, M_bind at 1, gets. cbv beta iota zeta.
  rewrite bool_decide_eq_false_2 by done.
  assert (Client.fresh_status record (Client.status_of record) w
          = (Ok (Some (set_field "Group_Link" fresh_link
                         (set_field "Status" fresh_status record))),
             after_call (after_call w))) as Hfresh.
  { unfold Client.fresh_status. rewrite Hrow.
    erewrite bind_ok; last first.
    { apply acell_ok; [by apply fault_free_hd|done|done|done]. }
    rewrite Hstatus. rewrite decide_True by done.
    erewrite bind_ok; last first.
    { apply acell_ok; [|done|done|done].
      apply fault_free_hd. by apply fault_free_after_call. }
    change (cells_of (after_call w)) with (cells_of w). by rewrite Hlink. }
  erewrite bind_ok; last first.
  { erewrite try_ok; [reflexivity|exact Hfresh]. }
  cbv beta iota.
  set (record' := set_field "Group_Link" fresh_link (set_field "Status" fresh_status record)).
  set (tid := default "" (ud_telegram_id (default (mkUserData None None) (user_data w !! user_id)))).
  unfold mbind at 1, M_bind at 1.
  unfold mbind at 1, M_bind at 1.
  unfold Client.put_user_data at 1, modify at 1. cbv beta iota.
  set (w2 := set_user_data _ (after_call (after_call w))).
  destruct (try_except (Client.cache (Client._set_cache config tid record'))
              (λ _, mret ()) w2) as [[[]|e] w3] eqn:Htry.
  - exists w3. split_and!.
    + unfold mbind, M_bind. rewrite Htry. done.
    + assert (preserves (λ w, gspread.cells (worksheet w))
                (try_except (Client.cache (Client._set_cache config tid record'))
                   (λ _, mret ()))) as Hp by frame.
      specialize (Hp w2). rewrite Htry in Hp. exact Hp.
    + assert (preserves telegram
                (try_except (Client.cache (Client._set_cache config tid record'))
                   (λ _, mret ()))) as Hp by frame.
      specialize (Hp w2). rewrite Htry in Hp. exact Hp.
    + assert (preserves user_data
                (try_except (Client.cache (Client._set_cache config tid record'))
                   (λ _, mret ()))) as Hp by frame.
      specialize (Hp w2). rewrite Htry in Hp. simpl in Hp. rewrite Hp.
      unfold w2. simpl. by rewrite lookup_insert_eq.
    + intros HK. destruct (cache_set_run config tid record' w2 HK) as (c' & Hset & Hpure).
      unfold try_except in Htry. rewrite Hset in Htry. injection Htry as <-.
      simpl. unfold tid in Hpure. simpl in Hpure.
      destruct (user_data w !! user_id) as [ud|]; exact Hpure.
  - exfalso. unfold try_except in Htry.
    destruct (Client.cache _ w2) as [[[]|e'] w4]; done.
Qed.

Lemma tg_send_ok c w :
  tg_fault_free w → Telegram.unreachable c (telegram w) = false →
  tg c w = (Ok (), set_telegram
                     (Telegram.Channel (Telegram.outbox (telegram w) ++ [c]) []
                        (Telegram.blocked (telegram w))) w).
Proof.
  intros Hff Hr. unfold tg, zoom, Telegram.send. rewrite Hff, Hr. done.
Qed.

(** C5, as amended.  Let the sheet hold the status Accepted and the group
    link [L] for a row.  A status check on a record of that row that is held
    without a final status, the two reads succeeding, re-reads the status
    cell, finds it changed, re-reads the group link cell, stores the updated
    record in [user_data] and in the cache, and sends the acceptance message
    with [L]; no cell changes.  A record held with the status accepted or
    rejected is shown as held. *)
Theorem status_propagation (config : Config) (user_id : Z) (record : Dict)
    (w : World) (row : Z) (L : string) :
  row_number record = Some row → 1 ≤ row →
  gspread.cell (cells_of w) row (col "Status") = "Accepted" →
  gspread.cell (cells_of w) row (col "Group_Link") = L →
  (Client.status_of record ∉ ["accepted"; "rejected"] → fault_free w →
   ∃ w',
     Client.show_status config user_id record w
     = (tg (Telegram.reply_text
              (MsgAccepted (fields record !! "Name") (fields record !! "Committee")
                           (Py.strip L) (team_link config)));;
        mret Client.END) w'
     ∧ cells_of w' = cells_of w
     ∧ telegram w' = telegram w
     ∧ (user_record <$> user_data w' !! user_id)
       = Some (Some (set_field "Group_Link" L (set_field "Status" "Accepted" record)))
     ∧ (1 ≤ max_cache_size config →
        Client._set_cache config
          (default "" (user_data w !! user_id ≫= ud_telegram_id))
          (set_field "Group_Link" L (set_field "Status" "Accepted" record))
          (_user_cache w)
        = (Ok (), _user_cache w'))
     ∧ (tg_fault_free w →
        Telegram.outbox (telegram (Client.show_status config user_id record w).2)
        = Telegram.outbox (telegram w)
          ++ [Telegram.reply_text
                (MsgAccepted (fields record !! "Name") (fields record !! "Committee")
                             (Py.strip L) (team_link config))]))
  ∧ (Client.status_of record = "accepted" →
     Client.show_status config user_id record w = Client.send_accepted config record w)
  ∧ (Client.status_of record = "rejected" →
     Client.show_status config user_id record w = Client.send_rejected record w).
Proof.
  intros Hrow Hge Hstatus Hlink. split; [|apply show_status_held].
  intros Hheld Hff.
  destruct (show_status_refresh config user_id record w row "Accepted" L)
    as (w' & Hrun & Hcells & Htg & Hud & Hcache); try done.
  { intros Heq. apply Hheld. rewrite <- Heq. left. }
  set (record' := set_field "Group_Link" L (set_field "Status" "Accepted" record)) in *.
  assert (Client.status_of record' = "accepted") as Hacc.
  { unfold Client.status_of, get, record'. simpl.
    rewrite lookup_insert_ne by done. by rewrite lookup_insert_eq. }
  cbv zeta in Hrun. rewrite Hacc in Hrun. rewrite decide_True in Hrun by done.
  rewrite send_accepted_run in Hrun.
  assert (fields record' !! "Name" = fields record !! "Name") as Hname.
  { unfold record'. simpl. by rewrite !lookup_insert_ne. }
  assert (fields record' !! "Committee" = fields record !! "Committee") as Hcom.
  { unfold record'. simpl. by rewrite !lookup_insert_ne. }
  assert (get record' "Group_Link" "" = L) as HL.
  { unfold get, record'. simpl. by rewrite lookup_insert_eq. }
  rewrite Hname, Hcom, HL in Hrun.
  exists w'. split_and!; try done.
  intros Htgff. rewrite Hrun.
  erewrite bind_ok; last first.
  { apply tg_send_ok; [|done]. unfold tg_fault_free. by rewrite Htg. }
  simpl. by rewrite Htg.
Qed.

Lemma status_propagation_witness :
  Telegram.outbox
    (telegram (Client.show_status demo_config 55 stale_record accepted_world).2)
  = Telegram.outbox (telegram accepted_world)
    ++ [Telegram.reply_text
          (MsgAccepted (fields stale_record !! "Name")
             (fields stale_record !! "Committee")
             (Py.strip "https://t.me/tech") (team_link demo_config))].
Proof.
  destruct (status_propagation demo_config 55 stale_record accepted_world 2
              "https://t.me/tech") as [Hfresh _];
    [vm_compute; reflexivity | vm_compute; discriminate
    | vm_compute; reflexivity | vm_compute; reflexivity |].
  destruct Hfresh as (w' & _ & _ & _ & _ & _ & Hout).
  - apply (bool_decide_unpack _). vm_compute. exact I.
  - vm_compute. reflexivity.
  - apply Hout. vm_compute. reflexivity.
Defined.

(** C5 as stated fails.  After the reviewer accepted row 2 with the link of
    the committee, a status check on a record of that row held with the
    status Rejected sends the rejection and makes no call on the sheet; and a
    status check on the record held with an empty status sends "pending" when
    the read of the status cell fails. *)
Lemma status_check_may_not_reread :
  gspread.cell (cells_of accepted_world) 2 (col "Status") = "Accepted"
  ∧ gspread.cell (cells_of accepted_world) 2 (col "Group_Link") = "https://t.me/tech"
  ∧ Client.show_status demo_config 55 (set_field "Status" "Rejected" stale_record)
      accepted_world
    = (Ok Client.END,
       set_telegram
         (Telegram.Channel
            (Telegram.outbox (telegram accepted_world)
             ++ [Telegram.reply_text (MsgRejected (Some "Ann") (Some "Tech"))])
            [] [])
         accepted_world)
  ∧ Client.status_of stale_record = ""
  ∧ Telegram.outbox
      (telegram (Client.show_status demo_config 55 stale_record
                   (with_faults [gspread.FailBefore] accepted_world)).2)
    = Telegram.outbox (telegram accepted_world)
      ++ [Telegram.reply_text (MsgPending (Some "Ann"))].
Proof. vm_compute. repeat split. Qed.

(** ** I/O errors at the boundary of the two adapters *)

Lemma sheet_batch_update_fault us w :
  failing w →
  ∃ w', sheet (gspread.batch_update us) w = (Raise APIError, w')
        ∧ calls_of w' = S (calls_of w)
        ∧ (hd gspread.NoFault (gspread.faults (worksheet w)) = gspread.FailBefore →
           w' = after_call w).
Proof.
  intros Hf. unfold failing in Hf.
  unfold sheet, zoom, gspread.batch_update, gspread.next_fault, mbind, M_bind. simpl.
  destruct (hd gspread.NoFault (gspread.faults (worksheet w))); [done| |].
  - eexists. split_and!; [reflexivity|done|done].
  - destruct (forallb gspread.valid_update us); simpl;
      eexists; (split_and!; [reflexivity|done|done]).
Qed.

Lemma client_get_record_fault row w :
  failing w → Client.get_record_by_row row w = (Ok empty_dict, after_call w).
Proof.
  intros Hf. unfold Client.get_record_by_row, gspread.row_values.
  erewrite try_raise; [reflexivity|].
  erewrite bind_raise; [reflexivity|]. by apply sheet_read_fault.
Qed.

Lemma manager_get_record_fault row w :
  failing w → Manager.get_record_by_row row w = (Ok empty_dict, after_call w).
Proof.
  intros Hf. unfold Manager.get_record_by_row, gspread.row_values.
  erewrite try_raise; [reflexivity|].
  erewrite bind_raise; [reflexivity|]. by apply sheet_read_fault.
Qed.

Lemma get_pending_records_fault w :
  failing w → Manager.get_pending_records w = (Ok [], after_call w).
Proof.
  intros Hf. unfold Manager.get_pending_records, gspread.get_all_values.
  erewrite try_raise; [reflexivity|].
  erewrite bind_raise; [reflexivity|]. by apply sheet_read_fault.
Qed.

Lemma find_by_telegram_id_fault config tid w :
  failing w → truthy (cache_lookup w (Py.strip tid)) = false →
  Client.find_user_by_telegram_id config tid w
  = (if has_CellNotFound w then Ok None else Raise AttributeError, after_call w).
Proof.
  intros Hf Hmiss. unfold Client.find_user_by_telegram_id. cbv zeta.
  rewrite (bind_ok _ _ _ _ _ (get_from_cache_run (Py.strip tid) w)). rewrite Hmiss.
  erewrite try_raise; last first.
  { erewrite bind_raise; [reflexivity|]. by apply sheet_read_fault. }
  unfold mbind, M_bind, gets. change (has_CellNotFound (after_call w)) with (has_CellNotFound w).
  by destruct (has_CellNotFound w).
Qed.

Lemma find_by_username_fault config username tid w :
  failing w → username ≠ "" → truthy (cache_lookup w tid) = false →
  Client.find_user_by_username config username tid w = (Ok None, after_call w).
Proof.
  intros Hf Hu Hmiss. unfold Client.find_user_by_username.
  apply truthy_nonempty in Hu. rewrite Hu. cbn [negb]. cbv beta iota zeta.
  rewrite (bind_ok _ _ _ _ _ (get_from_cache_run tid w)). rewrite Hmiss.
  erewrite try_raise; [reflexivity|].
  erewrite bind_raise; [reflexivity|]. by apply sheet_read_fault.
Qed.

Lemma update_user_fields_fault config record fields tid w row us :
  failing w → row_number record = Some row →
  Client.field_updates row fields = Some us →
  ∃ w', Client.update_user_fields config record fields tid w = (Ok record, w')
        ∧ calls_of w' = S (calls_of w)
        ∧ (hd gspread.NoFault (gspread.faults (worksheet w)) = gspread.FailBefore →
           w' = after_call w).
Proof.
  intros Hf Hrow Hus. unfold Client.update_user_fields. rewrite Hrow, Hus.
  destruct (sheet_batch_update_fault us w Hf) as (w' & Hrun & Hcalls & Hbefore).
  exists w'. split_and!; [|done|done].
  erewrite try_raise; [reflexivity|]. erewrite bind_raise; [reflexivity|]. exact Hrun.
Qed.

Lemma update_status_fault row status group_link w :
  failing w →
  ∃ w', Manager.update_status_and_group_link row status group_link w
        = (Raise APIError, w')
        ∧ calls_of w' = S (calls_of w)
        ∧ (hd gspread.NoFault (gspread.faults (worksheet w)) = gspread.FailBefore →
           w' = after_call w).
Proof.
  intros Hf. unfold Manager.update_status_and_group_link.
  match goal with
  | |- context [sheet (gspread.batch_update ?us)] =>
      destruct (sheet_batch_update_fault us w Hf) as (w' & Hrun & Hcalls & Hbefore)
  end.
  exists w'. split_and!; [|done|done].
  erewrite try_raise; [reflexivity|]. exact Hrun.
Qed.

(** C4, as amended.  When the call on the sheet fails, the reads of both
    adapters return an empty result ([{}], [None] or [[]]) and the client's
    write [update_user_fields] returns the record it was given: none of them
    raises; for [find_user_by_telegram_id] this is so where [gspread] defines
    [exceptions.CellNotFound], the name its first [except] clause looks up.
    The manager's write [update_status_and_group_link] raises the error to
    its caller.  None retries: each has made exactly one call. *)
Theorem adapters_on_io_error (config : Config) (w : World) :
  failing w →
  (∀ row, Client.get_record_by_row row w = (Ok empty_dict, after_call w))
  ∧ (∀ tid, truthy (cache_lookup w (Py.strip tid)) = false →
            has_CellNotFound w = true →
            Client.find_user_by_telegram_id config tid w = (Ok None, after_call w))
  ∧ (∀ username tid, username ≠ "" → truthy (cache_lookup w tid) = false →
            Client.find_user_by_username config username tid w
            = (Ok None, after_call w))
  ∧ (∀ row, Manager.get_record_by_row row w = (Ok empty_dict, after_call w))
  ∧ Manager.get_pending_records w = (Ok [], after_call w)
  ∧ calls_of (after_call w) = S (calls_of w)
  ∧ (∀ record fields tid row us,
       row_number record = Some row →
       Client.field_updates row fields = Some us →
       ∃ w', Client.update_user_fields config record fields tid w = (Ok record, w')
             ∧ calls_of w' = S (calls_of w))
  ∧ (∀ row status group_link,
       ∃ w', Manager.update_status_and_group_link row status group_link w
             = (Raise APIError, w')
             ∧ calls_of w' = S (calls_of w)).
Proof.
  intros Hf. split_and!.
  - intros row. by apply client_get_record_fault.
  - intros tid Hmiss Hdef. rewrite find_by_telegram_id_fault by done. by rewrite Hdef.
  - intros username tid. by apply find_by_username_fault.
  - intros row. by apply manager_get_record_fault.
  - by apply get_pending_records_fault.
  - done.
  - intros record fields tid row us Hrow Hus.
    destruct (update_user_fields_fault config record fields tid w row us Hf Hrow Hus)
      as (w' & Hrun & Hcalls & _).
    by exists w'.
  - intros row status group_link.
    destruct (update_status_fault row status group_link w Hf) as (w' & Hrun & Hcalls & _).
    by exists w'.
Qed.

Lemma adapters_on_io_error_witness :
  Manager.get_pending_records (with_faults [gspread.FailBefore] (world_at 0 demo_cells))
  = (Ok [], after_call (with_faults [gspread.FailBefore] (world_at 0 demo_cells)))
  ∧ Client.get_record_by_row 2 (with_faults [gspread.FailAfter] (world_at 0 demo_cells))
    = (Ok empty_dict, after_call (with_faults [gspread.FailAfter] (world_at 0 demo_cells)))
  ∧ Client.find_user_by_telegram_id demo_config "77"
      (with_faults [gspread.FailBefore] (world_at 0 demo_cells))
    = (Ok None, after_call (with_faults [gspread.FailBefore] (world_at 0 demo_cells))).
Proof.
  split_and!.
  - apply (adapters_on_io_error demo_config
             (with_faults [gspread.FailBefore] (world_at 0 demo_cells))).
    vm_compute. discriminate.
  - apply (adapters_on_io_error demo_config
             (with_faults [gspread.FailAfter] (world_at 0 demo_cells))).
    vm_compute. discriminate.
  - apply (adapters_on_io_error demo_config
             (with_faults [gspread.FailBefore] (world_at 0 demo_cells)));
      [vm_compute; discriminate|reflexivity|reflexivity].
Defined.

(** C4 as stated fails: the manager's write raises the error of the sheet to
    its caller, and from [check_command], which has no handler around it, the
    error leaves the bot's own code.  And where [gspread] has no
    [exceptions.CellNotFound], a failed read of the Telegram_ID column makes
    [find_user_by_telegram_id] raise [AttributeError], which leaves
    [start_command] as well. *)
Lemma update_status_raises :
  (Manager.update_status_and_group_link 2 "Pending" ""
     (with_faults [gspread.FailBefore] (world_at 0 demo_cells))).1
  = Raise APIError
  ∧ (Manager.check_command demo_config (λ _, false) 1
       (with_faults [gspread.NoFault; gspread.FailBefore] (world_at 0 demo_cells))).1
    = Raise APIError
  ∧ (Client.find_user_by_telegram_id demo_config "77"
       (without_CellNotFound (with_faults [gspread.FailBefore] (world_at 0 demo_cells)))).1
    = Raise AttributeError
  ∧ (Client.start_command demo_config 77 "bob"
       (without_CellNotFound (with_faults [gspread.FailBefore] (world_at 0 demo_cells)))).1
    = Raise AttributeError.
Proof. vm_compute. repeat split. Qed.

(** ** The review sweep ([check_command], [send_request_for_review]) *)

(** Whatever the faults: the prompt reaches some of the reviewers, in order,
    and the answer is [true] exactly when it reached all of them.  The sheet
    is not touched. *)
Lemma send_to_admins_run row photo admins acc w :
  ∃ delivered w',
    Manager.send_to_admins row photo admins acc w
    = (Ok (acc && bool_decide (delivered = admins)), w')
    ∧ delivered `sublist_of` admins
    ∧ outbox_of w' = outbox_of w ++ ((λ a, Telegram.send_prompt a row photo) <$> delivered)
    ∧ worksheet w' = worksheet w
    ∧ Telegram.blocked (telegram w') = Telegram.blocked (telegram w)
    ∧ (tg_fault_free w → tg_fault_free w' ∧ delivered = filter (λ a, reachable w a = true) admins).
Proof.
  revert acc w. induction admins as [|a admins IH]; intros acc w.
  - exists [], w. simpl. rewrite andb_true_r, app_nil_r. done.
  - cbn [Manager.send_to_admins].
    destruct (tg (Telegram.send_prompt a row photo) w) as [[[]|e] w1] eqn:Hsend.
    + destruct (IH (acc && true) w1) as (delivered & w' & Hrun & Hsub & Hout & Hws & Hbl & Hff).
      assert (outbox_of w1 = outbox_of w ++ [Telegram.send_prompt a row photo]
              ∧ worksheet w1 = worksheet w
              ∧ Telegram.blocked (telegram w1) = Telegram.blocked (telegram w)
              ∧ Telegram.tg_faults (telegram w1) = tl (Telegram.tg_faults (telegram w))
              ∧ (tg_fault_free w → reachable w a = true))
        as (Hout1 & Hws1 & Hbl1 & Hf1 & Hreach).
      { unfold tg, zoom, Telegram.send in Hsend.
        destruct (hd false _ || _) eqn:Hbad; [done|].
        injection Hsend as <-. split_and!; try done.
        intros Hff1. apply orb_false_iff in Hbad as [_ Hbad].
        unfold reachable. apply bool_decide_eq_true.
        unfold Telegram.unreachable in Hbad. simpl in Hbad.
        by apply bool_decide_eq_false in Hbad. }
      exists (a :: delivered), w'. split_and!.
      * erewrite bind_ok; last first.
        { erewrite try_ok; [reflexivity|]. erewrite bind_ok by exact Hsend. reflexivity. }
        rewrite Hrun. do 2 f_equal. rewrite andb_true_r. f_equal.
        apply bool_decide_ext. split; [by intros ->|by intros [= ->]].
      * by apply sublist_skip.
      * rewrite Hout, Hout1, <- app_assoc. done.
      * by rewrite Hws.
      * by rewrite Hbl.
      * intros Hff1. destruct Hff as [Hff' Hdel].
        { unfold tg_fault_free in *. rewrite Hf1, Hff1. done. }
        split; [done|]. rewrite filter_cons_True by by apply Hreach.
        rewrite Hdel. f_equal. apply list_filter_iff. intros x.
        unfold reachable. by rewrite Hbl1.
    + destruct (IH (acc && false) w1) as (delivered & w' & Hrun & Hsub & Hout & Hws & Hbl & Hff).
      assert (outbox_of w1 = outbox_of w
              ∧ worksheet w1 = worksheet w
              ∧ Telegram.blocked (telegram w1) = Telegram.blocked (telegram w)
              ∧ Telegram.tg_faults (telegram w1) = tl (Telegram.tg_faults (telegram w))
              ∧ (tg_fault_free w → reachable w a = false))
        as (Hout1 & Hws1 & Hbl1 & Hf1 & Hreach).
      { unfold tg, zoom, Telegram.send in Hsend.
        destruct (hd false _ || _) eqn:Hbad; [|done].
        injection Hsend as _ <-. split_and!; try done.
        intros Hff1. unfold tg_fault_free in Hff1. rewrite Hff1 in Hbad. simpl in Hbad.
        unfold reachable. apply bool_decide_eq_false.
        unfold Telegram.unreachable in Hbad. simpl in Hbad.
        apply bool_decide_eq_true in Hbad. by intros H. }
      exists delivered, w'. split_and!.
      * erewrite bind_ok; last first.
        { erewrite try_raise; [reflexivity|]. erewrite bind_raise by exact Hsend. reflexivity. }
        rewrite Hrun. do 2 f_equal. rewrite andb_false_r. simpl.
        symmetry. rewrite andb_false_iff. right. apply bool_decide_eq_false.
        intros ->. apply sublist_length in Hsub. simpl in Hsub. lia.
      * by apply sublist_cons.
      * by rewrite Hout, Hout1.
      * by rewrite Hws.
      * by rewrite Hbl.
      * intros Hff1. destruct Hff as [Hff' Hdel].
        { unfold tg_fault_free in *. rewrite Hf1, Hff1. done. }
        split; [done|]. rewrite filter_cons_False by (rewrite Hreach; done).
        rewrite Hdel. apply list_filter_iff. intros x.
        unfold reachable. by rewrite Hbl1.
Qed.

Lemma filter_is_all {A} `{EqDecision A} (P : A → bool) (l : list A) :
  bool_decide (filter (λ a, P a = true) l = l) = forallb P l.
Proof.
  induction l as [|a l IH]; [done|]. simpl. destruct (P a) eqn:HP.
  - rewrite filter_cons_True by done. simpl. rewrite <- IH.
    apply bool_decide_ext. split; [by intros [= ->]|by intros ->].
  - rewrite filter_cons_False by (rewrite HP; done). simpl.
    apply bool_decide_eq_false. intros Heq.
    pose proof (length_filter (λ a, P a = true) l) as Hlen.
    rewrite Heq in Hlen. simpl in Hlen. lia.
Qed.

Lemma send_request_run config download_image record row w :
  row_number record = Some row → row ≠ 0 →
  ∃ delivered photo w',
    Manager.send_request_for_review config download_image record w
    = (Ok (bool_decide (delivered = admin_ids config)), w')
    ∧ delivered `sublist_of` admin_ids config
    ∧ outbox_of w'
      = outbox_of w ++ ((λ a, Telegram.send_prompt a row photo) <$> delivered)
    ∧ worksheet w' = worksheet w
    ∧ Telegram.blocked (telegram w') = Telegram.blocked (telegram w)
    ∧ (tg_fault_free w →
       tg_fault_free w'
       ∧ delivered = filter (λ a, reachable w a = true) (admin_ids config)).
Proof.
  intros Hrow Hne. unfold Manager.send_request_for_review. rewrite Hrow.
  rewrite decide_False by done. cbv zeta.
  match goal with
  | |- context [Manager.send_to_admins row ?photo _ true w] =>
      destruct (send_to_admins_run row photo (admin_ids config) true w)
        as (delivered & w' & Hrun & Hrest);
      exists delivered, photo, w'
  end.
  split; [exact Hrun|exact Hrest].
Qed.

Lemma update_status_pending_ok row w :
  fault_free w → 1 ≤ row →
  Manager.update_status_and_group_link row "Pending" "" w
  = (Ok (), set_worksheet
              (gspread.Worksheet
                 (gspread.set_cell (cells_of w) row (col "Status") "Pending") []
                 (S (calls_of w))) w).
Proof.
  intros Hff Hrow. unfold Manager.update_status_and_group_link.
  erewrite try_ok; [reflexivity|]. cbv zeta. simpl (if Py.truthy "" then _ else _).
  destruct (sheet_batch_update_ok
              [gspread.Update (cell_range "Status" row) "Pending"] w)
    as (r & Hrun & HrOk).
  { by rewrite fault_free_hd. }
  { simpl. rewrite andb_true_r. apply andb_true_iff. split; [by apply Z.leb_le|done]. }
  rewrite Hrun, (HrOk (fault_free_hd w Hff)). unfold fault_free in Hff. rewrite Hff. done.
Qed.

(** The loop of the sweep when nothing is scheduled to fail: every record is
    marked when all reviewers can be reached, and none is when one cannot. *)
Lemma review_all_run config download_image n records idx s f w :
  calm w →
  Forall (λ d, ∃ r, row_number d = Some r ∧ 1 ≤ r) records →
  ∃ w',
    Manager.review_all config download_image n idx records s f w
    = (Ok (if all_reachable config w
           then ((s + length records)%nat, f) else (s, (f + length records)%nat)), w')
    ∧ cells_of w'
      = (if all_reachable config w
         then mark_pending (rows_of records) (cells_of w) else cells_of w)
    ∧ calm w'
    ∧ Telegram.blocked (telegram w') = Telegram.blocked (telegram w)
    ∧ (records ≠ [] → all_reachable config w = false → calls_of w' = calls_of w).
Proof.
  revert idx s f w. induction records as [|d records IH]; intros idx s f w Hcalm Hrows.
  - exists w. simpl. rewrite !Nat.add_0_r. by destruct (all_reachable config w).
  - apply Forall_cons in Hrows as [(r & Hr & Hge) Hrows].
    cbn [Manager.review_all].
    assert (∃ w0, (if decide (idx mod 5 = 0)%nat
                   then tg (Telegram.edit_text (MsgProgress idx n s f))
                   else mret ()) w = (Ok (), w0)
                  ∧ worksheet w0 = worksheet w ∧ tg_fault_free w0
                  ∧ Telegram.blocked (telegram w0) = Telegram.blocked (telegram w))
      as (w0 & Hprog & Hws0 & Htg0 & Hbl0).
    { destruct (decide _).
      - eexists. split; [apply tg_send_ok; [apply Hcalm|done]|]. done.
      - exists w. split_and!; [done|done|apply Hcalm|done]. }
    erewrite bind_ok by exact Hprog.
    destruct (send_request_run config download_image d r w0 Hr ltac:(lia))
      as (delivered & photo & w1 & Hsend & _ & _ & Hws1 & Hbl1 & Hff1).
    destruct (Hff1 Htg0) as [Htg1 Hdel].
    erewrite bind_ok by exact Hsend.
    assert (all_reachable config w0 = all_reachable config w) as Hreach0.
    { unfold all_reachable, reachable. by rewrite Hbl0. }
    rewrite Hdel, filter_is_all. fold (all_reachable config w0). rewrite Hreach0.
    destruct (all_reachable config w) eqn:Hreach.
    + rewrite Hr.
      assert (fault_free w1) as Hsheet1.
      { unfold fault_free. rewrite Hws1, Hws0. apply Hcalm. }
      erewrite bind_ok by (by apply update_status_pending_ok).
      match goal with
      | |- context [Manager.review_all _ _ _ _ _ _ _ ?w2] =>
          destruct (IH (S idx) (S s) f w2) as (w' & Hrun & Hcells & Hcalm' & Hbl' & _)
      end.
      { split; [done|]. exact Htg1. }
      { done. }
      exists w'. split_and!.
      * rewrite Hrun. unfold all_reachable, reachable in *. simpl.
        simpl in Hreach. rewrite Hbl1, Hbl0, Hreach.
        do 3 f_equal. simpl. lia.
      * rewrite Hcells. unfold all_reachable, reachable in *. simpl.
        rewrite Hbl1, Hbl0, Hreach. unfold rows_of. simpl. rewrite Hr. simpl.
        unfold cells_of. simpl. by rewrite Hws1, Hws0.
      * done.
      * rewrite Hbl'. simpl. by rewrite Hbl1, Hbl0.
      * intros _ Hfalse. done.
    + destruct (IH (S idx) s (S f) w1) as (w' & Hrun & Hcells & Hcalm' & Hbl' & Hcalls).
      { split; [|done]. unfold fault_free. rewrite Hws1, Hws0. apply Hcalm. }
      { done. }
      assert (all_reachable config w1 = false) as Hreach1.
      { unfold all_reachable, reachable in *. by rewrite Hbl1, Hbl0. }
      rewrite Hreach1 in Hrun, Hcells.
      exists w'. split_and!.
      * rewrite Hrun. do 3 f_equal. simpl. lia.
      * rewrite Hcells. unfold cells_of. by rewrite Hws1, Hws0.
      * done.
      * by rewrite Hbl', Hbl1, Hbl0.
      * intros _ _. destruct records as [|d' records'].
        -- assert (w1 = w') as <-
             by (unfold Manager.review_all, mret, M_ret in Hrun; congruence).
           unfold calls_of. by rewrite Hws1, Hws0.
        -- rewrite Hcalls by done. unfold calls_of. by rewrite Hws1, Hws0.
Qed.

Lemma pending_from_rows i rows :
  Forall (λ d, ∃ r, row_number d = Some r ∧ i ≤ r
                    ∧ Manager.undecided (Py.strip (get d "Status" "")) = true)
         (Manager.pending_from i rows).
Proof.
  revert i. induction rows as [|row rows IH]; intros i; [done|].
  cbn [Manager.pending_from].
  assert (Forall (λ d, ∃ r, row_number d = Some r ∧ i ≤ r
                            ∧ Manager.undecided (Py.strip (get d "Status" "")) = true)
                 (Manager.pending_from (i + 1) rows)) as Hrest.
  { eapply Forall_impl; [apply IH|]. intros d (r & Hr & Hle & Hu). exists r.
    split_and!; [done|lia|done]. }
  cbv zeta.
  destruct (Manager.undecided _) eqn:Hund; [|exact Hrest].
  apply Forall_cons. split; [|exact Hrest]. exists i. split_and!; [reflexivity|lia|].
  exact Hund.
Qed.

Lemma col_Status_pos : 1 ≤ col "Status".
Proof. vm_compute. discriminate. Qed.

Lemma mark_pending_cons x rows g :
  mark_pending (x :: rows) g
  = mark_pending rows (gspread.set_cell g x (col "Status") "Pending").
Proof. reflexivity. Qed.

Lemma mark_pending_other rows g r c :
  1 ≤ r → 1 ≤ c → Forall (λ x, 1 ≤ x) rows →
  r ∉ rows ∨ c ≠ col "Status" →
  gspread.cell (mark_pending rows g) r c = gspread.cell g r c.
Proof.
  intros Hr Hc. revert g. induction rows as [|x rows IH]; intros g Hrows Hne;
    [reflexivity|].
  apply Forall_cons in Hrows as [Hx Hrows]. rewrite mark_pending_cons.
  rewrite IH; [|exact Hrows|].
  - apply cell_set_cell_other; [exact Hx|exact col_Status_pos|exact Hr|exact Hc|].
    intros Heq. injection Heq as Hrx Hcc. destruct Hne as [Hne|Hne].
    + apply Hne. rewrite Hrx. left.
    + by apply Hne.
  - destruct Hne as [Hne|Hne]; [|by right]. left. intros H. apply Hne. by right.
Qed.

Lemma mark_pending_cell rows g r :
  Forall (λ x, 1 ≤ x) rows → r ∈ rows →
  gspread.cell (mark_pending rows g) r (col "Status") = "Pending".
Proof.
  revert g. induction rows as [|x rows IH]; intros g Hrows Hin.
  - by apply elem_of_nil in Hin.
  - apply Forall_cons in Hrows as [Hx Hrows]. rewrite mark_pending_cons.
    destruct (decide (r ∈ rows)) as [Hr|Hr]; [by apply IH|].
    apply elem_of_cons in Hin as [->|Hin]; [|by destruct Hr].
    rewrite mark_pending_other; [|exact Hx|exact col_Status_pos|exact Hrows|by left].
    apply cell_set_cell; [exact Hx|exact col_Status_pos].
Qed.

Lemma get_pending_records_ok w :
  fault_free w → Manager.get_pending_records w = (Ok (selected w), after_call w).
Proof.
  intros Hff. unfold Manager.get_pending_records, gspread.get_all_values.
  erewrite try_ok; [reflexivity|].
  erewrite bind_ok by (apply sheet_read_ok; [by apply fault_free_hd|reflexivity]).
  unfold selected. case_bool_decide as Hlen; [|reflexivity].
  destruct (cells_of w) as [|r0 [|r1 g]]; [reflexivity|reflexivity|].
  cbn [length] in Hlen. lia.
Qed.

Lemma rows_of_selected w :
  Forall (λ x, 1 ≤ x) (rows_of (selected w))
  ∧ Forall (λ d, ∃ r, row_number d = Some r ∧ 1 ≤ r) (selected w).
Proof.
  pose proof (pending_from_rows 2 (drop 1 (cells_of w))) as Hsel.
  fold (selected w) in Hsel. split.
  - unfold rows_of. apply Forall_fmap. eapply Forall_impl; [exact Hsel|].
    intros d (r & Hr & Hle & _). simpl. rewrite Hr. simpl. lia.
  - eapply Forall_impl; [exact Hsel|]. intros d (r & Hr & Hle & _).
    exists r. split; [done|lia].
Qed.








(** ** The decision handler ([handle_decision]) *)

Lemma manager_record_of_lookup values h c :
  HEADERS_get h = Some c →
  Manager.record_of values !! h
  = Some (let value := if bool_decide (c ≤ Z.of_nat (length values))
                       then nth (Z.to_nat (c - 1)) values "" else "" in
          if Py.truthy value then Py.strip value else "").
Proof.
  intros Hh. unfold Manager.record_of. apply elem_of_list_to_map_1.
  - rewrite <- list_fmap_compose.
    erewrite list_fmap_ext; [apply HEADERS_NoDup|]. by intros i [h' c'] _.
  - apply PyDict_get_elem in Hh. apply list_elem_of_fmap. by exists (h, c).
Qed.

Lemma manager_get_record_ok row w :
  hd gspread.NoFault (gspread.faults (worksheet w)) = gspread.NoFault → 1 ≤ row →
  Manager.get_record_by_row row w
  = (Ok (match nth (Z.to_nat (row - 1)) (cells_of w) [] with
         | [] => empty_dict
         | _ => manager_record_at w row
         end), after_call w).
Proof.
  intros Hf Hrow. unfold Manager.get_record_by_row, gspread.row_values.
  erewrite try_ok; [reflexivity|].
  erewrite bind_ok by (apply sheet_read_ok; [done|by apply Z.leb_le]).
  unfold manager_record_at.
  by destruct (nth (Z.to_nat (row - 1)) (cells_of w) []).
Qed.

Lemma update_status_ok row status group_link w :
  fault_free w → 1 ≤ row →
  Manager.update_status_and_group_link row status group_link w
  = (Ok (), set_worksheet
              (gspread.Worksheet
                 (gspread.apply_updates (status_updates row status group_link)
                    (cells_of w)) [] (S (calls_of w))) w).
Proof.
  intros Hff Hrow. unfold Manager.update_status_and_group_link.
  erewrite try_ok; [reflexivity|]. cbv zeta. fold (status_updates row status group_link).
  destruct (sheet_batch_update_ok (status_updates row status group_link) w)
    as (r & Hrun & HrOk).
  { by rewrite fault_free_hd. }
  { unfold status_updates. assert ((1 <=? row) = true) as Hle by (by apply Z.leb_le).
    destruct (Py.truthy group_link); cbn [forallb];
      unfold gspread.valid_update, cell_range; cbn [gspread.range gspread.a1_row];
      rewrite Hle; reflexivity. }
  rewrite Hrun, (HrOk (fault_free_hd w Hff)). unfold fault_free in Hff. rewrite Hff. done.
Qed.

(** After the write of a decision the status cell of the row holds the
    status written. *)
Lemma status_cell_after_update row status group_link g :
  1 ≤ row →
  gspread.cell (gspread.apply_updates (status_updates row status group_link) g)
               row (col "Status") = status.
Proof.
  intros Hrow. unfold status_updates, gspread.apply_updates.
  destruct (Py.truthy group_link); cbn [foldl].
  - change (gspread.col_of_letter (gspread.a1_col (gspread.range
              (gspread.Update (cell_range "Group_Link" row) group_link))))
      with (col "Group_Link").
    change (gspread.col_of_letter (gspread.a1_col (gspread.range
              (gspread.Update (cell_range "Status" row) status))))
      with (col "Status").
    cbn [gspread.range gspread.a1_row gspread.value cell_range].
    rewrite cell_set_cell_other; [by apply cell_set_cell| | | | |]; try done.
  - change (gspread.col_of_letter (gspread.a1_col (gspread.range
              (gspread.Update (cell_range "Status" row) status))))
      with (col "Status").
    cbn [gspread.range gspread.a1_row gspread.value cell_range].
    by apply cell_set_cell.
Qed.

Lemma notify_run telegram_id m w :
  ∃ b w',
    Manager.send_notification_to_user telegram_id m w = (Ok b, w')
    ∧ worksheet w' = worksheet w
    ∧ processed_records w' = processed_records w
    ∧ (outbox_of w' = outbox_of w
       ∨ outbox_of w' = outbox_of w ++ [Telegram.send_notification telegram_id m])
    ∧ (tg_fault_free w → tg_fault_free w').
Proof.
  unfold Manager.send_notification_to_user.
  destruct (negb _ || _).
  { exists false, w. split_and!; try done. by left. }
  unfold try_except, mbind, M_bind, tg, zoom, Telegram.send.
  destruct (hd false _ || _); simpl.
  - eexists _, _. split_and!; try done; [by left|].
    unfold tg_fault_free. simpl. by intros ->.
  - eexists _, _. split_and!; try done; [by right|].
    unfold tg_fault_free. simpl. by intros ->.
Qed.

(** The decision from the claim on, when nothing fails: the row is claimed,
    the status (and for an acceptance the link of the committee) is written
    in one batch, and the reviewer gets the caption and the answer. *)
Lemma apply_decision_run config action row record w :
  calm w → 1 ≤ row →
  ∃ w1 notification,
    Manager.apply_decision config action row record w = (Ok (), w1)
    ∧ processed_records w1 = {[row]} ∪ processed_records w
    ∧ cells_of w1
      = gspread.apply_updates
          (status_updates row
             (if bool_decide (action = "accept") then "Accepted" else "Rejected")
             (if bool_decide (action = "accept")
              then default "" (committee_links config
                               !! Py.strip (get record "Committee" "نامشخص"))
              else ""))
          (cells_of w)
    ∧ calls_of w1 = S (calls_of w)
    ∧ calm w1
    ∧ ∃ before,
        outbox_of w1
        = before
          ++ [Telegram.edit_message_caption
                (MsgCaption row (bool_decide (action = "accept")) notification);
              Telegram.answer
                (MsgDecided (bool_decide (action = "accept"))
                            (Manager._is_user_logged_in record)) false].
Proof.
  intros [Hff Htg] Hrow. unfold Manager.apply_decision. cbv zeta.
  unfold modify at 1. unfold mbind at 1, M_bind at 1. cbv beta iota.
  set (w0 := set_processed_records _ w).
  set (accepted := bool_decide (action = "accept")).
  set (link := default "" (committee_links config !! _)).
  assert (∃ n w2,
            (if accepted
             then Manager.update_status_and_group_link row "Accepted" link;;
                  (if Manager._is_user_logged_in record
                   then Some <$> Manager.send_notification_to_user
                                   (Py.strip (get record "Telegram_ID" ""))
                                   (MsgAccepted (fields record !! "Name")
                                      (Some (Py.strip (get record "Committee" "نامشخص")))
                                      link (team_link config))
                   else mret None)
             else Manager.update_status_and_group_link row "Rejected" "";;
                  (if Manager._is_user_logged_in record
                   then Some <$> Manager.send_notification_to_user
                                   (Py.strip (get record "Telegram_ID" ""))
                                   (MsgRejected (fields record !! "Name")
                                      (Some (Py.strip (get record "Committee" "نامشخص"))))
                   else mret None)) w0 = (Ok n, w2)
            ∧ processed_records w2 = {[row]} ∪ processed_records w
            ∧ cells_of w2
              = gspread.apply_updates
                  (status_updates row (if accepted then "Accepted" else "Rejected")
                                  (if accepted then link else "")) (cells_of w)
            ∧ calls_of w2 = S (calls_of w)
            ∧ calm w2) as (n & w2 & Hrun & Hproc & Hcells & Hcalls & Hcalm2).
  { assert (fault_free w0) as Hff0 by exact Hff.
    destruct accepted.
    - erewrite bind_ok by (by apply update_status_ok).
      set (w1 := set_worksheet _ w0).
      destruct (Manager._is_user_logged_in record).
      + destruct (notify_run (Py.strip (get record "Telegram_ID" ""))
                    (MsgAccepted (fields record !! "Name")
                       (Some (Py.strip (get record "Committee" "نامشخص")))
                       link (team_link config)) w1)
          as (b & w2 & Hn & Hws & Hpr & _ & Htg2).
        exists (Some b), w2. unfold fmap, M_fmap. rewrite Hn.
        split_and!; [done|by rewrite Hpr|unfold cells_of; by rewrite Hws
                    |unfold calls_of; by rewrite Hws|].
        split; [unfold fault_free; by rewrite Hws|by apply Htg2].
      + exists None, w1. split_and!; try done.
    - erewrite bind_ok by (by apply update_status_ok).
      set (w1 := set_worksheet _ w0).
      destruct (Manager._is_user_logged_in record).
      + destruct (notify_run (Py.strip (get record "Telegram_ID" ""))
                    (MsgRejected (fields record !! "Name")
                       (Some (Py.strip (get record "Committee" "نامشخص")))) w1)
          as (b & w2 & Hn & Hws & Hpr & _ & Htg2).
        exists (Some b), w2. unfold fmap, M_fmap. rewrite Hn.
        split_and!; [done|by rewrite Hpr|unfold cells_of; by rewrite Hws
                    |unfold calls_of; by rewrite Hws|].
        split; [unfold fault_free; by rewrite Hws|by apply Htg2].
      + exists None, w1. split_and!; try done. }
  erewrite bind_ok by exact Hrun.
  destruct Hcalm2 as [Hff2 Htg2].
  erewrite bind_ok by (by apply tg_send_ok).
  eexists _, n. split; [by apply tg_send_ok|].
  split_and!; try done.
  eexists. unfold outbox_of. simpl. rewrite <- app_assoc. reflexivity.
Qed.

Lemma handle_decision_parsed config user_id callback_data action row w :
  Manager.is_admin config user_id = true →
  parses callback_data action row →
  Manager.handle_decision config user_id callback_data w
  = try_except (Manager.decide_row config action row)
               (λ _, Manager.on_error (Some row)) w.
Proof.
  intros Hadmin (row_text & rest & Hsplit & Hint).
  unfold Manager.handle_decision. rewrite Hadmin. cbn [negb]. by rewrite Hsplit, Hint.
Qed.

Lemma answer_ok m alert w :
  hd false (Telegram.tg_faults (telegram w)) = false →
  tg (Telegram.answer m alert) w = (Ok (), sent (Telegram.answer m alert) w).
Proof.
  intros Hf. unfold tg, zoom, Telegram.send. rewrite Hf. done.
Qed.

Lemma answer_fault m alert w :
  hd false (Telegram.tg_faults (telegram w)) = true →
  tg (Telegram.answer m alert) w
  = (Raise TelegramError,
     set_telegram
       (Telegram.Channel (Telegram.outbox (telegram w))
          (tl (Telegram.tg_faults (telegram w))) (Telegram.blocked (telegram w))) w).
Proof.
  intros Hf. unfold tg, zoom, Telegram.send. rewrite Hf. done.
Qed.

Lemma tg_fault_free_hd w :
  tg_fault_free w → hd false (Telegram.tg_faults (telegram w)) = false.
Proof. unfold tg_fault_free. by intros ->. Qed.

Lemma decide_row_claimed config action row w :
  row ∈ processed_records w →
  Manager.decide_row config action row w
  = tg (Telegram.answer MsgAlreadyProcessed true) w.
Proof.
  intros Hin. unfold Manager.decide_row, mbind, M_bind, gets.
  by rewrite bool_decide_eq_true_2.
Qed.

Lemma manager_record_truthy w row : dict_truthy (manager_record_at w row) = true.
Proof. unfold dict_truthy. apply orb_true_iff. right. by apply bool_decide_eq_true. Qed.

Lemma decide_row_read config action row w :
  row ∉ processed_records w →
  hd gspread.NoFault (gspread.faults (worksheet w)) = gspread.NoFault →
  1 ≤ row →
  nth (Z.to_nat (row - 1)) (cells_of w) [] ≠ [] →
  Manager.decide_row config action row w
  = if Manager.unresolved (status_read w row)
    then Manager.apply_decision config action row (manager_record_at w row) (after_call w)
    else tg (Telegram.answer (MsgStatusAlready (status_read w row)) true) (after_call w).
Proof.
  intros Hin Hf Hrow Hvals. unfold Manager.decide_row.
  unfold mbind at 1, M_bind at 1, gets. rewrite bool_decide_eq_false_2 by done.
  erewrite bind_ok by (by apply manager_get_record_ok).
  destruct (nth (Z.to_nat (row - 1)) (cells_of w) []) eqn:Hnth; [done|].
  rewrite manager_record_truthy. cbn [negb]. cbv zeta. fold (status_read w row).
  by destruct (Manager.unresolved (status_read w row)).
Qed.

Lemma pad_row_length values : (16 ≤ length (Manager.pad_row values))%nat.
Proof. unfold Manager.pad_row. apply (pad_length "" 16). Qed.

Lemma status_read_cell w row :
  status_read w row
  = Py.strip (if Py.truthy (gspread.cell (cells_of w) row (col "Status"))
              then Py.strip (gspread.cell (cells_of w) row (col "Status")) else "").
Proof.
  unfold status_read, get, manager_record_at. cbn [fields].
  rewrite (manager_record_of_lookup _ "Status" (col "Status")) by done.
  cbn [from_option id]. cbv zeta.
  pose proof (pad_row_length (nth (Z.to_nat (row - 1)) (cells_of w) [])) as Hlen.
  rewrite bool_decide_eq_true_2; last first.
  { change (col "Status") with 15. lia. }
  unfold Manager.pad_row. rewrite pad_nth. done.
Qed.

Lemma apply_status_updates row status group_link g :
  gspread.apply_updates (status_updates row status group_link) g
  = if Py.truthy group_link
    then gspread.set_cell (gspread.set_cell g row (col "Status") status)
                          row (col "Group_Link") group_link
    else gspread.set_cell g row (col "Status") status.
Proof. unfold status_updates. by destruct (Py.truthy group_link). Qed.

(** The write of a decision changes no cell of another row. *)
Lemma other_rows_after_update row status group_link g r c :
  1 ≤ row → 1 ≤ r → 1 ≤ c → r ≠ row →
  gspread.cell (gspread.apply_updates (status_updates row status group_link) g) r c
  = gspread.cell g r c.
Proof.
  intros Hrow Hr Hc Hne. rewrite apply_status_updates.
  destruct (Py.truthy group_link);
    repeat (rewrite cell_set_cell_other; [|done|done|done|done|congruence]); done.
Qed.

(** A decision on a row that is not claimed goes by the status it reads:
    carried out on an open status, refused on any other. *)
Lemma decision_by_status config user callback action row w :
  Manager.is_admin config user = true →
  parses callback action row →
  row ∉ processed_records w →
  calm w → 1 ≤ row →
  nth (Z.to_nat (row - 1)) (cells_of w) [] ≠ [] →
  if Manager.unresolved (status_read w row)
  then ∃ w3,
         Manager.handle_decision config user callback w = (Ok (), w3)
         ∧ gspread.cell (cells_of w3) row (col "Status")
           = (if bool_decide (action = "accept") then "Accepted" else "Rejected")
         ∧ row ∈ processed_records w3
  else Manager.handle_decision config user callback w
       = (Ok (), sent (Telegram.answer (MsgStatusAlready (status_read w row)) true)
                   (after_call w)).
Proof.
  intros Hadmin Hparse Hfree [Hff Htg] Hrow Hvals.
  rewrite (handle_decision_parsed _ _ _ _ _ _ Hadmin Hparse).
  destruct (Manager.unresolved (status_read w row)) eqn:Hunres.
  - destruct (apply_decision_run config action row (manager_record_at w row)
                (after_call w))
      as (w3 & notification & Hrun & Hproc & Hcells & _).
    { split; [by apply fault_free_after_call|exact Htg]. }
    { exact Hrow. }
    exists w3. split_and!.
    + erewrite try_ok; [reflexivity|].
      rewrite decide_row_read; [|exact Hfree|by apply fault_free_hd|exact Hrow|exact Hvals].
      by rewrite Hunres.
    + rewrite Hcells. by apply status_cell_after_update.
    + rewrite Hproc. apply elem_of_union. left. by apply elem_of_singleton.
  - erewrite try_ok; [reflexivity|].
    rewrite decide_row_read; [|exact Hfree|by apply fault_free_hd|exact Hrow|exact Hvals].
    rewrite Hunres. apply answer_ok. by apply tg_fault_free_hd.
Qed.

(** Two decisions on the same row by authorised reviewers, the row
    holding at least one value and its status, stripped, being empty or
    Pending, nothing failing meanwhile.  The first decision claims the row,
    makes the one write of the final status (one read and one write on the
    sheet) and answers the reviewer that the request was decided.  The
    second, whether it runs in the same process or in any process with
    another set of processed rows, is answered with a Conflict: "already
    processed" when the row is in the set, and otherwise "status is already
    ..." after the one re-read of the row; it changes no cell. *)
Lemma first_decision_wins (config : Config) (user1 user2 : Z)
    (callback1 callback2 action1 action2 : string) (row : Z) (w : World) :
  Manager.is_admin config user1 = true →
  Manager.is_admin config user2 = true →
  parses callback1 action1 row →
  parses callback2 action2 row →
  calm w → 1 ≤ row →
  row ∉ processed_records w →
  nth (Z.to_nat (row - 1)) (cells_of w) [] ≠ [] →
  Manager.unresolved (status_read w row) = true →
  ∃ w1 status before notification,
    Manager.handle_decision config user1 callback1 w = (Ok (), w1)
    ∧ status = (if bool_decide (action1 = "accept") then "Accepted" else "Rejected")
    ∧ gspread.cell (cells_of w1) row (col "Status") = status
    ∧ (∀ r c, 1 ≤ r → 1 ≤ c → r ≠ row →
              gspread.cell (cells_of w1) r c = gspread.cell (cells_of w) r c)
    ∧ calls_of w1 = S (S (calls_of w))
    ∧ row ∈ processed_records w1
    ∧ outbox_of w1
      = before
        ++ [Telegram.edit_message_caption
              (MsgCaption row (bool_decide (action1 = "accept")) notification);
            Telegram.answer
              (MsgDecided (bool_decide (action1 = "accept"))
                 (Manager._is_user_logged_in (manager_record_at w row))) false]
    ∧ ∀ processed : gset Z,
        ∃ w2 answer,
          Manager.handle_decision config user2 callback2
            (set_processed_records processed w1) = (Ok (), w2)
          ∧ outbox_of w2 = outbox_of w1 ++ [Telegram.answer answer true]
          ∧ conflict answer
          ∧ (row ∈ processed → answer = MsgAlreadyProcessed ∧ calls_of w2 = calls_of w1)
          ∧ (row ∉ processed →
             answer = MsgStatusAlready status ∧ calls_of w2 = S (calls_of w1))
          ∧ cells_of w2 = cells_of w1.
Proof.
  intros Hadmin1 Hadmin2 Hparse1 Hparse2 Hcalm Hrow Hfresh Hvals Hunres.
  destruct Hcalm as [Hff Htg].
  set (status := if bool_decide (action1 = "accept") then "Accepted" else "Rejected").
  destruct (apply_decision_run config action1 row (manager_record_at w row) (after_call w))
    as (w1 & notification & Hrun & Hproc & Hcells & Hcalls & Hcalm1 & before & Hout).
  { split; [by apply fault_free_after_call|exact Htg]. }
  { exact Hrow. }
  change (cells_of (after_call w)) with (cells_of w) in Hcells.
  fold status in Hcells.
  assert (Manager.handle_decision config user1 callback1 w = (Ok (), w1)) as Hfirst.
  { rewrite (handle_decision_parsed _ _ _ _ _ _ Hadmin1 Hparse1).
    erewrite try_ok; [reflexivity|].
    rewrite decide_row_read by (done || by apply fault_free_hd).
    by rewrite Hunres. }
  assert (gspread.cell (cells_of w1) row (col "Status") = status) as Hcell.
  { rewrite Hcells. by apply status_cell_after_update. }
  assert (status = "Accepted" ∨ status = "Rejected") as Hstatus.
  { unfold status. destruct (bool_decide _); [by left|by right]. }
  exists w1, status, before, notification.
  split; [exact Hfirst|]. split; [reflexivity|]. split; [exact Hcell|].
  split; [|split; [|split; [|split]]].
  - intros r c Hr Hc Hne. rewrite Hcells. by apply other_rows_after_update.
  - rewrite Hcalls. reflexivity.
  - rewrite Hproc. apply elem_of_union. left. by apply elem_of_singleton.
  - exact Hout.
  - intros processed. set (w1' := set_processed_records processed w1).
    assert (calm w1') as [Hff1 Htg1] by exact Hcalm1.
    rewrite (handle_decision_parsed _ _ _ _ _ _ Hadmin2 Hparse2).
    destruct (decide (row ∈ processed)) as [Hin|Hnin].
    + eexists _, MsgAlreadyProcessed. split_and!.
      * erewrite try_ok; [reflexivity|]. rewrite decide_row_claimed by done.
        apply answer_ok. by apply tg_fault_free_hd.
      * done.
      * by left.
      * done.
      * done.
      * done.
    + assert (status_read w1' row = status) as Hread.
      { rewrite status_read_cell. change (cells_of w1') with (cells_of w1).
        rewrite Hcell. destruct Hstatus as [-> | ->]; vm_compute; reflexivity. }
      eexists _, (MsgStatusAlready status). split_and!.
      * erewrite try_ok; [reflexivity|].
        rewrite decide_row_read; [|done|by apply fault_free_hd|done|].
        -- rewrite Hread.
           replace (Manager.unresolved status) with false
             by (destruct Hstatus as [-> | ->]; vm_compute; reflexivity).
           apply answer_ok. apply tg_fault_free_hd. exact Htg1.
        -- change (cells_of w1') with (cells_of w1). intros Hnil.
           unfold gspread.cell in Hcell. rewrite Hnil in Hcell.
           assert (nth (Z.to_nat (col "Status" - 1)) ([] : list string) "" = "")
             as Hempty by (by destruct (Z.to_nat (col "Status" - 1))).
           rewrite Hempty in Hcell.
           destruct Hstatus as [Hs | Hs]; rewrite Hs in Hcell; discriminate.
      * done.
      * right. by eexists.
      * done.
      * done.
      * done.
Qed.


(** C1.  Two decisions on the same row by authorised reviewers, the row
    holding at least one value and undecided for the sweep (its status,
    stripped, is empty or "pending" in any case), nothing failing meanwhile.
    When the status is empty or exactly "Pending", the first decision claims
    the row, makes the one write of the final status and answers that the
    request was decided, and the second is answered with a Conflict and
    changes no cell.  When the status is "pending" in any other case, the
    handler, which compares with ["", "Pending"] as they are, answers both
    decisions "status is already ...": no write is made and no decision goes
    through, although the sweep selected the row and sent its prompt. *)
Theorem decision_idempotent (config : Config) (user1 user2 : Z)
    (callback1 callback2 action1 action2 : string) (row : Z) (w : World) :
  Manager.is_admin config user1 = true →
  Manager.is_admin config user2 = true →
  parses callback1 action1 row →
  parses callback2 action2 row →
  calm w → 1 ≤ row →
  row ∉ processed_records w →
  nth (Z.to_nat (row - 1)) (cells_of w) [] ≠ [] →
  Manager.undecided (status_read w row) = true →
  (Manager.unresolved (status_read w row) = true →
   ∃ w1 status before notification,
     Manager.handle_decision config user1 callback1 w = (Ok (), w1)
     ∧ status = (if bool_decide (action1 = "accept") then "Accepted" else "Rejected")
     ∧ gspread.cell (cells_of w1) row (col "Status") = status
     ∧ (∀ r c, 1 ≤ r → 1 ≤ c → r ≠ row →
               gspread.cell (cells_of w1) r c = gspread.cell (cells_of w) r c)
     ∧ calls_of w1 = S (S (calls_of w))
     ∧ row ∈ processed_records w1
     ∧ outbox_of w1
       = before
         ++ [Telegram.edit_message_caption
               (MsgCaption row (bool_decide (action1 = "accept")) notification);
             Telegram.answer
               (MsgDecided (bool_decide (action1 = "accept"))
                  (Manager._is_user_logged_in (manager_record_at w row))) false]
     ∧ ∀ processed : gset Z,
         ∃ w2 answer,
           Manager.handle_decision config user2 callback2
             (set_processed_records processed w1) = (Ok (), w2)
           ∧ outbox_of w2 = outbox_of w1 ++ [Telegram.answer answer true]
           ∧ conflict answer
           ∧ (row ∈ processed → answer = MsgAlreadyProcessed ∧ calls_of w2 = calls_of w1)
           ∧ (row ∉ processed →
              answer = MsgStatusAlready status ∧ calls_of w2 = S (calls_of w1))
           ∧ cells_of w2 = cells_of w1)
  ∧ (Manager.unresolved (status_read w row) = false →
     ∃ w1 w2,
       Manager.handle_decision config user1 callback1 w = (Ok (), w1)
       ∧ Manager.handle_decision config user2 callback2 w1 = (Ok (), w2)
       ∧ outbox_of w2
         = outbox_of w
           ++ [Telegram.answer (MsgStatusAlready (status_read w row)) true;
               Telegram.answer (MsgStatusAlready (status_read w row)) true]
       ∧ cells_of w2 = cells_of w
       ∧ processed_records w2 = processed_records w
       ∧ calls_of w2 = S (S (calls_of w))).
Proof.
  intros Hadmin1 Hadmin2 Hparse1 Hparse2 Hcalm Hrow Hfresh Hvals _. split.
  - intros Hunres.
    by apply (first_decision_wins config user1 user2 callback1 callback2 action1 action2).
  - intros Hres.
    pose proof (decision_by_status config user1 callback1 action1 row w
                  Hadmin1 Hparse1 Hfresh Hcalm Hrow Hvals) as Hfirst.
    rewrite Hres in Hfirst.
    set (w1 := sent (Telegram.answer (MsgStatusAlready (status_read w row)) true)
                 (after_call w)) in *.
    assert (calm w1) as Hcalm1.
    { destruct Hcalm as [Hff Htg]. split; [by apply fault_free_after_call|].
      unfold tg_fault_free in *. cbn. by rewrite Htg. }
    pose proof (decision_by_status config user2 callback2 action2 row w1
                  Hadmin2 Hparse2 Hfresh Hcalm1 Hrow Hvals) as Hsecond.
    change (status_read w1 row) with (status_read w row) in Hsecond.
    rewrite Hres in Hsecond.
    eexists w1, _. split; [exact Hfirst|]. split; [exact Hsecond|].
    split_and!; try reflexivity.
    unfold outbox_of. cbn. by rewrite <- app_assoc.
Qed.

Lemma decision_idempotent_witness :
  (∃ w1,
     Manager.handle_decision demo_config 1 "accept_2" (world_at 0 demo_cells) = (Ok (), w1)
     ∧ gspread.cell (cells_of w1) 2 (col "Status") = "Accepted"
     ∧ calls_of w1 = 2%nat
     ∧ (∃ w2,
          Manager.handle_decision demo_config 2 "reject_2" w1 = (Ok (), w2)
          ∧ outbox_of w2 = outbox_of w1 ++ [Telegram.answer MsgAlreadyProcessed true]
          ∧ calls_of w2 = 2%nat
          ∧ cells_of w2 = cells_of w1)
     ∧ (∃ w2,
          Manager.handle_decision demo_config 2 "reject_2" (set_processed_records ∅ w1)
          = (Ok (), w2)
          ∧ outbox_of w2
            = outbox_of w1 ++ [Telegram.answer (MsgStatusAlready "Accepted") true]
          ∧ calls_of w2 = 3%nat
          ∧ cells_of w2 = cells_of w1))
  ∧ (2 ∈ rows_of (selected (world_at 0 lowercase_pending_cells))
     ∧ ∃ w1 w2,
         Manager.handle_decision demo_config 1 "accept_2"
           (world_at 0 lowercase_pending_cells) = (Ok (), w1)
         ∧ Manager.handle_decision demo_config 2 "accept_2" w1 = (Ok (), w2)
         ∧ outbox_of w2
           = [Telegram.answer (MsgStatusAlready "pending") true;
              Telegram.answer (MsgStatusAlready "pending") true]
         ∧ cells_of w2 = lowercase_pending_cells
         ∧ processed_records w2 = ∅).
Proof.
  split.
  - destruct (decision_idempotent demo_config 1 2 "accept_2" "reject_2" "accept" "reject" 2
                (world_at 0 demo_cells)) as [Hopen _].
    + vm_compute. reflexivity.
    + vm_compute. reflexivity.
    + exists "2", []. split; vm_compute; reflexivity.
    + exists "2", []. split; vm_compute; reflexivity.
    + split; reflexivity.
    + lia.
    + change (2 ∉ (∅ : gset Z)). apply not_elem_of_empty.
    + vm_compute. discriminate.
    + vm_compute. reflexivity.
    + destruct Hopen
        as (w1 & status & before & notification & Hfirst & Hstatus & Hcell & _ & Hcalls
            & Hin & _ & Hsecond); [vm_compute; reflexivity|].
      assert (status = "Accepted") as Hs by (rewrite Hstatus; vm_compute; reflexivity).
      exists w1. split; [exact Hfirst|]. split; [by rewrite Hcell|].
      split; [exact Hcalls|]. split.
      * destruct (Hsecond (processed_records w1))
          as (w2 & answer & Hrun & Hout & _ & Hclaimed & _ & Hsame).
        destruct (Hclaimed Hin) as [-> Hc]. exists w2.
        split; [|split; [exact Hout|split; [by rewrite Hc|exact Hsame]]].
        rewrite <- Hrun. f_equal. by destruct w1.
      * destruct (Hsecond ∅) as (w2 & answer & Hrun & Hout & _ & _ & Hreread & Hsame).
        destruct Hreread as [-> Hc]; [apply not_elem_of_empty|]. exists w2.
        split; [exact Hrun|]. rewrite <- Hs.
        split; [exact Hout|split; [by rewrite Hc, Hcalls|exact Hsame]].
  - split; [apply (bool_decide_unpack _); vm_compute; exact I|].
    destruct (decision_idempotent demo_config 1 2 "accept_2" "accept_2" "accept" "accept" 2
                (world_at 0 lowercase_pending_cells)) as [_ Hrefused].
    + vm_compute. reflexivity.
    + vm_compute. reflexivity.
    + exists "2", []. split; vm_compute; reflexivity.
    + exists "2", []. split; vm_compute; reflexivity.
    + split; reflexivity.
    + lia.
    + change (2 ∉ (∅ : gset Z)). apply not_elem_of_empty.
    + vm_compute. discriminate.
    + vm_compute. reflexivity.
    + destruct Hrefused as (w1 & w2 & Hfirst & Hsecond & Hout & Hcells & Hproc & _);
        [vm_compute; reflexivity|].
      exists w1, w2. split_and!; [exact Hfirst|exact Hsecond| |exact Hcells|exact Hproc].
      rewrite Hout. vm_compute. reflexivity.
Defined.

(** ** Errors after the claim of a row *)

Lemma update_status_processed row status group_link :
  preserves processed_records (Manager.update_status_and_group_link row status group_link).
Proof. unfold Manager.update_status_and_group_link. frame. Qed.

Lemma notify_processed telegram_id m :
  preserves processed_records (Manager.send_notification_to_user telegram_id m).
Proof. unfold Manager.send_notification_to_user. frame. Qed.

(** From the claim on the decision leaves the set of processed rows alone:
    however it ends, the row is in the set. *)
Lemma apply_decision_claims config action row record w :
  processed_records (Manager.apply_decision config action row record w).2
  = {[row]} ∪ processed_records w.
Proof.
  unfold Manager.apply_decision. cbv zeta.
  unfold modify at 1. unfold mbind at 1, M_bind at 1. cbv beta iota.
  set (w0 := set_processed_records _ w).
  match goal with
  | |- processed_records (?m w0).2 = _ =>
      assert (preserves processed_records m) as Hp; [|by rewrite (Hp w0)]
  end.
  pose proof update_status_processed. pose proof notify_processed.
  frame; done.
Qed.

(** The handler of [handle_decision] once the row number is known. *)
Lemma on_error_run row w :
  Manager.on_error (Some row) w
  = if hd false (Telegram.tg_faults (telegram w))
    then (Raise TelegramError,
          set_telegram
            (Telegram.Channel (Telegram.outbox (telegram w))
               (tl (Telegram.tg_faults (telegram w))) (Telegram.blocked (telegram w))) w)
    else (Ok (), set_processed_records (processed_records w ∖ {[row]})
                   (sent (Telegram.answer MsgDecisionError true) w)).
Proof.
  unfold Manager.on_error.
  destruct (hd false (Telegram.tg_faults (telegram w))) eqn:Hf.
  - erewrite bind_raise; [reflexivity|]. by apply answer_fault.
  - erewrite bind_ok by (by apply answer_ok). reflexivity.
Qed.

(** A failing write of the status makes the decision raise. *)
Lemma apply_decision_write_fault config action row record w :
  failing w →
  ∃ w1, Manager.apply_decision config action row record w = (Raise APIError, w1)
        ∧ calls_of w1 = S (calls_of w)
        ∧ outbox_of w1 = outbox_of w
        ∧ Telegram.tg_faults (telegram w1) = Telegram.tg_faults (telegram w)
        ∧ (hd gspread.NoFault (gspread.faults (worksheet w)) = gspread.FailBefore →
           cells_of w1 = cells_of w).
Proof.
  intros Hf. unfold Manager.apply_decision. cbv zeta.
  unfold modify at 1. unfold mbind at 1, M_bind at 1. cbv beta iota.
  set (w0 := set_processed_records _ w).
  assert (failing w0) as Hf0 by exact Hf.
  assert (∀ status group_link,
            ∃ w1, Manager.update_status_and_group_link row status group_link w0
                  = (Raise APIError, w1)
                  ∧ calls_of w1 = S (calls_of w)
                  ∧ outbox_of w1 = outbox_of w
                  ∧ Telegram.tg_faults (telegram w1) = Telegram.tg_faults (telegram w)
                  ∧ (hd gspread.NoFault (gspread.faults (worksheet w)) = gspread.FailBefore →
                     cells_of w1 = cells_of w)) as Hwrite.
  { intros status group_link.
    destruct (update_status_fault row status group_link w0 Hf0) as (w1 & Hrun & Hcalls & Hb).
    exists w1. split; [exact Hrun|]. split; [exact Hcalls|].
    assert (preserves telegram (Manager.update_status_and_group_link row status group_link))
      as Hp by (unfold Manager.update_status_and_group_link; frame).
    specialize (Hp w0). rewrite Hrun in Hp. cbn [snd] in Hp.
    change (telegram w0) with (telegram w) in Hp.
    unfold outbox_of. rewrite Hp. split; [reflexivity|]. split; [reflexivity|].
    intros Hhd. rewrite (Hb Hhd). reflexivity. }
  destruct (bool_decide (action = "accept")).
  - destruct (Hwrite "Accepted"
                (default "" (committee_links config
                             !! Py.strip (get record "Committee" "نامشخص"))))
      as (w1 & Hrun & Hrest).
    exists w1. split; [|exact Hrest].
    erewrite bind_raise; [reflexivity|]. erewrite bind_raise; [reflexivity|]. exact Hrun.
  - destruct (Hwrite "Rejected" "") as (w1 & Hrun & Hrest).
    exists w1. split; [|exact Hrest].
    erewrite bind_raise; [reflexivity|]. erewrite bind_raise; [reflexivity|]. exact Hrun.
Qed.

Lemma update_status_fault_state row status group_link w flt rest :
  gspread.faults (worksheet w) = flt :: rest → flt ≠ gspread.NoFault → 1 ≤ row →
  Manager.update_status_and_group_link row status group_link w
  = (Raise APIError,
     set_worksheet
       (gspread.Worksheet
          (match flt with
           | gspread.FailAfter =>
               gspread.apply_updates (status_updates row status group_link) (cells_of w)
           | _ => cells_of w
           end) rest (S (calls_of w))) w).
Proof.
  intros Hfaults Hflt Hrow. unfold Manager.update_status_and_group_link.
  fold (status_updates row status group_link).
  assert (forallb gspread.valid_update (status_updates row status group_link) = true)
    as Hvalid.
  { unfold status_updates. assert ((1 <=? row) = true) as Hle by (by apply Z.leb_le).
    destruct (Py.truthy group_link); cbn [forallb];
      unfold gspread.valid_update, cell_range; cbn [gspread.range gspread.a1_row];
      rewrite Hle; reflexivity. }
  unfold try_except, sheet, zoom, gspread.batch_update, gspread.next_fault, mbind, M_bind,
    modify, raise, cells_of, calls_of.
  rewrite Hfaults. cbn [hd tl gspread.faults gspread.cells gspread.api_calls].
  destruct flt; [done|reflexivity|]. rewrite Hvalid. reflexivity.
Qed.

Lemma apply_decision_lost_write config action row record w flt rest :
  gspread.faults (worksheet w) = flt :: rest → flt ≠ gspread.NoFault → 1 ≤ row →
  Manager.apply_decision config action row record w
  = (Raise APIError,
     set_worksheet
       (gspread.Worksheet
          (match flt with
           | gspread.FailAfter =>
               gspread.apply_updates
                 (status_updates row
                    (if bool_decide (action = "accept") then "Accepted" else "Rejected")
                    (if bool_decide (action = "accept")
                     then default "" (committee_links config
                                      !! Py.strip (get record "Committee" "نامشخص"))
                     else ""))
                 (cells_of w)
           | _ => cells_of w
           end) rest (S (calls_of w)))
       (set_processed_records ({[row]} ∪ processed_records w) w)).
Proof.
  intros Hfaults Hflt Hrow. unfold Manager.apply_decision. cbv zeta.
  unfold modify at 1. unfold mbind at 1, M_bind at 1. cbv beta iota.
  set (w0 := set_processed_records _ w).
  assert (gspread.faults (worksheet w0) = flt :: rest) as Hfaults0 by exact Hfaults.
  destruct (bool_decide (action = "accept")).
  - erewrite bind_raise; [reflexivity|]. erewrite bind_raise; [reflexivity|].
    exact (update_status_fault_state row _ _ w0 flt rest Hfaults0 Hflt Hrow).
  - erewrite bind_raise; [reflexivity|]. erewrite bind_raise; [reflexivity|].
    exact (update_status_fault_state row _ _ w0 flt rest Hfaults0 Hflt Hrow).
Qed.

Lemma released_row_next_decision config user user2 callback callback2 action action2
    row w flt :
  Manager.is_admin config user = true →
  parses callback action row →
  row ∉ processed_records w →
  1 ≤ row →
  nth (Z.to_nat (row - 1)) (cells_of w) [] ≠ [] →
  Manager.unresolved (status_read w row) = true →
  gspread.faults (worksheet w) = [gspread.NoFault; flt] → flt ≠ gspread.NoFault →
  tg_fault_free w →
  Manager.is_admin config user2 = true → parses callback2 action2 row →
  ∃ w2 w3,
    Manager.handle_decision config user callback w = (Ok (), w2)
    ∧ outbox_of w2 = outbox_of w ++ [Telegram.answer MsgDecisionError true]
    ∧ (row ∉ processed_records w2)
    ∧ Manager.handle_decision config user2 callback2 w2 = (Ok (), w3)
    ∧ (flt = gspread.FailBefore →
       cells_of w2 = cells_of w
       ∧ gspread.cell (cells_of w3) row (col "Status")
         = (if bool_decide (action2 = "accept") then "Accepted" else "Rejected")
       ∧ row ∈ processed_records w3)
    ∧ (flt = gspread.FailAfter →
       gspread.cell (cells_of w2) row (col "Status")
       = (if bool_decide (action = "accept") then "Accepted" else "Rejected")
       ∧ cells_of w3 = cells_of w2
       ∧ outbox_of w3
         = outbox_of w2
           ++ [Telegram.answer
                 (MsgStatusAlready
                    (if bool_decide (action = "accept") then "Accepted" else "Rejected"))
                 true]
       ∧ (row ∉ processed_records w3)).
Proof.
  intros Hadmin Hparse Hfresh Hrow Hvals Hunres Hfaults Hflt Htg Hadmin2 Hparse2.
  set (status := if bool_decide (action = "accept") then "Accepted" else "Rejected").
  assert (status = "Accepted" ∨ status = "Rejected") as Hstatus.
  { unfold status. destruct (bool_decide _); [by left|by right]. }
  assert (hd gspread.NoFault (gspread.faults (worksheet w)) = gspread.NoFault) as Hread
    by (by rewrite Hfaults).
  pose proof (apply_decision_lost_write config action row (manager_record_at w row)
                (after_call w) flt []) as Hraise.
  specialize (Hraise ltac:(cbn; by rewrite Hfaults) Hflt Hrow).
  change (cells_of (after_call w)) with (cells_of w) in Hraise.
  change (calls_of (after_call w)) with (S (calls_of w)) in Hraise.
  change (processed_records (after_call w)) with (processed_records w) in Hraise.
  fold status in Hraise.
  set (link := if bool_decide (action = "accept")
               then default "" (committee_links config
                                !! Py.strip (get (manager_record_at w row) "Committee"
                                               "نامشخص"))
               else "") in Hraise.
  set (g1 := match flt with
             | gspread.FailAfter =>
                 gspread.apply_updates (status_updates row status link) (cells_of w)
             | _ => cells_of w
             end) in Hraise.
  set (w1 := set_worksheet (gspread.Worksheet g1 [] (S (S (calls_of w))))
               (set_processed_records ({[row]} ∪ processed_records w) (after_call w)))
    in Hraise.
  set (w2 := set_processed_records (processed_records w1 ∖ {[row]})
               (sent (Telegram.answer MsgDecisionError true) w1)).
  assert (Manager.handle_decision config user callback w = (Ok (), w2)) as Hfirst.
  { rewrite (handle_decision_parsed _ _ _ _ _ _ Hadmin Hparse).
    unfold try_except. rewrite decide_row_read by assumption. rewrite Hunres, Hraise.
    rewrite on_error_run.
    replace (hd false (Telegram.tg_faults (telegram w1))) with false; [reflexivity|].
    symmetry. by apply tg_fault_free_hd. }
  assert (row ∉ processed_records w2) as Hfree.
  { intros [_ Hn]%elem_of_difference. apply Hn. by apply elem_of_singleton. }
  assert (calm w2) as [Hff2 Htg2].
  { split; [reflexivity|]. unfold tg_fault_free in *. cbn. by rewrite Htg. }
  assert (cells_of w2 = g1) as Hcells2 by reflexivity.
  pose proof (handle_decision_parsed config user2 callback2 action2 row w2
                Hadmin2 Hparse2) as Hsecond.
  destruct flt; [done| |].
  - (* the write did not reach the sheet *)
    assert (status_read w2 row = status_read w row) as Hsame by reflexivity.
    destruct (apply_decision_run config action2 row (manager_record_at w2 row)
                (after_call w2))
      as (w3 & notification & Hrun & Hproc & Hcells & _).
    { split; [by apply fault_free_after_call|exact Htg2]. }
    { exact Hrow. }
    exists w2, w3. split_and!.
    + exact Hfirst.
    + reflexivity.
    + exact Hfree.
    + rewrite Hsecond. erewrite try_ok; [reflexivity|].
      rewrite decide_row_read; [|exact Hfree|by apply fault_free_hd|exact Hrow|exact Hvals].
      by rewrite Hsame, Hunres.
    + intros _. split_and!; [reflexivity| |].
      * rewrite Hcells. by apply status_cell_after_update.
      * rewrite Hproc. apply elem_of_union. left. by apply elem_of_singleton.
    + done.
  - (* the write reached the sheet, the reply was lost *)
    assert (gspread.cell (cells_of w2) row (col "Status") = status) as Hcell.
    { rewrite Hcells2. by apply status_cell_after_update. }
    assert (status_read w2 row = status) as Hstat.
    { rewrite status_read_cell, Hcell. destruct Hstatus as [-> | ->]; vm_compute; reflexivity. }
    assert (nth (Z.to_nat (row - 1)) (cells_of w2) [] ≠ []) as Hvals2.
    { intros Hnil. unfold gspread.cell in Hcell. rewrite Hnil in Hcell.
      assert (nth (Z.to_nat (col "Status" - 1)) ([] : list string) "" = "")
        as Hempty by (by destruct (Z.to_nat (col "Status" - 1))).
      rewrite Hempty in Hcell.
      destruct Hstatus as [Hs | Hs]; rewrite Hs in Hcell; discriminate. }
    eexists w2, _. split_and!.
    + exact Hfirst.
    + reflexivity.
    + exact Hfree.
    + rewrite Hsecond. erewrite try_ok; [reflexivity|].
      rewrite decide_row_read; [|exact Hfree|by apply fault_free_hd|exact Hrow|exact Hvals2].
      rewrite Hstat.
      replace (Manager.unresolved status) with false
        by (destruct Hstatus as [-> | ->]; vm_compute; reflexivity).
      apply answer_ok. apply tg_fault_free_hd. exact Htg2.
    + done.
    + intros _. split_and!; [exact Hcell|reflexivity|reflexivity|exact Hfree].
Qed.

Lemma tg_send_fault c w :
  hd false (Telegram.tg_faults (telegram w)) = true →
  tg c w
  = (Raise TelegramError,
     set_telegram
       (Telegram.Channel (Telegram.outbox (telegram w))
          (tl (Telegram.tg_faults (telegram w))) (Telegram.blocked (telegram w))) w).
Proof.
  intros Hf. unfold tg, zoom, Telegram.send. rewrite Hf. done.
Qed.

(** The write of the status went through and the edit of the caption after it
    failed: the row is released with the final status in the sheet, and the
    next decision is refused. *)
Lemma released_after_caption_fault config user user2 callback callback2 action action2
    row w :
  Manager.is_admin config user = true →
  parses callback action row →
  row ∉ processed_records w →
  1 ≤ row →
  nth (Z.to_nat (row - 1)) (cells_of w) [] ≠ [] →
  Manager.unresolved (status_read w row) = true →
  fault_free w →
  Manager._is_user_logged_in (manager_record_at w row) = false →
  Telegram.tg_faults (telegram w) = [true] →
  Manager.is_admin config user2 = true → parses callback2 action2 row →
  ∃ w2 w3,
    Manager.handle_decision config user callback w = (Ok (), w2)
    ∧ outbox_of w2 = outbox_of w ++ [Telegram.answer MsgDecisionError true]
    ∧ (row ∉ processed_records w2)
    ∧ gspread.cell (cells_of w2) row (col "Status")
      = (if bool_decide (action = "accept") then "Accepted" else "Rejected")
    ∧ Manager.handle_decision config user2 callback2 w2 = (Ok (), w3)
    ∧ cells_of w3 = cells_of w2
    ∧ outbox_of w3
      = outbox_of w2
        ++ [Telegram.answer
              (MsgStatusAlready
                 (if bool_decide (action = "accept") then "Accepted" else "Rejected"))
              true]
    ∧ (row ∉ processed_records w3).
Proof.
  intros Hadmin Hparse Hfresh Hrow Hvals Hunres Hff Hout Htg Hadmin2 Hparse2.
  set (status := if bool_decide (action = "accept") then "Accepted" else "Rejected").
  assert (status = "Accepted" ∨ status = "Rejected") as Hstatus.
  { unfold status. destruct (bool_decide _); [by left|by right]. }
  set (link := if bool_decide (action = "accept")
               then default "" (committee_links config
                                !! Py.strip (get (manager_record_at w row) "Committee"
                                               "نامشخص"))
               else "").
  set (w0 := set_processed_records ({[row]} ∪ processed_records w) (after_call w)).
  set (wr := set_worksheet
               (gspread.Worksheet
                  (gspread.apply_updates (status_updates row status link) (cells_of w))
                  [] (S (S (calls_of w)))) w0).
  set (w1 := set_telegram
               (Telegram.Channel (Telegram.outbox (telegram w)) []
                  (Telegram.blocked (telegram w))) wr).
  assert (Manager.apply_decision config action row (manager_record_at w row) (after_call w)
          = (Raise TelegramError, w1)) as Hraise.
  { unfold Manager.apply_decision. cbv zeta.
    unfold modify at 1. unfold mbind at 1, M_bind at 1. cbv beta iota. fold w0.
    assert (fault_free w0) as Hff0 by (by apply fault_free_after_call).
    assert (hd false (Telegram.tg_faults (telegram wr)) = true) as Hhd.
    { cbn. by rewrite Htg. }
    rewrite Hout. unfold status, link, w1. unfold wr in *.
    destruct (bool_decide (action = "accept")).
    - erewrite bind_ok by (erewrite bind_ok by (by apply update_status_ok); reflexivity).
      erewrite bind_raise; [reflexivity|].
      rewrite tg_send_fault by exact Hhd. f_equal. unfold set_telegram. cbn.
      by rewrite Htg.
    - erewrite bind_ok by (erewrite bind_ok by (by apply update_status_ok); reflexivity).
      erewrite bind_raise; [reflexivity|].
      rewrite tg_send_fault by exact Hhd. f_equal. unfold set_telegram. cbn.
      by rewrite Htg. }
  set (w2 := set_processed_records (processed_records w1 ∖ {[row]})
               (sent (Telegram.answer MsgDecisionError true) w1)).
  assert (Manager.handle_decision config user callback w = (Ok (), w2)) as Hfirst.
  { rewrite (handle_decision_parsed _ _ _ _ _ _ Hadmin Hparse).
    unfold try_except. rewrite decide_row_read; [|done|by apply fault_free_hd|done|done].
    rewrite Hunres, Hraise. by rewrite on_error_run. }
  assert (row ∉ processed_records w2) as Hfree.
  { intros [_ Hn]%elem_of_difference. apply Hn. by apply elem_of_singleton. }
  assert (calm w2) as Hcalm2 by (split; reflexivity).
  assert (gspread.cell (cells_of w2) row (col "Status") = status) as Hcell.
  { change (cells_of w2)
      with (gspread.apply_updates (status_updates row status link) (cells_of w)).
    by apply status_cell_after_update. }
  assert (status_read w2 row = status) as Hstat.
  { rewrite status_read_cell, Hcell. destruct Hstatus as [-> | ->]; vm_compute; reflexivity. }
  assert (nth (Z.to_nat (row - 1)) (cells_of w2) [] ≠ []) as Hvals2.
  { intros Hnil. unfold gspread.cell in Hcell. rewrite Hnil in Hcell.
    assert (nth (Z.to_nat (col "Status" - 1)) ([] : list string) "" = "")
      as Hempty by (by destruct (Z.to_nat (col "Status" - 1))).
    rewrite Hempty in Hcell.
    destruct Hstatus as [Hs | Hs]; rewrite Hs in Hcell; discriminate. }
  pose proof (decision_by_status config user2 callback2 action2 row w2
                Hadmin2 Hparse2 Hfree Hcalm2 Hrow Hvals2) as Hsecond.
  rewrite Hstat in Hsecond.
  replace (Manager.unresolved status) with false in Hsecond
    by (destruct Hstatus as [-> | ->]; vm_compute; reflexivity).
  eexists w2, _. split_and!; [exact Hfirst| |exact Hfree|exact Hcell|exact Hsecond
                             |reflexivity|reflexivity|exact Hfree].
  unfold outbox_of. reflexivity.
Qed.

(** C2, as amended.  A decision on a row that is not yet claimed, read
    without a fault and still open.  If the steps after the claim of the row
    raise, the row is in the set of processed rows at that moment; the
    handler then answers the reviewer with the generic error and removes the
    row from the set, so that the set no longer stands in the way of another
    decision on the row in this process: the next decision goes by the status
    it reads, carried out when the sheet still shows the row open and refused
    with "status is already ..." when it does not.  The row stays in the set
    only when sending the generic answer fails too, the error then leaving
    the handler.  A failing write of the status is such an exception: when it
    failed before it reached the sheet the next decision is carried out, and
    when it failed after the sheet was updated (the reply lost) the sheet
    holds the final status and the next decision is refused.  So it is when
    the write went through and the edit of the caption after it failed. *)
Theorem error_after_claim_releases_row (config : Config) (user : Z)
    (callback action : string) (row : Z) (w : World) :
  Manager.is_admin config user = true →
  parses callback action row →
  row ∉ processed_records w →
  hd gspread.NoFault (gspread.faults (worksheet w)) = gspread.NoFault →
  1 ≤ row →
  nth (Z.to_nat (row - 1)) (cells_of w) [] ≠ [] →
  Manager.unresolved (status_read w row) = true →
  (∀ e w1,
     Manager.apply_decision config action row (manager_record_at w row) (after_call w)
     = (Raise e, w1) →
     row ∈ processed_records w1
     ∧ (hd false (Telegram.tg_faults (telegram w1)) = false →
        ∃ w2,
          Manager.handle_decision config user callback w = (Ok (), w2)
          ∧ outbox_of w2 = outbox_of w1 ++ [Telegram.answer MsgDecisionError true]
          ∧ (row ∉ processed_records w2)
          ∧ processed_records w2 = processed_records w
          ∧ worksheet w2 = worksheet w1
          ∧ ∀ user2 callback2 action2,
              Manager.is_admin config user2 = true →
              parses callback2 action2 row →
              calm w2 →
              nth (Z.to_nat (row - 1)) (cells_of w2) [] ≠ [] →
              if Manager.unresolved (status_read w2 row)
              then ∃ w3,
                     Manager.handle_decision config user2 callback2 w2 = (Ok (), w3)
                     ∧ gspread.cell (cells_of w3) row (col "Status")
                       = (if bool_decide (action2 = "accept")
                          then "Accepted" else "Rejected")
                     ∧ row ∈ processed_records w3
              else Manager.handle_decision config user2 callback2 w2
                   = (Ok (), sent (Telegram.answer
                                     (MsgStatusAlready (status_read w2 row)) true)
                               (after_call w2)))
     ∧ (hd false (Telegram.tg_faults (telegram w1)) = true →
        ∃ w2,
          Manager.handle_decision config user callback w = (Raise TelegramError, w2)
          ∧ outbox_of w2 = outbox_of w1
          ∧ row ∈ processed_records w2))
  ∧ (failing (after_call w) →
     ∃ w1,
       Manager.apply_decision config action row (manager_record_at w row) (after_call w)
       = (Raise APIError, w1)
       ∧ calls_of w1 = S (S (calls_of w))
       ∧ outbox_of w1 = outbox_of w
       ∧ Telegram.tg_faults (telegram w1) = Telegram.tg_faults (telegram w))
  ∧ (∀ flt user2 callback2 action2,
       gspread.faults (worksheet w) = [gspread.NoFault; flt] → flt ≠ gspread.NoFault →
       tg_fault_free w →
       Manager.is_admin config user2 = true → parses callback2 action2 row →
       ∃ w2 w3,
         Manager.handle_decision config user callback w = (Ok (), w2)
         ∧ outbox_of w2 = outbox_of w ++ [Telegram.answer MsgDecisionError true]
         ∧ (row ∉ processed_records w2)
         ∧ Manager.handle_decision config user2 callback2 w2 = (Ok (), w3)
         ∧ (flt = gspread.FailBefore →
            cells_of w2 = cells_of w
            ∧ gspread.cell (cells_of w3) row (col "Status")
              = (if bool_decide (action2 = "accept") then "Accepted" else "Rejected")
            ∧ row ∈ processed_records w3)
         ∧ (flt = gspread.FailAfter →
            gspread.cell (cells_of w2) row (col "Status")
            = (if bool_decide (action = "accept") then "Accepted" else "Rejected")
            ∧ cells_of w3 = cells_of w2
            ∧ outbox_of w3
              = outbox_of w2
                ++ [Telegram.answer
                      (MsgStatusAlready
                         (if bool_decide (action = "accept")
                          then "Accepted" else "Rejected")) true]
            ∧ (row ∉ processed_records w3)))
  ∧ (∀ user2 callback2 action2,
       fault_free w →
       Manager._is_user_logged_in (manager_record_at w row) = false →
       Telegram.tg_faults (telegram w) = [true] →
       Manager.is_admin config user2 = true → parses callback2 action2 row →
       ∃ w2 w3,
         Manager.handle_decision config user callback w = (Ok (), w2)
         ∧ outbox_of w2 = outbox_of w ++ [Telegram.answer MsgDecisionError true]
         ∧ (row ∉ processed_records w2)
         ∧ gspread.cell (cells_of w2) row (col "Status")
           = (if bool_decide (action = "accept") then "Accepted" else "Rejected")
         ∧ Manager.handle_decision config user2 callback2 w2 = (Ok (), w3)
         ∧ cells_of w3 = cells_of w2
         ∧ outbox_of w3
           = outbox_of w2
             ++ [Telegram.answer
                   (MsgStatusAlready
                      (if bool_decide (action = "accept")
                       then "Accepted" else "Rejected")) true]
         ∧ (row ∉ processed_records w3)).
Proof.
  intros Hadmin Hparse Hfresh Hread Hrow Hvals Hunres.
  assert (Manager.handle_decision config user callback w
          = try_except
              (Manager.apply_decision config action row (manager_record_at w row))
              (λ _, Manager.on_error (Some row)) (after_call w)) as Hrun.
  { rewrite (handle_decision_parsed _ _ _ _ _ _ Hadmin Hparse).
    unfold try_except. rewrite decide_row_read by assumption. by rewrite Hunres. }
  split_and!.
  - intros e w1 Hraise.
    pose proof (apply_decision_claims config action row (manager_record_at w row)
                  (after_call w)) as Hclaim.
    rewrite Hraise in Hclaim. cbn [snd] in Hclaim.
    change (processed_records (after_call w)) with (processed_records w) in Hclaim.
    assert (row ∈ processed_records w1) as Hin.
    { rewrite Hclaim. apply elem_of_union. left. by apply elem_of_singleton. }
    rewrite Hrun, (try_raise _ _ _ _ _ Hraise), on_error_run.
    split; [exact Hin|]. split; intros Hanswer; rewrite Hanswer.
    + set (w2 := set_processed_records (processed_records w1 ∖ {[row]})
                   (sent (Telegram.answer MsgDecisionError true) w1)).
      assert (row ∉ processed_records w2) as Hfree.
      { intros [_ Hn]%elem_of_difference. apply Hn. by apply elem_of_singleton. }
      exists w2. split; [reflexivity|]. split; [reflexivity|]. split; [exact Hfree|].
      split; [|split; [reflexivity|]].
      * change (processed_records w2) with (processed_records w1 ∖ {[row]}).
        rewrite Hclaim. revert Hfresh. generalize (processed_records w). intros p Hfresh.
        apply set_eq. intros x.
        rewrite elem_of_difference, elem_of_union, !elem_of_singleton.
        split; [by intros [[?|?] ?]|]. intros Hx. split; [by right|]. by intros ->.
      * intros user2 callback2 action2 Hadmin2 Hparse2 Hcalm2 Hvals2.
        by apply decision_by_status.
    + eexists. split; [reflexivity|]. split; [reflexivity|exact Hin].
  - intros Hf.
    destruct (apply_decision_write_fault config action row (manager_record_at w row)
                (after_call w) Hf) as (w1 & Hraise & Hcalls & Hout & Htg & _).
    exists w1. split; [exact Hraise|]. split; [exact Hcalls|]. split; [exact Hout|exact Htg].
  - intros flt user2 callback2 action2 Hfaults Hflt Htg Hadmin2 Hparse2.
    by apply (released_row_next_decision config user user2 callback callback2
                action action2 row w flt).
  - intros user2 callback2 action2 Hff Hout Htg Hadmin2 Hparse2.
    by apply (released_after_caption_fault config user user2 callback callback2
                action action2 row w).
Qed.

Lemma error_after_claim_releases_row_witness :
  (∃ w2,
     Manager.handle_decision demo_config 1 "accept_2"
       (with_faults [gspread.NoFault; gspread.FailBefore] (world_at 0 demo_cells))
     = (Ok (), w2)
     ∧ outbox_of w2 = [Telegram.answer MsgDecisionError true]
     ∧ (2 ∉ processed_records w2)
     ∧ calls_of w2 = 2%nat)
  ∧ (∃ w2 w3,
       Manager.handle_decision demo_config 1 "accept_2"
         (with_faults [gspread.NoFault; gspread.FailAfter] (world_at 0 demo_cells))
       = (Ok (), w2)
       ∧ (2 ∉ processed_records w2)
       ∧ gspread.cell (cells_of w2) 2 (col "Status") = "Accepted"
       ∧ Manager.handle_decision demo_config 2 "reject_2" w2 = (Ok (), w3)
       ∧ outbox_of w3
         = [Telegram.answer MsgDecisionError true;
            Telegram.answer (MsgStatusAlready "Accepted") true]
       ∧ cells_of w3 = cells_of w2)
  ∧ (∃ w2 w3,
       Manager.handle_decision demo_config 1 "accept_2"
         (with_tg_faults [true] (world_at 0 demo_cells))
       = (Ok (), w2)
       ∧ (2 ∉ processed_records w2)
       ∧ gspread.cell (cells_of w2) 2 (col "Status") = "Accepted"
       ∧ Manager.handle_decision demo_config 2 "reject_2" w2 = (Ok (), w3)
       ∧ cells_of w3 = cells_of w2).
Proof.
  split_and!.
  - destruct (error_after_claim_releases_row demo_config 1 "accept_2" "accept" 2
                (with_faults [gspread.NoFault; gspread.FailBefore] (world_at 0 demo_cells)))
      as (Hreleased & Hwrite & _).
    + vm_compute. reflexivity.
    + exists "2", []. split; vm_compute; reflexivity.
    + change (2 ∉ (∅ : gset Z)). apply not_elem_of_empty.
    + reflexivity.
    + lia.
    + vm_compute. discriminate.
    + vm_compute. reflexivity.
    + destruct Hwrite as (w1 & Hraise & Hcalls & Hout & Htg); [vm_compute; discriminate|].
      destruct (Hreleased APIError w1 Hraise) as (_ & Hanswered & _).
      destruct Hanswered as (w2 & Hrun & Hout2 & Hfree & _ & Hws & _); [by rewrite Htg|].
      exists w2. split; [exact Hrun|]. split; [by rewrite Hout2, Hout|].
      split; [exact Hfree|]. unfold calls_of. rewrite Hws. exact Hcalls.
  - destruct (error_after_claim_releases_row demo_config 1 "accept_2" "accept" 2
                (with_faults [gspread.NoFault; gspread.FailAfter] (world_at 0 demo_cells)))
      as (_ & _ & Hnext & _).
    + vm_compute. reflexivity.
    + exists "2", []. split; vm_compute; reflexivity.
    + change (2 ∉ (∅ : gset Z)). apply not_elem_of_empty.
    + reflexivity.
    + lia.
    + vm_compute. discriminate.
    + vm_compute. reflexivity.
    + destruct (Hnext gspread.FailAfter 2 "reject_2" "reject")
        as (w2 & w3 & Hrun & Hout2 & Hfree & Hrun3 & _ & Hlost).
      * reflexivity.
      * discriminate.
      * reflexivity.
      * vm_compute. reflexivity.
      * exists "2", []. split; vm_compute; reflexivity.
      * destruct (Hlost eq_refl) as (Hcell & Hsame & Hout3 & _).
        exists w2, w3. split_and!; [exact Hrun|exact Hfree|exact Hcell|exact Hrun3
                                   | |exact Hsame].
        rewrite Hout3, Hout2. reflexivity.
  - destruct (error_after_claim_releases_row demo_config 1 "accept_2" "accept" 2
                (with_tg_faults [true] (world_at 0 demo_cells)))
      as (_ & _ & _ & Hcaption).
    + vm_compute. reflexivity.
    + exists "2", []. split; vm_compute; reflexivity.
    + change (2 ∉ (∅ : gset Z)). apply not_elem_of_empty.
    + reflexivity.
    + lia.
    + vm_compute. discriminate.
    + vm_compute. reflexivity.
    + destruct (Hcaption 2 "reject_2" "reject")
        as (w2 & w3 & Hrun & _ & Hfree & Hcell & Hrun3 & Hsame & _).
      * reflexivity.
      * vm_compute. reflexivity.
      * reflexivity.
      * vm_compute. reflexivity.
      * exists "2", []. split; vm_compute; reflexivity.
      * by exists w2, w3.
Defined.

(** C2 as stated fails: the write of the status fails after reviewer 1
    accepted row 2; the reviewer is answered with the generic error, the row
    is no longer in the set of processed rows, and the same reviewer's next
    decision on the row in the same process is carried out. *)
Lemma failed_decision_frees_row :
  (Manager.handle_decision demo_config 1 "accept_2"
     (with_faults [gspread.NoFault; gspread.FailBefore] (world_at 0 demo_cells))).1
  = Ok ()
  ∧ outbox_of
      (Manager.handle_decision demo_config 1 "accept_2"
         (with_faults [gspread.NoFault; gspread.FailBefore] (world_at 0 demo_cells))).2
    = [Telegram.answer MsgDecisionError true]
  ∧ bool_decide
      (2 ∈ processed_records
             (Manager.handle_decision demo_config 1 "accept_2"
                (with_faults [gspread.NoFault; gspread.FailBefore]
                   (world_at 0 demo_cells))).2)
    = false
  ∧ gspread.cell
      (cells_of
         (Manager.handle_decision demo_config 1 "accept_2"
            (with_faults [gspread.NoFault; gspread.FailBefore] (world_at 0 demo_cells))).2)
      2 (col "Status") = ""
  ∧ gspread.cell
      (cells_of
         (Manager.handle_decision demo_config 1 "reject_2"
            (Manager.handle_decision demo_config 1 "accept_2"
               (with_faults [gspread.NoFault; gspread.FailBefore]
                  (world_at 0 demo_cells))).2).2)
      2 (col "Status") = "Rejected".
Proof. vm_compute. repeat split. Qed.

(** * Further properties *)

(** ** Escaping of the applicant's text ([_escape_text]) *)

Lemma replace_app old new a b :
  ManagerBot.replace old new (a +:+ b)
  = ManagerBot.replace old new a +:+ ManagerBot.replace old new b.
Proof.
  induction a as [|c a IH]; [reflexivity|].
  change (String c a +:+ b) with (String c (a +:+ b)).
  cbn [ManagerBot.replace]. rewrite IH.
  destruct (Ascii.eqb c old); [|reflexivity].
  generalize (ManagerBot.replace old new a) (ManagerBot.replace old new b).
  clear. intros x y. induction new as [|d new IH]; [reflexivity|].
  change (String d new +:+ ?z) with (String d (new +:+ z)). by rewrite IH.
Qed.

Lemma escape_entities text : ManagerBot._escape_text text = entities text.
Proof.
  unfold ManagerBot._escape_text. destruct text as [|c0 text0]; [reflexivity|].
  cbn [Py.truthy String.eqb negb]. generalize (String c0 text0). clear. intros s.
  induction s as [|c s IH]; [reflexivity|].
  cbn [ManagerBot.replace entities]. unfold entity.
  destruct (Ascii.eqb_spec c "&") as [->|Hamp].
  - rewrite !replace_app, IH. reflexivity.
  - cbn [ManagerBot.replace]. destruct (Ascii.eqb_spec c "<") as [->|Hlt].
    + rewrite !replace_app, IH. reflexivity.
    + cbn [ManagerBot.replace]. destruct (Ascii.eqb_spec c ">") as [->|Hgt].
      * rewrite IH. reflexivity.
      * rewrite IH. reflexivity.
Qed.

Lemma all_chars_app P a b : all_chars P (a +:+ b) = all_chars P a && all_chars P b.
Proof.
  induction a as [|c a IH]; [reflexivity|].
  change (String c a +:+ b) with (String c (a +:+ b)).
  cbn [all_chars]. by rewrite IH, andb_assoc.
Qed.

Lemma entity_cases c :
  (c = "&"%char ∧ entity c = "&amp;") ∨ (c = "<"%char ∧ entity c = "&lt;")
  ∨ (c = ">"%char ∧ entity c = "&gt;")
  ∨ (plain c = true ∧ entity c = String c "").
Proof.
  unfold entity, plain.
  destruct (Ascii.eqb_spec c "&") as [->|?]; [by left|].
  destruct (Ascii.eqb_spec c "<") as [->|?]; [by right; left|].
  destruct (Ascii.eqb_spec c ">") as [->|?]; [by right; right; left|].
  by right; right; right.
Qed.

Lemma entities_inj s t : entities s = entities t → s = t.
Proof.
  revert t. induction s as [|a s IH]; intros [|b t]; cbn [entities].
  - done.
  - destruct (entity_cases b) as [[_ ->]|[[_ ->]|[[_ ->]|[_ ->]]]]; discriminate.
  - destruct (entity_cases a) as [[_ ->]|[[_ ->]|[[_ ->]|[_ ->]]]]; discriminate.
  - destruct (entity_cases a) as [[-> ->]|[[-> ->]|[[-> ->]|[Ha ->]]]];
      destruct (entity_cases b) as [[-> ->]|[[-> ->]|[[-> ->]|[Hb ->]]]];
      cbn [String.append]; intros Heq; try discriminate;
      try (injection Heq as Heq; f_equal; by apply IH);
      try (injection Heq as <- _; discriminate);
      try (injection Heq as -> _; discriminate).
    injection Heq as -> Heq. f_equal. by apply IH.
Qed.

(** X1.  [_escape_text] leaves no [<] and no [>] in a text, keeps a text
    without [&], [<] and [>] as it is, and sends different texts to different
    texts. *)
Theorem escape_text_markup_free (text : string) :
  all_chars (λ c, negb (Ascii.eqb c "<") && negb (Ascii.eqb c ">"))
            (ManagerBot._escape_text text) = true
  ∧ (all_chars plain text = true → ManagerBot._escape_text text = text)
  ∧ (∀ other, ManagerBot._escape_text text = ManagerBot._escape_text other →
              text = other).
Proof.
  split_and!.
  - rewrite escape_entities. induction text as [|c text IH]; [reflexivity|].
    cbn [entities]. rewrite all_chars_app, IH, andb_true_r.
    destruct (entity_cases c) as [[_ ->]|[[_ ->]|[[_ ->]|[Hc ->]]]]; try reflexivity.
    cbn. rewrite andb_true_r. unfold plain in Hc.
    apply andb_true_iff in Hc as [Hc Hgt]. apply andb_true_iff in Hc as [_ Hlt].
    by rewrite Hlt, Hgt.
  - rewrite escape_entities. induction text as [|c text IH]; [reflexivity|].
    cbn [all_chars entities]. intros [Hc Hrest]%andb_true_iff.
    rewrite IH by done.
    destruct (entity_cases c) as [[-> _]|[[-> _]|[[-> _]|[_ ->]]]]; try discriminate.
    reflexivity.
  - intros other. rewrite !escape_entities. apply entities_inj.
Qed.

Example escape_text_ex :
  ManagerBot._escape_text "<b>Tom & Jerry</b>" = "&lt;b&gt;Tom &amp; Jerry&lt;/b&gt;".
Proof. reflexivity. Qed.

(** ** The callback data of a prompt, from the sweep to the decision *)

Lemma rev_app_rev_app s a b :
  String.rev_app (String.rev_app s a) b = String.rev_app a (s +:+ b).
Proof.
  revert a b. induction s as [|c s IH]; intros a b; [reflexivity|].
  cbn [String.rev_app]. rewrite IH. reflexivity.
Qed.

Lemma string_app_nil_r (s : string) : s +:+ "" = s.
Proof.
  induction s as [|c s IH]; [reflexivity|].
  change (String c s +:+ "") with (String c (s +:+ "")). by rewrite IH.
Qed.

Lemma string_app_assoc (a b c : string) : (a +:+ b) +:+ c = a +:+ (b +:+ c).
Proof.
  induction a as [|x a IH]; [reflexivity|].
  change (String x a +:+ b) with (String x (a +:+ b)).
  change (String x (a +:+ b) +:+ c) with (String x ((a +:+ b) +:+ c)).
  by rewrite IH.
Qed.

Lemma lstrip_rev_app p s acc :
  all_chars (λ c, negb (p c)) s = true →
  Py.lstrip_with p acc = acc →
  Py.lstrip_with p (String.rev_app s acc) = String.rev_app s acc.
Proof.
  revert acc. induction s as [|c s IH]; intros acc Hs Hacc; [exact Hacc|].
  cbn [all_chars] in Hs. apply andb_true_iff in Hs as [Hc Hs].
  cbn [String.rev_app]. apply IH; [exact Hs|].
  cbn [Py.lstrip_with]. apply negb_true_iff in Hc. by rewrite Hc.
Qed.

(** A text without whitespace is its own [strip()]. *)
Lemma strip_no_space s :
  all_chars (λ c, negb (Py.isspace c)) s = true → Py.strip s = s.
Proof.
  intros Hs. unfold Py.strip, Py.rstrip_with.
  assert (Py.lstrip_with Py.isspace s = s) as ->.
  { destruct s as [|c s]; [reflexivity|]. cbn [all_chars] in Hs.
    apply andb_true_iff in Hs as [Hc _]. apply negb_true_iff in Hc.
    cbn [Py.lstrip_with]. by rewrite Hc. }
  unfold String.rev. rewrite lstrip_rev_app by done.
  rewrite rev_app_rev_app. cbn [String.rev_app]. apply string_app_nil_r.
Qed.

Lemma split_no_sep sep s :
  all_chars (λ c, negb (Ascii.eqb c sep)) s = true → Py.split sep s = [s].
Proof.
  induction s as [|c s IH]; [reflexivity|]. cbn [all_chars Py.split].
  intros [Hc Hs]%andb_true_iff. apply negb_true_iff in Hc. by rewrite Hc, IH.
Qed.

Lemma digits_app acc a b :
  Py.digits acc (a +:+ b) = Py.digits acc a ≫= λ v, Py.digits v b.
Proof.
  revert acc. induction a as [|c a IH]; intros acc; [reflexivity|].
  change (String c a +:+ b) with (String c (a +:+ b)). cbn [Py.digits].
  destruct (Py.digit c); [apply IH|reflexivity].
Qed.

Lemma digit_pretty_N_char (y : N) :
  (y < 10)%N → Py.digit (pretty_N_char y) = Some (Z.of_N y).
Proof.
  intros Hy.
  assert (y = 0 ∨ y = 1 ∨ y = 2 ∨ y = 3 ∨ y = 4 ∨ y = 5 ∨ y = 6 ∨ y = 7 ∨ y = 8 ∨ y = 9)%N
    as Hcases by lia.
  repeat (destruct Hcases as [->|Hcases]; [reflexivity|]). by subst.
Qed.

(** The digits [pretty_N_go] puts before its accumulator: they are decimal
    digits, and read back they give the number. *)
Lemma pretty_N_go_digits (x : N) :
  ∃ p, (∀ s, pretty_N_go x s = p +:+ s)
       ∧ all_chars is_digit p = true
       ∧ ((0 < x)%N → p ≠ "")
       ∧ ∀ acc, Py.digits acc p
                = Some (acc * 10 ^ Z.of_nat (String.length p) + Z.of_N x).
Proof.
  induction (N.lt_wf_0 x) as [x _ IH].
  destruct (decide (x = 0)%N) as [->|Hx].
  { exists "". split_and!; [done|done|lia|]. intros acc. cbn. f_equal. lia. }
  destruct (IH (x `div` 10)%N) as (p & Hgo & Hdig & _ & Hval).
  { apply N.div_lt; lia. }
  assert (x `mod` 10 < 10)%N as Hmod by (apply N.mod_lt; lia).
  exists (p +:+ String (pretty_N_char (x `mod` 10)) "").
  split_and!.
  - intros s. rewrite pretty_N_go_step by lia. rewrite Hgo, string_app_assoc. reflexivity.
  - rewrite all_chars_app, Hdig. cbn [all_chars]. rewrite andb_true_r.
    unfold is_digit. apply bool_decide_eq_true. rewrite digit_pretty_N_char by done.
    by eexists.
  - intros _. by destruct p.
  - intros acc. rewrite digits_app, Hval. cbn [mbind option_bind Py.digits].
    rewrite digit_pretty_N_char by done. f_equal.
    assert (String.length (p +:+ String (pretty_N_char (x `mod` 10)) "")
            = S (String.length p)) as ->.
    { clear. induction p as [|c p IH]; [reflexivity|].
      change (String c p +:+ ?z) with (String c (p +:+ z)). cbn [String.length].
      by rewrite IH. }
    rewrite Nat2Z.inj_succ, Z.pow_succ_r by lia.
    pose proof (N.div_mod x 10 ltac:(lia)) as Hdm. lia.
Qed.

Lemma digit_not_space c : is_digit c = true → Py.isspace c = false.
Proof.
  unfold is_digit, Py.digit. intros [d Hd]%bool_decide_eq_true.
  destruct c as [[] [] [] [] [] [] [] []]; try discriminate; reflexivity.
Qed.

Lemma digit_not_sep c : is_digit c = true → Ascii.eqb c "_" = false.
Proof.
  unfold is_digit, Py.digit. intros [d Hd]%bool_decide_eq_true.
  destruct c as [[] [] [] [] [] [] [] []]; try discriminate; reflexivity.
Qed.

Lemma all_chars_impl (P Q : ascii → bool) s :
  (∀ c, P c = true → Q c = true) → all_chars P s = true → all_chars Q s = true.
Proof.
  intros HPQ. induction s as [|c s IH]; [done|]. cbn [all_chars].
  intros [Hc Hs]%andb_true_iff. by rewrite (HPQ c Hc), IH.
Qed.

(** [int] of a non-empty text of digits reads the digits. *)
Lemma int_digits p :
  p ≠ "" → all_chars is_digit p = true → Py.int p = Py.digits 0 p.
Proof.
  intros Hne Hdig. unfold Py.int. rewrite strip_no_space; last first.
  { eapply all_chars_impl; [|exact Hdig]. intros c Hc.
    by rewrite (digit_not_space c Hc). }
  destruct p as [|c p]; [done|]. cbn [all_chars] in Hdig.
  apply andb_true_iff in Hdig as [Hc _].
  unfold is_digit, Py.digit in Hc. apply bool_decide_eq_true in Hc as [d Hd].
  destruct c as [[] [] [] [] [] [] [] []]; try discriminate; reflexivity.
Qed.

Lemma int_str (n : Z) : Py.int (Py.str n) = Some n.
Proof.
  unfold Py.str, pretty, pretty_Z. destruct n as [|x|x].
  - reflexivity.
  - unfold pretty, pretty_positive, pretty, pretty_N. rewrite decide_False by done.
    destruct (pretty_N_go_digits (N.pos x)) as (p & Hgo & Hdig & Hne & Hval).
    rewrite Hgo, string_app_nil_r. rewrite int_digits; [|apply Hne; lia|done].
    rewrite Hval. f_equal; lia.
  - unfold pretty, pretty_positive, pretty, pretty_N. rewrite decide_False by done.
    destruct (pretty_N_go_digits (N.pos x)) as (p & Hgo & Hdig & Hne & Hval).
    rewrite Hgo, string_app_nil_r.
    assert (p ≠ "") as Hp by (apply Hne; lia).
    unfold Py.int. rewrite strip_no_space; last first.
    { change ("-" +:+ p) with (String "-" p). cbn [all_chars].
      apply andb_true_iff. split; [reflexivity|].
      eapply all_chars_impl; [|exact Hdig]. intros c Hc.
      by rewrite (digit_not_space c Hc). }
    change ("-" +:+ p) with (String "-" p).
    destruct p as [|c p]; [done|]. rewrite Hval. cbn [fmap option_fmap option_map].
    f_equal; lia.
Qed.

Lemma str_chars (n : Z) :
  Py.str n ≠ "" ∧ all_chars (λ c, is_digit c || Ascii.eqb c "-") (Py.str n) = true.
Proof.
  assert (∀ x, pretty (N.pos x) ≠ ""
               ∧ all_chars (λ c, is_digit c || Ascii.eqb c "-") (pretty (N.pos x)) = true)
    as Hpos.
  { intros x. unfold pretty, pretty_N. rewrite decide_False by done.
    destruct (pretty_N_go_digits (N.pos x)) as (p & Hgo & Hdig & Hne & _).
    rewrite Hgo, string_app_nil_r. split; [apply Hne; lia|].
    eapply all_chars_impl; [|exact Hdig]. by intros c ->. }
  unfold Py.str, pretty, pretty_Z. destruct n as [|x|x]; [done|apply Hpos|].
  change ("-" +:+ pretty x) with (String "-" (pretty (N.pos x))).
  split; [done|]. cbn [all_chars]. by destruct (Hpos x) as [_ ->].
Qed.

Lemma str_no_sep (n : Z) :
  all_chars (λ c, negb (Ascii.eqb c "_")) (Py.str n) = true.
Proof.
  eapply all_chars_impl; [|apply str_chars]. intros c [Hc|Hc]%orb_true_iff.
  - by rewrite (digit_not_sep c Hc).
  - apply Ascii.eqb_eq in Hc as ->. reflexivity.
Qed.

Lemma str_strip (n : Z) : Py.strip (Py.str n) = Py.str n.
Proof.
  apply strip_no_space. eapply all_chars_impl; [|apply str_chars].
  intros c [Hc|Hc]%orb_true_iff.
  - by rewrite (digit_not_space c Hc).
  - apply Ascii.eqb_eq in Hc as ->. reflexivity.
Qed.

(** X2.  The callback data of the two buttons of a prompt are read back by
    [handle_decision] as the action of the button and the row of the prompt,
    so that a reviewer's press of a button runs the decision on that row. *)
Theorem callback_round_trip (row : Z) :
  Py.split "_" (ManagerBot.accept_callback row) = ["accept"; Py.str row]
  ∧ Py.split "_" (ManagerBot.reject_callback row) = ["reject"; Py.str row]
  ∧ Py.int (Py.str row) = Some row
  ∧ ∀ config user w,
      Manager.is_admin config user = true →
      Manager.handle_decision config user (ManagerBot.accept_callback row) w
      = try_except (Manager.decide_row config "accept" row)
                   (λ _, Manager.on_error (Some row)) w
      ∧ Manager.handle_decision config user (ManagerBot.reject_callback row) w
        = try_except (Manager.decide_row config "reject" row)
                     (λ _, Manager.on_error (Some row)) w.
Proof.
  assert (Py.split "_" (ManagerBot.accept_callback row) = ["accept"; Py.str row]) as Ha.
  { unfold ManagerBot.accept_callback.
    change ("accept_" +:+ Py.str row)
      with (String "a" (String "c" (String "c" (String "e" (String "p" (String "t"
             (String "_" (Py.str row)))))))).
    cbn [Py.split Ascii.eqb Bool.eqb]. by rewrite split_no_sep by apply str_no_sep. }
  assert (Py.split "_" (ManagerBot.reject_callback row) = ["reject"; Py.str row]) as Hr.
  { unfold ManagerBot.reject_callback.
    change ("reject_" +:+ Py.str row)
      with (String "r" (String "e" (String "j" (String "e" (String "c" (String "t"
             (String "_" (Py.str row)))))))).
    cbn [Py.split Ascii.eqb Bool.eqb]. by rewrite split_no_sep by apply str_no_sep. }
  split_and!; [exact Ha|exact Hr|apply int_str|].
  intros config user w Hadmin. split.
  - apply handle_decision_parsed; [exact Hadmin|].
    exists (Py.str row), []. split; [exact Ha|apply int_str].
  - apply handle_decision_parsed; [exact Hadmin|].
    exists (Py.str row), []. split; [exact Hr|apply int_str].
Qed.

(** ** The figures of the report ([stats_command]) *)

Lemma status_counts_fold rows (init : gmap string Z) s :
  default 0
    (foldl (λ counts row,
              <[Stats.status row := default 0 (counts !! Stats.status row) + 1]> counts)
           init rows !! s)
  = default 0 (init !! s) + rows_with (λ t, t = s) rows.
Proof.
  unfold rows_with. revert init. induction rows as [|row rows IH]; intros init.
  - cbn [foldl]. rewrite filter_nil. cbn [length]. lia.
  - cbn [foldl]. rewrite IH. destruct (decide (Stats.status row = s)) as [Heq|Hne].
    + rewrite filter_cons_True by done. rewrite Heq, lookup_insert_eq.
      cbn [from_option length]. unfold id. lia.
    + rewrite filter_cons_False by done. rewrite lookup_insert_ne by done. lia.
Qed.

Lemma rows_with_split (P : string → Prop) `{∀ s, Decision (P s)} rows :
  rows_with P rows + rows_with (λ s, ¬ P s) rows = Z.of_nat (length rows).
Proof.
  unfold rows_with. induction rows as [|row rows IH]; [reflexivity|].
  destruct (decide (P (Stats.status row))).
  - rewrite filter_cons_True, filter_cons_False by tauto. cbn [length]. lia.
  - rewrite filter_cons_False, filter_cons_True by tauto. cbn [length]. lia.
Qed.

Lemma rows_with_or (P Q : string → Prop) `{∀ s, Decision (P s)} `{∀ s, Decision (Q s)}
    rows :
  (∀ s, P s → Q s → False) →
  rows_with (λ s, P s ∨ Q s) rows = rows_with P rows + rows_with Q rows.
Proof.
  intros Hdisj. unfold rows_with. induction rows as [|row rows IH]; [reflexivity|].
  destruct (decide (P (Stats.status row))) as [HP|HP];
    destruct (decide (Q (Stats.status row))) as [HQ|HQ].
  - by destruct (Hdisj _ HP HQ).
  - rewrite !filter_cons_True, filter_cons_False by tauto. cbn [length]. lia.
  - rewrite filter_cons_True, filter_cons_False, filter_cons_True by tauto.
    cbn [length]. lia.
  - rewrite !filter_cons_False by tauto. lia.
Qed.

(** X3.  The figures of the report.  Each of "accepted" and "rejected" is the
    number of data rows whose status, stripped, is exactly that word
    capitalised; "pending" is the number of data rows whose stripped status
    is "Pending" or empty; "total" is the number of rows below the header.
    The three figures and the number of rows with any other status add up to
    the total: a row whose status is written in another way is in the total
    and in none of the three. *)
Theorem stats_figures (header : list string) (rows : list (list string)) :
  let report := Stats.count (header :: rows) in
  Stats.total report = Z.of_nat (length rows)
  ∧ Stats.accepted report = rows_with (λ s, s = "Accepted") rows
  ∧ Stats.rejected report = rows_with (λ s, s = "Rejected") rows
  ∧ Stats.pending report = rows_with (λ s, s = "Pending" ∨ s = "") rows
  ∧ Stats.accepted report + Stats.rejected report + Stats.pending report
    + rows_with (λ s, ¬ (s = "Accepted" ∨ s = "Rejected" ∨ s = "Pending" ∨ s = "")) rows
    = Stats.total report.
Proof.
  cbv zeta. unfold Stats.count. cbn [Stats.total Stats.accepted Stats.rejected
                                     Stats.pending].
  change (drop 1 (header :: rows)) with rows.
  unfold Stats.status_counts.
  set (init := ({["Accepted" := 0; "Rejected" := 0; "Pending" := 0; "" := 0]}
                : gmap string Z)).
  rewrite !status_counts_fold.
  assert (default 0 (init !! "Accepted") = 0) as -> by (vm_compute; reflexivity).
  assert (default 0 (init !! "Rejected") = 0) as -> by (vm_compute; reflexivity).
  assert (default 0 (init !! "Pending") = 0) as -> by (vm_compute; reflexivity).
  assert (default 0 (init !! "") = 0) as -> by (vm_compute; reflexivity).
  clearbody init.
  assert (Z.of_nat (length (header :: rows)) - 1 = Z.of_nat (length rows)) as ->
    by (cbn [length]; lia).
  assert (rows_with (λ s, s = "Pending" ∨ s = "") rows
          = rows_with (λ s, s = "Pending") rows + rows_with (λ s, s = "") rows) as Hp.
  { apply rows_with_or. by intros s -> ?. }
  split_and!; [reflexivity|reflexivity|reflexivity|by rewrite Hp|].
  rewrite <- (rows_with_split
                (λ s, s = "Accepted" ∨ s = "Rejected" ∨ s = "Pending" ∨ s = "") rows).
  rewrite (rows_with_or (λ s, s = "Accepted")
             (λ s, s = "Rejected" ∨ s = "Pending" ∨ s = "")) by (intros s -> [?|[?|?]]; done).
  rewrite (rows_with_or (λ s, s = "Rejected") (λ s, s = "Pending" ∨ s = ""))
    by (intros s -> [?|?]; done).
  rewrite Hp. lia.
Qed.

Example stats_ex :
  Stats.count demo_cells = Stats.Report 2 0 0 2
  ∧ Stats.count [] = Stats.Report (-1) 0 0 0
  ∧ Stats.count [ HEADERS.*1; demo_row "Ann" "Tech" "ann" "" "abc" "pending" "";
                  demo_row "Bob" "Art" "bob" "" "pw" " Accepted " "" ]
    = Stats.Report 2 1 0 0.
Proof. vm_compute. done. Qed.

(** ** What the decision handler leaves alone *)

Lemma writes_within_preserves {A} P (m : M World A) :
  preserves (λ w, gspread.cells (worksheet w)) m → writes_within P m.
Proof. intros Hp w r c _ _ _. unfold cells_of. by rewrite (Hp w). Qed.

Lemma writes_within_bind {A B} P (m : M World A) (k : A → M World B) :
  writes_within P m → (∀ a, writes_within P (k a)) → writes_within P (m ≫= k).
Proof.
  intros Hm Hk w r c Hr Hc HP. specialize (Hm w r c Hr Hc HP).
  unfold mbind, M_bind. destruct (m w) as [[a|e] w1]; [|exact Hm].
  cbn [snd] in Hm. rewrite <- Hm. by apply Hk.
Qed.

Lemma writes_within_try {A} P (m : M World A) h :
  writes_within P m → (∀ e, writes_within P (h e)) → writes_within P (try_except m h).
Proof.
  intros Hm Hh w r c Hr Hc HP. specialize (Hm w r c Hr Hc HP).
  unfold try_except. destruct (m w) as [[a|e] w1]; [exact Hm|].
  cbn [snd] in Hm. rewrite <- Hm. by apply Hh.
Qed.

(** Whatever the fault, a batch of updates leaves the cells as they were or
    carries out all of them. *)
Lemma batch_update_cells us w :
  cells_of (sheet (gspread.batch_update us) w).2 = cells_of w
  ∨ (forallb gspread.valid_update us = true
     ∧ cells_of (sheet (gspread.batch_update us) w).2
       = gspread.apply_updates us (cells_of w)).
Proof.
  unfold sheet, zoom, gspread.batch_update, gspread.next_fault, mbind, M_bind.
  cbn [fst snd]. destruct (hd gspread.NoFault (gspread.faults (worksheet w)));
    destruct (forallb gspread.valid_update us); cbn; auto.
Qed.

Lemma update_status_writes row status group_link :
  writes_within (decision_cell row)
    (Manager.update_status_and_group_link row status group_link).
Proof.
  intros w r c Hr Hc HP. unfold Manager.update_status_and_group_link. cbv zeta.
  fold (status_updates row status group_link).
  assert (cells_of (try_except
                      (sheet (gspread.batch_update (status_updates row status group_link)))
                      (λ e, raise e) w).2
          = cells_of (sheet (gspread.batch_update
                               (status_updates row status group_link)) w).2) as ->.
  { unfold try_except. by destruct (sheet _ w) as [[[]|e] w1]. }
  destruct (batch_update_cells (status_updates row status group_link) w)
    as [->|[Hvalid ->]]; [reflexivity|].
  assert (1 ≤ row) as Hrow.
  { unfold status_updates in Hvalid. cbn [forallb] in Hvalid.
    apply andb_true_iff in Hvalid as [Hv _]. unfold gspread.valid_update in Hv.
    apply andb_true_iff in Hv as [Hv _]. by apply Z.leb_le in Hv. }
  rewrite apply_status_updates.
  assert (1 ≤ col "Group_Link") as Hgl by (vm_compute; discriminate).
  assert ((r, c) ≠ (row, col "Status")) as Hs.
  { intros [= -> ->]. apply HP. split; [done|by left]. }
  assert ((r, c) ≠ (row, col "Group_Link")) as Hg.
  { intros [= -> ->]. apply HP. split; [done|by right]. }
  destruct (Py.truthy group_link).
  - rewrite (cell_set_cell_other _ row (col "Group_Link") _ r c Hrow Hgl Hr Hc Hg).
    exact (cell_set_cell_other _ row (col "Status") _ r c Hrow col_Status_pos Hr Hc Hs).
  - exact (cell_set_cell_other _ row (col "Status") _ r c Hrow col_Status_pos Hr Hc Hs).
Qed.

Lemma apply_decision_writes config action row record :
  writes_within (decision_cell row) (Manager.apply_decision config action row record).
Proof.
  unfold Manager.apply_decision. cbv zeta.
  pose proof (update_status_writes row) as Hu.
  assert (∀ tid m, writes_within (decision_cell row)
                     (Manager.send_notification_to_user tid m)) as Hn.
  { intros tid m. apply writes_within_preserves.
    unfold Manager.send_notification_to_user. frame. }
  assert (∀ c, writes_within (decision_cell row) (tg c)) as Htg.
  { intros c. apply writes_within_preserves. frame. }
  apply writes_within_bind; [apply writes_within_preserves; frame|intros _].
  apply writes_within_bind; [|intros n].
  - destruct (bool_decide (action = "accept")).
    + apply writes_within_bind; [apply Hu|intros _].
      destruct (Manager._is_user_logged_in record);
        [|apply writes_within_preserves; frame].
      intros w r c Hr Hc HP. unfold fmap, M_fmap.
      specialize (Hn (Py.strip (get record "Telegram_ID" ""))
                     (MsgAccepted (fields record !! "Name")
                        (Some (Py.strip (get record "Committee" "نامشخص")))
                        (default "" (committee_links config
                                     !! Py.strip (get record "Committee" "نامشخص")))
                        (team_link config)) w r c Hr Hc HP).
      by destruct (Manager.send_notification_to_user _ _ w) as [[b|e] w1].
    + apply writes_within_bind; [apply Hu|intros _].
      destruct (Manager._is_user_logged_in record);
        [|apply writes_within_preserves; frame].
      intros w r c Hr Hc HP. unfold fmap, M_fmap.
      specialize (Hn (Py.strip (get record "Telegram_ID" ""))
                     (MsgRejected (fields record !! "Name")
                        (Some (Py.strip (get record "Committee" "نامشخص"))))
                     w r c Hr Hc HP).
      by destruct (Manager.send_notification_to_user _ _ w) as [[b|e] w1].
  - apply writes_within_bind; [apply Htg|intros _; apply Htg].
Qed.

(** [get_record_by_row] of the manager, whatever the fault: one call, no
    exception, and the empty dict or the record of the row. *)
Lemma manager_get_record_cases row w :
  ∃ d, Manager.get_record_by_row row w = (Ok d, after_call w)
       ∧ (d = empty_dict ∨ d = manager_record_at w row).
Proof.
  destruct (hd gspread.NoFault (gspread.faults (worksheet w))) eqn:Hok.
  - destruct (decide (1 ≤ row)) as [Hrow|Hrow].
    + rewrite manager_get_record_ok by done.
      eexists. split; [reflexivity|].
      destruct (nth (Z.to_nat (row - 1)) (cells_of w) []); [by left|by right].
    + exists empty_dict. split; [|by left].
      unfold Manager.get_record_by_row, gspread.row_values.
      erewrite try_raise; [reflexivity|]. erewrite bind_raise; [reflexivity|].
      unfold sheet, zoom, gspread.read, gspread.next_fault, mbind, M_bind.
      cbn [fst snd]. rewrite Hok.
      assert ((1 <=? row) = false) as -> by (apply Z.leb_gt; lia). reflexivity.
  - exists empty_dict. split; [|by left]. apply manager_get_record_fault.
    unfold failing. by rewrite Hok.
  - exists empty_dict. split; [|by left]. apply manager_get_record_fault.
    unfold failing. by rewrite Hok.
Qed.

(** A decision on a row either changes neither a cell nor the set of
    processed rows, or it is the decision proper on a row that was free, had
    a value and an open status. *)
Lemma decide_row_effect config action row w :
  (cells_of (Manager.decide_row config action row w).2 = cells_of w
   ∧ processed_records (Manager.decide_row config action row w).2 = processed_records w)
  ∨ ((row ∉ processed_records w)
     ∧ Manager.unresolved (status_read w row) = true
     ∧ Manager.decide_row config action row w
       = Manager.apply_decision config action row (manager_record_at w row)
           (after_call w)).
Proof.
  assert (∀ m w0, cells_of (tg (Telegram.answer m true) w0).2 = cells_of w0
                  ∧ processed_records (tg (Telegram.answer m true) w0).2
                    = processed_records w0) as Htg.
  { intros m w0. unfold tg, zoom. by destruct (Telegram.send _ _) as [[[]|e] ch]. }
  destruct (decide (row ∈ processed_records w)) as [Hin|Hnin].
  { left. rewrite decide_row_claimed by done. apply Htg. }
  destruct (manager_get_record_cases row w) as (d & Hget & Hd).
  assert (Manager.decide_row config action row w
          = (if negb (dict_truthy d) then tg (Telegram.answer MsgRecordNotFound true)
             else if negb (Manager.unresolved (Py.strip (get d "Status" "")))
                  then tg (Telegram.answer
                             (MsgStatusAlready (Py.strip (get d "Status" ""))) true)
                  else Manager.apply_decision config action row d) (after_call w))
    as Heq.
  { unfold Manager.decide_row. unfold mbind at 1, M_bind at 1, gets.
    rewrite bool_decide_eq_false_2 by done.
    erewrite bind_ok by exact Hget. reflexivity. }
  rewrite Heq. clear Heq.
  destruct Hd as [->| ->].
  { left. assert (dict_truthy empty_dict = false) as -> by (vm_compute; reflexivity).
    cbn [negb]. apply (Htg _ (after_call w)). }
  rewrite manager_record_truthy. cbn [negb]. fold (status_read w row).
  destruct (Manager.unresolved (status_read w row)) eqn:Hun; cbn [negb].
  - right. done.
  - left. apply (Htg _ (after_call w)).
Qed.

Lemma on_error_effect row w :
  cells_of (Manager.on_error row w).2 = cells_of w
  ∧ ∀ r, Some r ≠ row →
         (r ∈ processed_records (Manager.on_error row w).2 ↔ r ∈ processed_records w).
Proof.
  unfold Manager.on_error, mbind, M_bind, tg, zoom.
  destruct (Telegram.send _ _) as [[[]|e] ch]; [|done].
  destruct row as [row|]; [|done]. cbn. split; [done|]. intros r Hne.
  rewrite elem_of_difference, elem_of_singleton. split; [by intros [? _]|].
  intros Hr. split; [done|]. by intros ->.
Qed.

(** [handle_decision] either changes neither a cell nor the set of
    processed rows, or it is the decision on the row of the callback data,
    pressed by a reviewer, followed by the handler of an exception of it. *)
Lemma handle_decision_effect config user callback w :
  (cells_of (Manager.handle_decision config user callback w).2 = cells_of w
   ∧ processed_records (Manager.handle_decision config user callback w).2
     = processed_records w)
  ∨ ∃ action row,
      Manager.is_admin config user = true
      ∧ callback_row callback = Some row
      ∧ Manager.handle_decision config user callback w
        = try_except (Manager.decide_row config action row)
                     (λ _, Manager.on_error (Some row)) w.
Proof.
  assert (∀ c w0, cells_of (tg c w0).2 = cells_of w0
                  ∧ processed_records (tg c w0).2 = processed_records w0) as Htg.
  { intros c w0. unfold tg, zoom. by destruct (Telegram.send _ _) as [[[]|e] ch]. }
  assert (∀ w0, cells_of (Manager.on_error None w0).2 = cells_of w0
                ∧ processed_records (Manager.on_error None w0).2
                  = processed_records w0) as Hnone.
  { intros w0. unfold Manager.on_error, mbind, M_bind, tg, zoom.
    by destruct (Telegram.send _ _) as [[[]|e] ch]. }
  assert (∀ c w0,
            cells_of (try_except (tg c) (λ _, Manager.on_error None) w0).2 = cells_of w0
            ∧ processed_records (try_except (tg c) (λ _, Manager.on_error None) w0).2
              = processed_records w0) as Hinvalid.
  { intros c w0. unfold try_except. destruct (Htg c w0) as [H1 H2].
    destruct (tg c w0) as [[[]|e] w1]; cbn [snd] in *; [done|].
    destruct (Hnone w1) as [H3 H4]. by rewrite H3, H4, H1, H2. }
  unfold Manager.handle_decision, callback_row.
  destruct (Manager.is_admin config user) eqn:Hadmin; cbn [negb]; [|left; apply Htg].
  destruct (Py.split "_" callback) as [|action [|row_text rest]];
    [left; apply Hinvalid|left; apply Hinvalid|].
  destruct (Py.int row_text) as [row|]; [|left; apply Hnone].
  right. by exists action, row.
Qed.

Lemma try_on_error_effect config action row w :
  cells_of (try_except (Manager.decide_row config action row)
                       (λ _, Manager.on_error (Some row)) w).2
  = cells_of (Manager.decide_row config action row w).2
  ∧ ∀ r, r ≠ row →
         (r ∈ processed_records
                (try_except (Manager.decide_row config action row)
                            (λ _, Manager.on_error (Some row)) w).2
          ↔ r ∈ processed_records (Manager.decide_row config action row w).2).
Proof.
  unfold try_except. destruct (Manager.decide_row config action row w) as [[[]|e] w1];
    [done|]. cbn [snd]. destruct (on_error_effect (Some row) w1) as [Hcells Hproc].
  split; [exact Hcells|]. intros r Hne. apply Hproc. congruence.
Qed.

(** X4.  Whoever presses whatever button in whatever state of the sheet, of
    Telegram and of the bot: [handle_decision] changes a cell only when the
    user is a reviewer, the cell is the Status or the Group_Link cell of the
    row named in the callback data, that row was not in the set of processed
    rows, and the status read from the row was empty or Pending. *)
Theorem decision_footprint (config : Config) (user : Z) (callback : string)
    (w : World) (r c : Z) :
  1 ≤ r → 1 ≤ c →
  gspread.cell (cells_of (Manager.handle_decision config user callback w).2) r c
  ≠ gspread.cell (cells_of w) r c →
  Manager.is_admin config user = true
  ∧ callback_row callback = Some r
  ∧ (c = col "Status" ∨ c = col "Group_Link")
  ∧ (r ∉ processed_records w)
  ∧ Manager.unresolved (status_read w r) = true.
Proof.
  intros Hr Hc Hdiff.
  destruct (handle_decision_effect config user callback w)
    as [[Hsame _]|(action & row & Hadmin & Hrow & Heq)].
  { by rewrite Hsame in Hdiff. }
  rewrite Heq in Hdiff.
  destruct (try_on_error_effect config action row w) as [Hcells _].
  rewrite Hcells in Hdiff.
  destruct (decide_row_effect config action row w) as [[Hsame _]|(Hfree & Hopen & Hrun)].
  { by rewrite Hsame in Hdiff. }
  rewrite Hrun in Hdiff.
  destruct (decide (r = row ∧ (c = col "Status" ∨ c = col "Group_Link")))
    as [[-> Hcol]|Hout].
  { done. }
  destruct Hdiff.
  apply (apply_decision_writes config action row (manager_record_at w row)
           (after_call w) r c Hr Hc Hout).
Qed.

Lemma decision_footprint_witness :
  Manager.is_admin demo_config 1 = true
  ∧ callback_row "accept_2" = Some 2
  ∧ (col "Status" = col "Status" ∨ col "Status" = col "Group_Link")
  ∧ (2 ∉ processed_records (world_at 0 demo_cells))
  ∧ Manager.unresolved (status_read (world_at 0 demo_cells) 2) = true.
Proof.
  apply (decision_footprint demo_config 1 "accept_2" (world_at 0 demo_cells)
           2 (col "Status")).
  - lia.
  - exact col_Status_pos.
  - vm_compute. discriminate.
Defined.

(** X5.  Whoever presses whatever button in whatever state: [handle_decision]
    neither adds to the set of processed rows nor removes from it a row other
    than the one named in the callback data. *)
Theorem decision_claims_only_its_row (config : Config) (user : Z)
    (callback : string) (w : World) (r : Z) :
  callback_row callback ≠ Some r →
  r ∈ processed_records (Manager.handle_decision config user callback w).2
  ↔ r ∈ processed_records w.
Proof.
  intros Hother.
  destruct (handle_decision_effect config user callback w)
    as [[_ Hsame]|(action & row & Hadmin & Hrow & Heq)].
  { by rewrite Hsame. }
  assert (r ≠ row) as Hne by congruence.
  rewrite Heq.
  destruct (try_on_error_effect config action row w) as [_ Hproc].
  rewrite (Hproc r Hne).
  destruct (decide_row_effect config action row w) as [[_ Hsame]|(_ & _ & Hrun)].
  { by rewrite Hsame. }
  rewrite Hrun, apply_decision_claims.
  change (processed_records (after_call w)) with (processed_records w).
  rewrite elem_of_union, elem_of_singleton. split; [by intros [?|?]|by right].
Qed.

Lemma decision_claims_only_its_row_witness :
  3 ∈ processed_records
        (Manager.handle_decision demo_config 1 "accept_2" (world_at 0 demo_cells)).2
  ↔ 3 ∈ processed_records (world_at 0 demo_cells).
Proof.
  apply (decision_claims_only_its_row demo_config 1 "accept_2" (world_at 0 demo_cells) 3).
  vm_compute. discriminate.
Defined.

(** ** What the sweep leaves alone *)

Lemma marked_refl rows g : marked rows g g.
Proof. intros r c _ _. by left. Qed.

Lemma marked_trans rows g1 g2 g3 :
  marked rows g1 g2 → marked rows g2 g3 → marked rows g1 g3.
Proof.
  intros H12 H23 r c Hr Hc.
  destruct (H23 r c Hr Hc) as [Heq|Hm]; [|by right].
  rewrite Heq. apply (H12 r c Hr Hc).
Qed.

Lemma marked_mono rows rows' g g' : rows ⊆ rows' → marked rows g g' → marked rows' g g'.
Proof.
  intros Hsub Hm r c Hr Hc. destruct (Hm r c Hr Hc) as [Heq|(Hcol & Hin & Hp)];
    [by left|right]. split_and!; [done|by apply Hsub|done].
Qed.

Lemma send_to_admins_frame {X} (f : World → X) row photo admins acc :
  (∀ t w, f (set_telegram t w) = f w) →
  preserves f (Manager.send_to_admins row photo admins acc).
Proof.
  intros Hf. revert acc. induction admins as [|a admins IH]; intros acc;
    cbn [Manager.send_to_admins]; [frame|].
  apply preserves_bind; [|intros ok; apply IH].
  apply preserves_try; [|intros e; frame].
  apply preserves_bind; [|intros ?; frame]. by apply preserves_tg.
Qed.

Lemma send_request_frame {X} (f : World → X) config download_image record :
  (∀ t w, f (set_telegram t w) = f w) →
  preserves f (Manager.send_request_for_review config download_image record).
Proof.
  intros Hf. unfold Manager.send_request_for_review.
  destruct (row_number record) as [row|]; [|frame].
  destruct (decide (row = 0)); [frame|]. cbv zeta.
  by apply send_to_admins_frame.
Qed.

(** Whatever the fault, marking a row Pending leaves the cells as they were
    or writes "Pending" to the Status cell of that row. *)
Lemma update_status_pending_marks row w :
  marked [row] (cells_of w)
         (cells_of (Manager.update_status_and_group_link row "Pending" "" w).2).
Proof.
  unfold Manager.update_status_and_group_link. cbv zeta.
  fold (status_updates row "Pending" "").
  assert (cells_of (try_except
                      (sheet (gspread.batch_update (status_updates row "Pending" "")))
                      (λ e, raise e) w).2
          = cells_of (sheet (gspread.batch_update (status_updates row "Pending" "")) w).2)
    as ->.
  { unfold try_except. by destruct (sheet _ w) as [[[]|e] w1]. }
  destruct (batch_update_cells (status_updates row "Pending" "") w)
    as [->|[Hvalid ->]]; [apply marked_refl|].
  assert (1 ≤ row) as Hrow.
  { unfold status_updates in Hvalid. cbn [forallb] in Hvalid.
    apply andb_true_iff in Hvalid as [Hv _]. unfold gspread.valid_update in Hv.
    apply andb_true_iff in Hv as [Hv _]. by apply Z.leb_le in Hv. }
  rewrite apply_status_updates.
  assert (Py.truthy "" = false) as -> by reflexivity.
  intros r c Hr Hc.
  destruct (decide ((r, c) = (row, col "Status"))) as [[= -> ->]|Hne].
  - right. split_and!; [done|by left|]. by apply cell_set_cell.
  - left. by apply cell_set_cell_other; [|apply col_Status_pos|..].
Qed.

Lemma relates_bind {A B} R `{!Transitive R} (m : M World A) (k : A → M World B) :
  relates R m → (∀ a, relates R (k a)) → relates R (m ≫= k).
Proof.
  intros Hm Hk w. specialize (Hm w). unfold mbind, M_bind.
  destruct (m w) as [[a|e] w1]; [|exact Hm]. cbn [snd] in Hm.
  etrans; [exact Hm|apply Hk].
Qed.

Lemma relates_try {A} R `{!Transitive R} (m : M World A) h :
  relates R m → (∀ e, relates R (h e)) → relates R (try_except m h).
Proof.
  intros Hm Hh w. specialize (Hm w). unfold try_except.
  destruct (m w) as [[a|e] w1]; [exact Hm|]. cbn [snd] in Hm.
  etrans; [exact Hm|apply Hh].
Qed.

Lemma relates_mono {A} (R R' : World → World → Prop) (m : M World A) :
  (∀ w w', R w w' → R' w w') → relates R m → relates R' m.
Proof. intros Hsub Hm w. apply Hsub, Hm. Qed.

Global Instance swept_trans rows : Transitive (swept rows).
Proof.
  intros w1 w2 w3 [Hm12 Hp12] [Hm23 Hp23]. split; [|congruence].
  by eapply marked_trans.
Qed.

Lemma swept_frame {A} rows (m : M World A) :
  preserves (λ w, gspread.cells (worksheet w)) m → preserves processed_records m →
  relates (swept rows) m.
Proof.
  intros Hc Hp w. split; [|apply Hp]. unfold cells_of. rewrite (Hc w).
  apply marked_refl.
Qed.

Lemma swept_mono rows rows' w w' : rows ⊆ rows' → swept rows w w' → swept rows' w w'.
Proof. intros Hsub [Hm Hp]. split; [by eapply marked_mono|done]. Qed.

Lemma review_all_swept config download_image n records idx s f :
  relates (swept (rows_of records))
    (Manager.review_all config download_image n idx records s f).
Proof.
  revert idx s f. induction records as [|d records IH]; intros idx s f.
  { apply swept_frame; cbn [Manager.review_all]; frame. }
  cbn [Manager.review_all].
  assert (rows_of records ⊆ rows_of (d :: records)) as Hrest.
  { unfold rows_of. cbn [fmap list_fmap]. intros x Hx. by right. }
  apply relates_bind; [apply _|apply swept_frame; frame|intros _].
  apply relates_bind; [apply _| |intros sent].
  { apply swept_frame; by apply send_request_frame. }
  destruct sent.
  - apply relates_bind; [apply _| |intros _].
    + destruct (row_number d) as [r|] eqn:Hrow; [|apply swept_frame; frame].
      intros w. eapply (swept_mono [r]).
      * unfold rows_of. cbn [fmap list_fmap]. rewrite Hrow.
        intros x Hx. apply list_elem_of_singleton in Hx as ->. by left.
      * split; [apply update_status_pending_marks|apply update_status_processed].
    + eapply relates_mono; [|apply IH]. intros w w'. by apply swept_mono.
  - eapply relates_mono; [|apply IH]. intros w w'. by apply swept_mono.
Qed.

Lemma bind_related {A B} (R : World → World → Prop) `{!Transitive R}
    (m : M World A) (k : A → M World B) w :
  R w (m w).2 → (∀ a w1, m w = (Ok a, w1) → R w1 (k a w1).2) →
  R w ((m ≫= k) w).2.
Proof.
  intros Hm Hk. unfold mbind, M_bind. destruct (m w) as [[a|e] w1] eqn:Hrun;
    [|exact Hm]. cbn [snd] in Hm. etrans; [exact Hm|by apply Hk].
Qed.

Lemma get_pending_records_cases w :
  ∃ records, Manager.get_pending_records w = (Ok records, after_call w)
             ∧ (records = [] ∨ records = selected w).
Proof.
  destruct (hd gspread.NoFault (gspread.faults (worksheet w))) eqn:Hhd.
  - exists (selected w). split; [|by right].
    unfold Manager.get_pending_records, gspread.get_all_values.
    erewrite try_ok; [reflexivity|].
    erewrite bind_ok by (apply sheet_read_ok; [exact Hhd|reflexivity]).
    unfold selected. case_bool_decide as Hlen; [|reflexivity].
    destruct (cells_of w) as [|r0 [|r1 g]]; [reflexivity|reflexivity|].
    cbn [length] in Hlen. lia.
  - exists []. split; [|by left]. apply get_pending_records_fault.
    unfold failing. by rewrite Hhd.
  - exists []. split; [|by left]. apply get_pending_records_fault.
    unfold failing. by rewrite Hhd.
Qed.

(** X6.  Whoever asks for a sweep in whatever state of the sheet and of
    Telegram, and whatever fails meanwhile: [check_command] leaves the set of
    processed rows as it is, and it changes a cell only when the user is a
    reviewer and the cell is the Status cell of a row the sweep selected, a
    row below the header; the cell then holds "Pending". *)
Theorem sweep_footprint (config : Config) (download_image : string → bool)
    (user : Z) (w : World) :
  processed_records (Manager.check_command config download_image user w).2
  = processed_records w
  ∧ ∀ r c,
      1 ≤ r → 1 ≤ c →
      gspread.cell (cells_of (Manager.check_command config download_image user w).2) r c
      ≠ gspread.cell (cells_of w) r c →
      Manager.is_admin config user = true
      ∧ c = col "Status"
      ∧ r ∈ rows_of (selected w)
      ∧ 2 ≤ r
      ∧ gspread.cell (cells_of (Manager.check_command config download_image user w).2)
                     r c = "Pending".
Proof.
  assert (Manager.is_admin config user = true →
          swept (rows_of (selected w)) w
                (Manager.check_command config download_image user w).2) as Hadmin.
  { intros Hadmin. unfold Manager.check_command. rewrite Hadmin. cbn [negb].
    assert (relates (swept (rows_of (selected w)))
              (tg (Telegram.reply_text MsgFetching))) as Hfetch
      by (apply swept_frame; frame).
    apply (bind_related (swept (rows_of (selected w)))); [apply Hfetch|intros [] w1 Hrun1].
    assert (cells_of w1 = cells_of w) as Hc1.
    { assert (preserves (λ w, gspread.cells (worksheet w))
                (tg (Telegram.reply_text MsgFetching))) as Hc0 by frame.
      specialize (Hc0 w). by rewrite Hrun1 in Hc0. }
    assert (selected w1 = selected w) as Hsel by (unfold selected; by rewrite Hc1).
    destruct (get_pending_records_cases w1) as (records & Hget & Hrecords).
    apply (bind_related (swept (rows_of (selected w)))); [|intros records' w2 Hrun2].
    { rewrite Hget. split; [apply marked_refl|done]. }
    rewrite Hget in Hrun2. injection Hrun2 as <- <-.
    assert (relates (swept (rows_of records))
              (match records with
               | [] => tg (Telegram.edit_text MsgNothingPending)
               | _ :: _ =>
                   tg (Telegram.edit_text (MsgFound (length records)));;
                   counts ← Manager.review_all config download_image (length records)
                              1 records 0 0;
                   tg (Telegram.edit_text (MsgSweepDone counts.1 counts.2))
               end)) as Hrun.
    { destruct records as [|d records']; [apply swept_frame; frame|].
      apply relates_bind; [apply _|apply swept_frame; frame|intros _].
      apply relates_bind; [apply _|apply review_all_swept|intros counts].
      apply swept_frame; frame. }
    destruct Hrecords as [->| ->].
    - eapply swept_mono; [|apply (Hrun (after_call w1))]. intros x Hx.
      by apply elem_of_nil in Hx.
    - rewrite <- Hsel. apply (Hrun (after_call w1)). }
  destruct (Manager.is_admin config user) eqn:Hisadmin.
  - destruct (Hadmin eq_refl) as [Hm Hp]. split; [exact Hp|].
    intros r c Hr Hc Hdiff. destruct (Hm r c Hr Hc) as [Heq|(Hcol & Hin & Hval)];
      [done|]. split_and!; try done.
    destruct (rows_of_selected w) as [_ Hall].
    pose proof (pending_from_rows 2 (drop 1 (cells_of w))) as Hrows.
    fold (selected w) in Hrows. unfold rows_of in Hin.
    apply list_elem_of_fmap in Hin as (d & -> & Hd).
    rewrite Forall_forall in Hrows. destruct (Hrows d Hd) as (r' & -> & Hle & _).
    exact Hle.
  - unfold Manager.check_command. rewrite Hisadmin. cbn [negb].
    assert (preserves (λ w, gspread.cells (worksheet w))
              (tg (Telegram.reply_text MsgNotAuthorised))) as Hc0 by frame.
    assert (preserves processed_records (tg (Telegram.reply_text MsgNotAuthorised)))
      as Hp0 by frame.
    split; [apply Hp0|]. intros r c _ _ Hdiff. destruct Hdiff.
    unfold cells_of. by rewrite (Hc0 w).
Qed.

Example sweep_footprint_ex :
  gspread.cell
    (cells_of (Manager.check_command demo_config (λ _, false) 1
                 (with_faults [gspread.NoFault; gspread.FailAfter; gspread.FailBefore]
                    (world_at 0 demo_cells))).2) 2 (col "Status")
  = "Pending"
  ∧ (Manager.check_command demo_config (λ _, false) 1
       (with_faults [gspread.NoFault; gspread.FailAfter; gspread.FailBefore]
          (world_at 0 demo_cells))).1 = Raise APIError.
Proof. vm_compute. done. Qed.

(** ** What the applicant-facing bot writes *)

Global Instance wrote_trans P : Transitive (wrote P).
Proof.
  intros w1 w2 w3 H12 H23 r c Hr Hc.
  destruct (H23 r c Hr Hc) as [Heq|HP]; [|by right].
  rewrite Heq. apply (H12 r c Hr Hc).
Qed.

Lemma wrote_frame {A} P (m : M World A) :
  preserves (λ w, gspread.cells (worksheet w)) m → relates (wrote P) m.
Proof. intros Hp w r c _ _. left. unfold cells_of. by rewrite (Hp w). Qed.

Lemma relates_fmap {A B} R (g : A → B) (m : M World A) :
  relates R m → relates R (g <$> m).
Proof.
  intros Hm w. specialize (Hm w). unfold fmap, M_fmap.
  by destruct (m w) as [[a|e] w1].
Qed.

(** Whatever the fault and whatever the record: [update_user_fields] with
    one field leaves the cells as they were or writes the value to the cell
    of the record's row under the column of the field. *)
Lemma update_one_field_wrote config record h v tid :
  HEADERS_get h = Some (col h) → 1 ≤ col h →
  gspread.col_of_letter (_get_column_letter (col h)) = col h →
  relates (wrote (λ r c x, row_number record = Some r ∧ c = col h ∧ x = v))
          (Client.update_user_fields config record [(h, v)] tid).
Proof.
  intros Hh Hpos Hletter. unfold Client.update_user_fields.
  destruct (row_number record) as [row|]; [|apply wrote_frame; frame].
  assert (Client.field_updates row [(h, v)]
          = Some [gspread.Update (cell_range h row) v]) as ->.
  { unfold Client.field_updates. cbn [mapM fst snd]. rewrite Hh. reflexivity. }
  apply relates_try; [apply _| |intros e; apply wrote_frame; frame].
  apply relates_bind; [apply _| |intros _; apply wrote_frame; frame].
  intros w r c Hr Hc.
  destruct (batch_update_cells [gspread.Update (cell_range h row) v] w)
    as [->|[Hvalid ->]]; [by left|].
  assert (1 ≤ row) as Hrow.
  { cbn [forallb] in Hvalid. apply andb_true_iff in Hvalid as [Hv _].
    unfold gspread.valid_update in Hv. apply andb_true_iff in Hv as [Hv _].
    by apply Z.leb_le in Hv. }
  unfold gspread.apply_updates. cbn [foldl gspread.range gspread.value cell_range
                                     gspread.a1_row gspread.a1_col].
  rewrite Hletter.
  destruct (decide ((r, c) = (row, col h))) as [[= -> ->]|Hne].
  - right. split_and!; [done|done|]. by apply cell_set_cell.
  - left. by apply cell_set_cell_other.
Qed.

Lemma client_get_record_cells row :
  preserves (λ w, gspread.cells (worksheet w)) (Client.get_record_by_row row).
Proof. unfold Client.get_record_by_row, gspread.row_values. frame. Qed.

Lemma find_by_telegram_id_cells config tid :
  preserves (λ w, gspread.cells (worksheet w)) (Client.find_user_by_telegram_id config tid).
Proof.
  unfold Client.find_user_by_telegram_id, gspread.col_values.
  frame; apply client_get_record_cells.
Qed.

Lemma find_by_username_cells config username tid :
  preserves (λ w, gspread.cells (worksheet w))
            (Client.find_user_by_username config username tid).
Proof.
  unfold Client.find_user_by_username, gspread.col_values.
  frame; apply client_get_record_cells.
Qed.

Lemma lookup_wrote config tid username :
  relates (wrote (λ r c x, c = col "Telegram_ID" ∧ x = tid))
          (Client.lookup config tid username).
Proof.
  unfold Client.lookup.
  apply relates_bind; [apply _| |intros record].
  { apply wrote_frame, find_by_telegram_id_cells. }
  destruct (negb (truthy record) && Py.truthy username); [|apply wrote_frame; frame].
  apply relates_bind; [apply _| |intros found].
  { apply wrote_frame, find_by_username_cells. }
  destruct found as [r|]; [|apply wrote_frame; frame].
  destruct (dict_truthy r); [|apply wrote_frame; frame].
  apply relates_fmap.
  eapply relates_mono; [|apply (update_one_field_wrote config r "Telegram_ID" tid tid)];
    [|reflexivity|vm_compute; discriminate|reflexivity].
  intros w w' Hw r' c Hr Hc. destruct (Hw r' c Hr Hc) as [Heq|(_ & Hcol & Hx)];
    [by left|by right].
Qed.

(** X7.  Whoever sends [/start] under whatever username, in whatever state
    of the sheet, of Telegram and of the bot, and whatever fails meanwhile:
    [start_command] changes a cell only in the Telegram_ID column, and the
    cell then holds the Telegram id of the sender. *)
Theorem start_footprint (config : Config) (user_id : Z) (username : string)
    (w : World) (r c : Z) :
  1 ≤ r → 1 ≤ c →
  gspread.cell (cells_of (Client.start_command config user_id username w).2) r c
  ≠ gspread.cell (cells_of w) r c →
  c = col "Telegram_ID"
  ∧ gspread.cell (cells_of (Client.start_command config user_id username w).2) r c
    = Py.str user_id.
Proof.
  intros Hr Hc Hdiff.
  assert (relates (wrote (λ r c x, c = col "Telegram_ID" ∧ x = Py.str user_id))
            (Client.start_command config user_id username)) as Hrun.
  { unfold Client.start_command. cbv zeta.
    apply relates_bind; [apply _| |intros [[] until]].
    { apply wrote_frame. unfold Client._is_user_banned. frame. }
    { apply wrote_frame. frame. }
    apply relates_bind; [apply _|apply lookup_wrote|intros record].
    assert (relates (wrote (λ r c x, c = col "Telegram_ID" ∧ x = Py.str user_id))
              (Client._record_failed_attempt config (Py.str user_id);;
               tg (Telegram.reply_text MsgUserNotFound);;
               mret Client.END)) as Hfailed.
    { apply wrote_frame. unfold Client._record_failed_attempt. frame. }
    destruct record as [d|]; [|exact Hfailed].
    destruct (dict_truthy d); [|exact Hfailed].
    apply wrote_frame.
    apply preserves_bind; [frame|intros _].
    apply preserves_bind; [unfold Client.put_user_data; frame|intros _].
    destruct (Client._is_user_logged_in d); [|frame].
    apply preserves_bind; [unfold Client._check_logged_user_rate_limit; frame|].
    intros limited. destruct limited; [frame|apply show_status_cells]. }
  destruct (Hrun w r c Hr Hc) as [Heq|HP]; [done|exact HP].
Qed.

Lemma start_footprint_witness :
  col "Telegram_ID" = col "Telegram_ID"
  ∧ gspread.cell (cells_of (Client.start_command demo_config 55 "ann"
                              (world_at 0 demo_cells)).2) 2 (col "Telegram_ID")
    = Py.str 55.
Proof.
  apply (start_footprint demo_config 55 "ann" (world_at 0 demo_cells) 2
           (col "Telegram_ID")).
  - lia.
  - vm_compute. discriminate.
  - vm_compute. discriminate.
Defined.

Lemma gets_bind {A B} (f : World → A) (k : A → M World B) w :
  (gets f ≫= k) w = k (f w) w.
Proof. reflexivity. Qed.

(** X8.  Whatever text is sent as the password by whomever, in whatever
    state, and whatever fails meanwhile: [handle_password] changes a cell only
    when the hash of the text is the hash of the password of the record the
    conversation holds for that user; the cell is the Logged_In cell of the
    row of that record and then holds "Yes".  The status display changes no
    cell at all. *)
Theorem password_footprint (config : Config) (user_id : Z) (text : string)
    (w : World) (r c : Z) :
  1 ≤ r → 1 ≤ c →
  (gspread.cell (cells_of (Client.handle_password config user_id text w).2) r c
   ≠ gspread.cell (cells_of w) r c →
   c = col "Logged_In"
   ∧ gspread.cell (cells_of (Client.handle_password config user_id text w).2) r c = "Yes"
   ∧ ∃ ud record,
       user_data w !! user_id = Some ud
       ∧ user_record ud = Some record
       ∧ row_number record = Some r
       ∧ Client.hash_password (Py.strip text)
         = Client.hash_password (Py.strip (get record "Password" "")))
  ∧ ∀ record,
      gspread.cell (cells_of (Client.show_status config user_id record w).2) r c
      = gspread.cell (cells_of w) r c.
Proof.
  intros Hr Hc. split; last first.
  { intros record. unfold cells_of. by rewrite (show_status_cells config user_id record w). }
  unfold Client.handle_password, Client.the_user_data. cbv zeta.
  rewrite gets_bind. intros Hdiff.
  assert (∀ m : M World Client.conversation,
            preserves (λ w, gspread.cells (worksheet w)) m →
            gspread.cell (cells_of (m w).2) r c = gspread.cell (cells_of w) r c)
    as Hsame.
  { intros m Hm. unfold cells_of. by rewrite (Hm w). }
  destruct (user_data w !! user_id) as [ud|] eqn:Hud; cbn [default from_option] in *;
    unfold id in *; cbn [user_record ud_telegram_id] in *;
    [|destruct Hdiff; apply Hsame; frame].
  destruct (user_record ud) as [record|] eqn:Hrec;
    [|destruct Hdiff; apply Hsame; frame].
  destruct (dict_truthy record); cbn [negb] in *;
    [|destruct Hdiff; apply Hsame; frame].
  destruct (decide (Client.hash_password (Py.strip (get record "Password" ""))
                    ≠ Client.hash_password (Py.strip text))) as [Hne|Heq];
    [destruct Hdiff; apply Hsame; frame|].
  clear Hsame.
  assert (relates (wrote (λ r c x, row_number record = Some r ∧ c = col "Logged_In"
                                   ∧ x = "Yes"))
            (record ← Client.update_user_fields config record [("Logged_In", "Yes")]
                        (default "" (ud_telegram_id ud));
             Client.put_user_data user_id
               (λ ud, mkUserData (Some record) (ud_telegram_id ud));;
             Client.show_status config user_id record)) as Hrun.
  { apply relates_bind; [apply _| |intros record'].
    - apply update_one_field_wrote; [reflexivity|vm_compute; discriminate|reflexivity].
    - apply wrote_frame. apply preserves_bind; [unfold Client.put_user_data; frame|].
      intros _. apply show_status_cells. }
  destruct (Hrun w r c Hr Hc) as [Hsame|(Hrow & Hcol & Hval)]; [done|].
  split_and!; [exact Hcol|exact Hval|].
  exists ud, record. split_and!; [done|done|done|].
  symmetry. by apply dec_stable.
Qed.

Lemma password_footprint_witness :
  col "Logged_In" = col "Logged_In"
  ∧ gspread.cell (cells_of (Client.handle_password demo_config 55 " abc "
                              waiting_world).2) 2 (col "Logged_In") = "Yes"
  ∧ ∃ ud record,
      user_data waiting_world !! 55 = Some ud
      ∧ user_record ud = Some record
      ∧ row_number record = Some 2
      ∧ Client.hash_password (Py.strip " abc ")
        = Client.hash_password (Py.strip (get record "Password" "")).
Proof.
  apply (password_footprint demo_config 55 " abc " waiting_world 2 (col "Logged_In")).
  - lia.
  - vm_compute. discriminate.
  - vm_compute. discriminate.
Defined.

(** ** What a decision writes *)

(** X9.  A decision that goes through (a reviewer's button on a free row with
    an open status, nothing failing).  On "accept" the Status cell of the row
    becomes "Accepted" and, when the committee of the row has a non-empty
    link in the configuration, the Group_Link cell becomes that link; with no
    such link the Group_Link cell stays as it was.  Any other action than
    "accept" is a rejection: the Status cell becomes "Rejected" and the
    Group_Link cell stays.  No other cell changes. *)
Theorem decision_writes (config : Config) (user : Z) (callback action : string)
    (row : Z) (w : World) :
  Manager.is_admin config user = true →
  parses callback action row →
  calm w → 1 ≤ row →
  row ∉ processed_records w →
  nth (Z.to_nat (row - 1)) (cells_of w) [] ≠ [] →
  Manager.unresolved (status_read w row) = true →
  let w' := (Manager.handle_decision config user callback w).2 in
  let link :=
    default "" (committee_links config
                !! Py.strip (get (manager_record_at w row) "Committee" "نامشخص")) in
  (action = "accept" →
   gspread.cell (cells_of w') row (col "Status") = "Accepted"
   ∧ gspread.cell (cells_of w') row (col "Group_Link")
     = if Py.truthy link then link
       else gspread.cell (cells_of w) row (col "Group_Link"))
  ∧ (action ≠ "accept" →
     gspread.cell (cells_of w') row (col "Status") = "Rejected"
     ∧ gspread.cell (cells_of w') row (col "Group_Link")
       = gspread.cell (cells_of w) row (col "Group_Link"))
  ∧ ∀ r c, 1 ≤ r → 1 ≤ c →
           (r, c) ≠ (row, col "Status") → (r, c) ≠ (row, col "Group_Link") →
           gspread.cell (cells_of w') r c = gspread.cell (cells_of w) r c.
Proof.
  intros Hadmin Hparse [Hff Htg] Hrow Hfresh Hvals Hunres. cbv zeta.
  destruct (apply_decision_run config action row (manager_record_at w row) (after_call w))
    as (w1 & notification & Hrun & _ & Hcells & _).
  { split; [by apply fault_free_after_call|exact Htg]. }
  { exact Hrow. }
  change (cells_of (after_call w)) with (cells_of w) in Hcells.
  assert (Manager.handle_decision config user callback w = (Ok (), w1)) as ->.
  { rewrite (handle_decision_parsed _ _ _ _ _ _ Hadmin Hparse).
    erewrite try_ok; [reflexivity|].
    rewrite decide_row_read by (done || by apply fault_free_hd).
    by rewrite Hunres. }
  cbn [snd]. rewrite Hcells, apply_status_updates. clear Hcells Hrun.
  assert (1 ≤ col "Group_Link") as Hgl by (vm_compute; discriminate).
  assert ((row, col "Status") ≠ (row, col "Group_Link")) as Hsg
    by (vm_compute; intros [= ?]).
  assert ((row, col "Group_Link") ≠ (row, col "Status")) as Hgs
    by (vm_compute; intros [= ?]).
  split_and!.
  - intros ->. rewrite bool_decide_eq_true_2 by done.
    destruct (Py.truthy _).
    + split; [|by apply cell_set_cell].
      rewrite (cell_set_cell_other _ row (col "Group_Link") _ row (col "Status"))
        by (done || exact col_Status_pos).
      apply cell_set_cell; [done|exact col_Status_pos].
    + split; [apply cell_set_cell; [done|exact col_Status_pos]|].
      apply cell_set_cell_other; done || exact col_Status_pos.
  - intros Hne. rewrite bool_decide_eq_false_2 by done.
    assert (Py.truthy "" = false) as -> by reflexivity.
    split; [apply cell_set_cell; [done|exact col_Status_pos]|].
    apply cell_set_cell_other; done || exact col_Status_pos.
  - intros r c Hr Hc Hs Hg.
    destruct (Py.truthy _).
    + rewrite (cell_set_cell_other _ row (col "Group_Link") _ r c) by done.
      apply cell_set_cell_other; done || exact col_Status_pos.
    + apply cell_set_cell_other; done || exact col_Status_pos.
Qed.

Lemma decision_writes_witness :
  gspread.cell
    (cells_of (Manager.handle_decision demo_config 1 "accept_2" (world_at 0 demo_cells)).2)
    2 (col "Group_Link") = "https://t.me/tech"
  ∧ gspread.cell
      (cells_of (Manager.handle_decision demo_config 2 "later_3" (world_at 0 demo_cells)).2)
      3 (col "Status") = "Rejected".
Proof.
  split.
  - destruct (decision_writes demo_config 1 "accept_2" "accept" 2 (world_at 0 demo_cells))
      as ((_ & Hlink) & _ & _).
    + vm_compute. reflexivity.
    + exists "2", []. split; vm_compute; reflexivity.
    + split; reflexivity.
    + lia.
    + change (2 ∉ (∅ : gset Z)). apply not_elem_of_empty.
    + vm_compute. discriminate.
    + vm_compute. reflexivity.
    + reflexivity.
    + rewrite Hlink. vm_compute. reflexivity.
  - destruct (decision_writes demo_config 2 "later_3" "later" 3 (world_at 0 demo_cells))
      as (_ & (Hstatus & _) & _).
    + vm_compute. reflexivity.
    + exists "3", []. split; vm_compute; reflexivity.
    + split; reflexivity.
    + lia.
    + change (3 ∉ (∅ : gset Z)). apply not_elem_of_empty.
    + vm_compute. discriminate.
    + vm_compute. reflexivity.
    + discriminate.
    + exact Hstatus.
Defined.

(** ** The rows the sweep selects ([get_pending_records]) *)

Lemma pending_from_elem i rows d :
  d ∈ Manager.pending_from i rows
  ↔ ∃ (j : nat) row,
      rows !! j = Some row
      ∧ d = mkDict (Manager.record_of (Manager.pad_row row)) (Some (i + Z.of_nat j))
      ∧ Manager.undecided
          (Py.strip (default "" (Manager.record_of (Manager.pad_row row) !! "Status")))
        = true.
Proof.
  revert i. induction rows as [|row rows IH]; intros i.
  { cbn [Manager.pending_from]. split; [by intros ?%elem_of_nil|].
    by intros (j & row & Hj & _). }
  cbn [Manager.pending_from]. cbv zeta.
  assert (d ∈ Manager.pending_from (i + 1) rows
          ↔ ∃ (j : nat) row',
              (row :: rows) !! S j = Some row'
              ∧ d = mkDict (Manager.record_of (Manager.pad_row row'))
                           (Some (i + Z.of_nat (S j)))
              ∧ Manager.undecided
                  (Py.strip (default "" (Manager.record_of (Manager.pad_row row')
                                         !! "Status"))) = true) as Hrest.
  { rewrite IH. split; intros (j & row' & Hj & -> & Hu); exists j, row';
      (split_and!; [exact Hj| |exact Hu]); do 2 f_equal; lia. }
  destruct (Manager.undecided _) eqn:Hund.
  - rewrite elem_of_cons, Hrest. split.
    + intros [->|(j & row' & Hj & Hd & Hu)].
      * exists 0%nat, row. split_and!; [done| |done]. do 2 f_equal. lia.
      * by exists (S j), row'.
    + intros ([|j] & row' & Hj & Hd & Hu).
      * left. injection Hj as <-. rewrite Hd. do 2 f_equal. lia.
      * right. by exists j, row'.
  - rewrite Hrest. split.
    + intros (j & row' & Hj & Hd & Hu). by exists (S j), row'.
    + intros ([|j] & row' & Hj & Hd & Hu).
      * injection Hj as <-. congruence.
      * by exists j, row'.
Qed.

Lemma pending_from_sorted i rows (a b : nat) x y :
  rows_of (Manager.pending_from i rows) !! a = Some x →
  rows_of (Manager.pending_from i rows) !! b = Some y →
  (a < b)%nat → x < y.
Proof.
  revert i a b. induction rows as [|row rows IH]; intros i a b; [done|].
  cbn [Manager.pending_from]. cbv zeta.
  destruct (Manager.undecided _); [|apply IH].
  unfold rows_of. cbn [fmap list_fmap]. fold (rows_of (Manager.pending_from (i + 1) rows)).
  destruct a as [|a], b as [|b]; cbn [lookup list_lookup]; try lia.
  - intros [= <-] Hy _. cbn.
    assert (Forall (λ r, i + 1 ≤ r) (rows_of (Manager.pending_from (i + 1) rows))) as Hall.
    { unfold rows_of. apply Forall_fmap.
      eapply Forall_impl; [apply (pending_from_rows (i + 1) rows)|].
      intros d (r & Hr & Hle & _). cbn. rewrite Hr. cbn. lia. }
    rewrite Forall_forall in Hall. apply list_elem_of_lookup_2 in Hy.
    specialize (Hall y Hy). lia.
  - intros Hx Hy Hlt. apply (IH (i + 1) a b Hx Hy). lia.
Qed.

Lemma selected_records w d :
  d ∈ selected w
  ↔ ∃ r, 2 ≤ r ≤ Z.of_nat (length (cells_of w))
         ∧ d = manager_record_at w r
         ∧ Manager.undecided (status_read w r) = true.
Proof.
  unfold selected. rewrite pending_from_elem. split.
  - intros (j & row & Hj & -> & Hu). rewrite lookup_drop in Hj.
    exists (2 + Z.of_nat j).
    assert (nth (Z.to_nat (2 + Z.of_nat j - 1)) (cells_of w) [] = row) as Hnth.
    { replace (Z.to_nat (2 + Z.of_nat j - 1)) with (1 + j)%nat by lia.
      by apply nth_lookup_Some. }
    split_and!.
    + lia.
    + apply lookup_lt_Some in Hj. lia.
    + unfold manager_record_at. by rewrite Hnth.
    + unfold status_read, manager_record_at, get. cbn [fields]. by rewrite Hnth.
  - intros (r & [Hlo Hhi] & -> & Hu).
    destruct (lookup_lt_is_Some_2 (cells_of w) (Z.to_nat (r - 1)) ltac:(lia))
      as [row Hrow].
    exists (Z.to_nat (r - 2)), row.
    assert (nth (Z.to_nat (r - 1)) (cells_of w) [] = row) as Hnth
      by (by apply nth_lookup_Some).
    split_and!.
    + rewrite lookup_drop.
      by replace (1 + Z.to_nat (r - 2))%nat with (Z.to_nat (r - 1)) by lia.
    + unfold manager_record_at. rewrite Hnth. do 2 f_equal. lia.
    + unfold status_read, manager_record_at, get in Hu. cbn [fields] in Hu.
      by rewrite Hnth in Hu.
Qed.

Lemma selected_rows w r :
  r ∈ rows_of (selected w)
  ↔ 2 ≤ r ≤ Z.of_nat (length (cells_of w))
    ∧ Manager.undecided (status_read w r) = true.
Proof.
  unfold rows_of. rewrite list_elem_of_fmap. split.
  - intros (d & -> & Hd). apply selected_records in Hd as (r & Hr & -> & Hu). done.
  - intros [Hr Hu]. exists (manager_record_at w r). split; [done|].
    apply selected_records. by exists r.
Qed.

Lemma manager_record_of_blank h c :
  HEADERS_get h = Some c → Manager.record_of (Manager.pad_row []) !! h = Some "".
Proof.
  intros Hh. rewrite (manager_record_of_lookup _ h c Hh). cbv zeta. f_equal.
  assert (nth (Z.to_nat (c - 1)) (Manager.pad_row []) "" = "") as ->.
  { unfold Manager.pad_row. rewrite pad_nth. by destruct (Z.to_nat (c - 1)). }
  by destruct (bool_decide _).
Qed.

(** X10.  The rows of a sweep.  A row is selected exactly when it lies below
    the header and its status, stripped, is empty or "pending" in any case;
    the rows come in the order of the sheet, each once (their numbers
    increase along the list).  The record selected for a row that holds a
    value is the record [get_record_by_row] returns for that row.  A row
    without a value is selected too, as a record of sixteen empty fields
    with its row number, where [get_record_by_row] returns the empty dict. *)
Theorem sweep_selection (w : World) :
  (∀ r, r ∈ rows_of (selected w)
        ↔ 2 ≤ r ≤ Z.of_nat (length (cells_of w))
          ∧ Manager.undecided (status_read w r) = true)
  ∧ (∀ d, d ∈ selected w →
          ∃ r, row_number d = Some r ∧ d = manager_record_at w r
               ∧ (nth (Z.to_nat (r - 1)) (cells_of w) [] ≠ [] → fault_free w →
                  Manager.get_record_by_row r w = (Ok d, after_call w))
               ∧ (nth (Z.to_nat (r - 1)) (cells_of w) [] = [] →
                  (∀ h c, HEADERS_get h = Some c → fields d !! h = Some "")
                  ∧ (fault_free w →
                     Manager.get_record_by_row r w = (Ok empty_dict, after_call w))))
  ∧ (∀ (a b : nat) x y,
       rows_of (selected w) !! a = Some x → rows_of (selected w) !! b = Some y →
       (a < b)%nat → x < y)
  ∧ (fault_free w → Manager.get_pending_records w = (Ok (selected w), after_call w)).
Proof.
  split_and!.
  - apply selected_rows.
  - intros d Hd. apply selected_records in Hd as (r & [Hlo _] & -> & _). exists r.
    split_and!; [reflexivity|reflexivity| |].
    + intros Hvals Hff. rewrite manager_get_record_ok; [|by apply fault_free_hd|lia].
      by destruct (nth (Z.to_nat (r - 1)) (cells_of w) []).
    + intros Hblank. split.
      * intros h c Hh. unfold manager_record_at. cbn [fields]. rewrite Hblank.
        by apply (manager_record_of_blank h c).
      * intros Hff. rewrite manager_get_record_ok; [|by apply fault_free_hd|lia].
        by rewrite Hblank.
  - apply pending_from_sorted.
  - apply get_pending_records_ok.
Qed.

Example sweep_selection_ex :
  rows_of (selected (world_at 0
             [ HEADERS.*1; demo_row "Ann" "Tech" "ann" "" "abc" " PENDING " "";
               demo_row "Bob" "Art" "bob" "" "pw" "Accepted" "";
               []; demo_row "Cy" "Art" "cy" "" "pw" "" "" ]))
  = [2; 4; 5].
Proof. vm_compute. reflexivity. Qed.

(** ** A sweep after a sweep *)

Lemma length_set_cell g row c v :
  length (gspread.set_cell g row c v) = (length g `max` S (Z.to_nat (row - 1)))%nat.
Proof.
  unfold gspread.set_cell. cbv zeta. rewrite length_insert. unfold gspread.pad.
  rewrite length_app, length_replicate. lia.
Qed.

Lemma length_mark_pending rows g :
  Forall (λ r, 1 ≤ r ≤ Z.of_nat (length g)) rows →
  length (mark_pending rows g) = length g.
Proof.
  revert g. induction rows as [|r rows IH]; intros g Hrows; [reflexivity|].
  apply Forall_cons in Hrows as [Hr Hrows]. rewrite mark_pending_cons.
  assert (length (gspread.set_cell g r (col "Status") "Pending") = length g) as Hlen.
  { rewrite length_set_cell. lia. }
  rewrite IH; [exact Hlen|]. by rewrite Hlen.
Qed.

Lemma pending_from_rows_ext i rows rows' :
  Forall2 (λ a b,
             Manager.undecided
               (Py.strip (default "" (Manager.record_of (Manager.pad_row a) !! "Status")))
             = Manager.undecided
                 (Py.strip (default "" (Manager.record_of (Manager.pad_row b)
                                        !! "Status")))) rows rows' →
  rows_of (Manager.pending_from i rows) = rows_of (Manager.pending_from i rows').
Proof.
  intros H. revert i. induction H as [|a b rows rows' Hab _ IH]; intros i; [reflexivity|].
  cbn [Manager.pending_from]. cbv zeta. rewrite <- Hab.
  destruct (Manager.undecided _); [|apply IH].
  unfold rows_of in *. cbn [fmap list_fmap]. by rewrite IH.
Qed.

(** The status the sweep reads off row [j + 2] of the sheet. *)
Lemma row_status_read w (j : nat) row :
  drop 1 (cells_of w) !! j = Some row →
  Py.strip (default "" (Manager.record_of (Manager.pad_row row) !! "Status"))
  = status_read w (Z.of_nat j + 2).
Proof.
  intros Hj. rewrite lookup_drop in Hj.
  assert (nth (Z.to_nat (Z.of_nat j + 2 - 1)) (cells_of w) [] = row) as Hnth.
  { replace (Z.to_nat (Z.of_nat j + 2 - 1)) with (1 + j)%nat by lia.
    by apply nth_lookup_Some. }
  unfold status_read, manager_record_at, get. cbn [fields]. by rewrite Hnth.
Qed.

(** The sweep when nothing fails and every reviewer can be reached. *)
Lemma sweep_run config download_image user_id w :
  Manager.is_admin config user_id = true → calm w → all_reachable config w = true →
  ∃ w', Manager.check_command config download_image user_id w = (Ok (), w')
        ∧ cells_of w' = mark_pending (rows_of (selected w)) (cells_of w)
        ∧ calm w'
        ∧ Telegram.blocked (telegram w') = Telegram.blocked (telegram w)
        ∧ last (outbox_of w')
          = Some (Telegram.edit_text
                    (match selected w with
                     | [] => MsgNothingPending
                     | _ => MsgSweepDone (length (selected w)) 0
                     end)).
Proof.
  intros Hadmin [Hff Htg] Hreach. unfold Manager.check_command. rewrite Hadmin.
  cbn [negb].
  erewrite bind_ok by (by apply tg_send_ok).
  set (w1 := set_telegram _ w).
  assert (fault_free w1) as Hff1 by exact Hff.
  erewrite bind_ok by (by apply get_pending_records_ok).
  change (selected w1) with (selected w).
  destruct (rows_of_selected w) as [Hrows Hrecs].
  destruct (decide (selected w = [])) as [Hsel|Hsel].
  - rewrite Hsel. eexists. split; [by apply tg_send_ok|].
    split_and!; [reflexivity| |reflexivity|].
    + split; [by apply (fault_free_after_call w1)|reflexivity].
    + unfold outbox_of. cbn [telegram set_telegram Telegram.outbox]. apply last_snoc.
  - assert (∀ (l : list Dict) (a b : M World ()),
              l ≠ [] → match l with [] => a | _ :: _ => b end = b) as Hmatch.
    { intros [|] ???; done. }
    rewrite Hmatch by done.
    assert (tg (Telegram.edit_text (MsgFound (length (selected w)))) (after_call w1)
            = (Ok (), set_telegram
                        (Telegram.Channel
                           (outbox_of (after_call w1)
                            ++ [Telegram.edit_text (MsgFound (length (selected w)))])
                           [] (Telegram.blocked (telegram w))) (after_call w1)))
      as Hfound by (by rewrite tg_send_ok).
    erewrite bind_ok by exact Hfound.
    set (w3 := set_telegram _ (after_call w1)).
    destruct (review_all_run config download_image (length (selected w))
                (selected w) 1 0 0 w3) as (w4 & Hrun & Hcells & Hcalm4 & Hbl4 & _).
    { split; [by apply fault_free_after_call|done]. }
    { exact Hrecs. }
    change (all_reachable config w3) with (all_reachable config w) in *.
    change (cells_of w3) with (cells_of w) in *.
    rewrite Hreach in Hrun, Hcells.
    erewrite bind_ok by exact Hrun.
    eexists. split; [apply tg_send_ok; [apply Hcalm4|done]|].
    split_and!; [exact Hcells| |exact Hbl4|].
    + split; [apply Hcalm4|reflexivity].
    + unfold outbox_of. cbn [telegram set_telegram Telegram.outbox fst snd].
      rewrite last_snoc. destruct (selected w); [done|]. reflexivity.
Qed.

(** X11.  The sweep is not a state to be reached once.  After a sweep in which
    nothing failed and every reviewer got the prompts, the rows it selected
    hold the status Pending, which the next sweep selects again: it selects
    the same rows, delivers their prompts again, counts them as delivered
    again, and changes no cell. *)
Theorem sweep_selects_again (config : Config) (download_image : string → bool)
    (user_id : Z) (w : World) :
  Manager.is_admin config user_id = true → calm w → all_reachable config w = true →
  ∃ w' w'',
    Manager.check_command config download_image user_id w = (Ok (), w')
    ∧ (∀ r, r ∈ rows_of (selected w) →
            gspread.cell (cells_of w') r (col "Status") = "Pending")
    ∧ rows_of (selected w') = rows_of (selected w)
    ∧ Manager.check_command config download_image user_id w' = (Ok (), w'')
    ∧ (selected w ≠ [] →
       last (outbox_of w'')
       = Some (Telegram.edit_text (MsgSweepDone (length (selected w)) 0)))
    ∧ ∀ r c, 1 ≤ r → 1 ≤ c →
             gspread.cell (cells_of w'') r c = gspread.cell (cells_of w') r c.
Proof.
  intros Hadmin Hcalm Hreach.
  destruct (sweep_run config download_image user_id w Hadmin Hcalm Hreach)
    as (w' & Hrun & Hcells & Hcalm' & Hbl & _).
  assert (all_reachable config w' = true) as Hreach'.
  { unfold all_reachable, reachable in *. by rewrite Hbl. }
  destruct (sweep_run config download_image user_id w' Hadmin Hcalm' Hreach')
    as (w'' & Hrun' & Hcells' & _ & _ & Hlast).
  destruct (rows_of_selected w) as [Hrows _].
  assert (Forall (λ r, 1 ≤ r ≤ Z.of_nat (length (cells_of w))) (rows_of (selected w)))
    as Hbound.
  { apply Forall_forall. intros r Hr. apply selected_rows in Hr. lia. }
  assert (∀ r, r ∈ rows_of (selected w) →
               gspread.cell (cells_of w') r (col "Status") = "Pending") as Hpending.
  { intros r Hr. rewrite Hcells. by apply mark_pending_cell. }
  assert (∀ r, 1 ≤ r →
               Manager.undecided (status_read w' r) = Manager.undecided (status_read w r))
    as Hstatus.
  { intros r Hr. rewrite !status_read_cell.
    destruct (decide (r ∈ rows_of (selected w))) as [Hin|Hout].
    - rewrite (Hpending r Hin). apply selected_rows in Hin as [_ Hu].
      rewrite status_read_cell in Hu. rewrite Hu. vm_compute. reflexivity.
    - rewrite Hcells. rewrite mark_pending_other; [done|done|exact col_Status_pos|done|].
      by left. }
  assert (rows_of (selected w') = rows_of (selected w)) as Hsame.
  { unfold selected. apply pending_from_rows_ext.
    apply Forall2_same_length_lookup_2.
    - rewrite !length_drop, Hcells, length_mark_pending by done. done.
    - intros j a b Ha Hb. rewrite (row_status_read w' j a Ha), (row_status_read w j b Hb).
      apply Hstatus. lia. }
  exists w', w''. split_and!; [exact Hrun|exact Hpending|exact Hsame|exact Hrun'| |].
  - intros Hne. rewrite Hlast.
    assert (length (selected w') = length (selected w)) as Hlen.
    { unfold rows_of in Hsame. apply (f_equal length) in Hsame.
      by rewrite !length_fmap in Hsame. }
    rewrite Hlen. destruct (selected w') as [|d l] eqn:Hsel'; [|done].
    destruct (selected w); [done|]. cbn in Hlen. lia.
  - intros r c Hr Hc. rewrite Hcells', Hsame.
    destruct (decide (r ∈ rows_of (selected w) ∧ c = col "Status")) as [[Hin ->]|Hout].
    + rewrite mark_pending_cell by done. by rewrite Hpending.
    + apply mark_pending_other; [done|done|done|].
      destruct (decide (r ∈ rows_of (selected w))); [right|left]; tauto.
Qed.

Lemma sweep_selects_again_witness :
  rows_of (selected (Manager.check_command demo_config (λ _, false) 1
                       (world_at 0 demo_cells)).2)
  = rows_of (selected (world_at 0 demo_cells)).
Proof.
  destruct (sweep_selects_again demo_config (λ _, false) 1 (world_at 0 demo_cells))
    as (w' & w'' & Hrun & _ & Hsame & _).
  - reflexivity.
  - split; reflexivity.
  - vm_compute. reflexivity.
  - rewrite Hrun. exact Hsame.
Defined.

(** ** Lookups in the cache after a store *)

Lemma PyDict_get_snoc {V} k k' (v : V) d :
  PyDict.get k' (d ++ [(k, v)])
  = match PyDict.get k' d with
    | Some x => Some x
    | None => if decide (k = k') then Some v else None
    end.
Proof.
  induction d as [|[k0 v0] d IH]; cbn [app PyDict.get]; [reflexivity|].
  destruct (decide (k0 = k')); [reflexivity|exact IH].
Qed.

Lemma PyDict_get_set_ne {V} k k' (v : V) d :
  k ≠ k' → PyDict.get k' (PyDict.set k v d) = PyDict.get k' d.
Proof.
  intros Hne. induction d as [|[k0 v0] d IH]; cbn [PyDict.set PyDict.get].
  - by rewrite decide_False.
  - destruct (decide (k0 = k)) as [->|Hk0]; cbn [PyDict.get].
    + by rewrite !decide_False.
    + destruct (decide (k0 = k')); [reflexivity|exact IH].
Qed.

Lemma PyDict_set_NoDup {V} k (v : V) d :
  NoDup (PyDict.keys d) → NoDup (PyDict.keys (PyDict.set k v d)).
Proof.
  intros Hnd. destruct (decide (k ∈ PyDict.keys d)) as [Hin|Hout].
  - by destruct (PyDict_set_present k v d Hin) as [-> _].
  - rewrite PyDict_set_fresh by done. unfold PyDict.keys in *. rewrite fmap_app.
    apply NoDup_app. split_and!; [done| |apply NoDup_singleton].
    intros x Hx Hk. cbn in Hk. apply list_elem_of_singleton in Hk as ->. done.
Qed.

(** X12.  A store in the cache and the lookups after it.  With the cache
    enabled, a Telegram id that is not empty and a capacity of at least one
    entry, [_set_cache] does not raise; a lookup of the same id then returns
    the record stored; a lookup of another id returns what it returned
    before, unless the store had to make room and that id was the one
    inserted first, which is then gone.  An empty id is never stored, and a
    disabled cache stores nothing and finds nothing. *)
Theorem cache_round_trip (config : Config) (tid : string) (rec : Dict)
    (c : PyDict.t Dict) :
  tid ≠ "" → 1 ≤ max_cache_size config → NoDup (PyDict.keys c) →
  (∃ c',
     Client._set_cache config tid rec (Some c) = (Ok (), Some c')
     ∧ NoDup (PyDict.keys c')
     ∧ Client._get_from_cache tid (Some c') = (Ok (Some rec), Some c')
     ∧ ∀ tid', tid' ≠ tid → tid' ≠ "" →
         (evicts config tid tid' c →
          Client._get_from_cache tid' (Some c') = (Ok None, Some c'))
         ∧ (¬ evicts config tid tid' c →
            Client._get_from_cache tid' (Some c')
            = (Ok (PyDict.get (cache_key tid') c), Some c')))
  ∧ Client._set_cache config "" rec (Some c) = (Ok (), Some c)
  ∧ Client._get_from_cache "" (Some c) = (Ok None, Some c)
  ∧ Client._set_cache config tid rec None = (Ok (), None)
  ∧ Client._get_from_cache tid None = (Ok None, None).
Proof.
  intros Htid HK Hnd. split; [|done].
  assert (∀ t c0, t ≠ "" →
            Client._get_from_cache t (Some c0)
            = (Ok (PyDict.get (cache_key t) c0), Some c0)) as Hget.
  { intros t c0 Ht. unfold Client._get_from_cache, gets.
    apply truthy_nonempty in Ht. by rewrite Ht. }
  destruct (decide (cache_key tid ∈ PyDict.keys c)) as [Hin|Hout].
  { exists (PyDict.set (cache_key tid) rec c). split_and!.
    - by apply set_cache_present.
    - by apply PyDict_set_NoDup.
    - rewrite Hget by done. by rewrite PyDict_get_set.
    - intros tid' Hne Htid'. rewrite Hget by done.
      rewrite PyDict_get_set_ne by (intros Heq; by apply cache_key_inj in Heq).
      split; [|done]. intros (Hfresh & _). done. }
  assert (∀ c0, NoDup (PyDict.keys c0) → cache_key tid ∉ PyDict.keys c0 →
                NoDup (PyDict.keys (c0 ++ [(cache_key tid, rec)]))) as Hsnoc.
  { intros c0 Hnd0 Hout0. rewrite <- PyDict_set_fresh by done. by apply PyDict_set_NoDup. }
  destruct (decide (Z.of_nat (length c) < max_cache_size config)) as [Hroom|Hfull].
  { exists (c ++ [(cache_key tid, rec)]). split_and!.
    - by apply set_cache_room.
    - by apply Hsnoc.
    - rewrite Hget by done. rewrite PyDict_get_snoc.
      apply PyDict_get_None in Hout. rewrite Hout. by rewrite decide_True.
    - intros tid' Hne Htid'. rewrite Hget by done. rewrite PyDict_get_snoc.
      rewrite decide_False by (intros Heq; by apply cache_key_inj in Heq).
      split; [intros (_ & Hlen & _); lia|]. intros _. by destruct (PyDict.get _ c). }
  destruct c as [|[k0 v0] c]; [cbn in Hfull; lia|].
  assert (cache_key tid ∉ PyDict.keys c) as Hout'.
  { intros H. apply Hout. cbn. by right. }
  cbn [PyDict.keys fmap list_fmap fst] in Hnd. apply NoDup_cons in Hnd as [Hk0 Hnd].
  exists (c ++ [(cache_key tid, rec)]). split_and!.
  - apply set_cache_full; [done|done|lia].
  - by apply Hsnoc.
  - rewrite Hget by done. rewrite PyDict_get_snoc.
    apply PyDict_get_None in Hout'. rewrite Hout'. by rewrite decide_True.
  - intros tid' Hne Htid'. rewrite Hget by done. rewrite PyDict_get_snoc.
    rewrite decide_False by (intros Heq; by apply cache_key_inj in Heq).
    cbn [PyDict.get]. split.
    + intros (_ & _ & Hfirst). cbn in Hfirst. injection Hfirst as ->.
      apply PyDict_get_None in Hk0. unfold PyDict.keys. by rewrite Hk0.
    + intros Hkeep. destruct (decide (k0 = cache_key tid')) as [->|Hother].
      * destruct Hkeep. split_and!; [done|lia|done].
      * by destruct (PyDict.get _ c).
Qed.

Lemma cache_round_trip_witness :
  ∃ c',
    Client._set_cache demo_config "3" (record_at (world_at 0 demo_cells) 3)
      (Some [("tg_1", empty_dict); ("tg_2", record_at (world_at 0 demo_cells) 2)])
    = (Ok (), Some c')
    ∧ Client._get_from_cache "3" (Some c')
      = (Ok (Some (record_at (world_at 0 demo_cells) 3)), Some c')
    ∧ Client._get_from_cache "1" (Some c') = (Ok None, Some c')
    ∧ Client._get_from_cache "2" (Some c')
      = (Ok (Some (record_at (world_at 0 demo_cells) 2)), Some c').
Proof.
  destruct (cache_round_trip demo_config "3" (record_at (world_at 0 demo_cells) 3)
              [("tg_1", empty_dict); ("tg_2", record_at (world_at 0 demo_cells) 2)])
    as ((c' & Hset & _ & Hsame & Hother) & _).
  - discriminate.
  - vm_compute. discriminate.
  - apply (bool_decide_unpack _). vm_compute. exact I.
  - exists c'. split_and!; [exact Hset|exact Hsame| |].
    + apply (Hother "1"); [discriminate|discriminate|].
      split_and!; [|vm_compute; discriminate|reflexivity].
      apply (bool_decide_unpack _). vm_compute. exact I.
    + destruct (Hother "2") as [_ Hkeep]; [discriminate|discriminate|].
      rewrite Hkeep; [reflexivity|]. intros (_ & _ & Hfirst). discriminate.
Defined.

(** ** Lookup by Telegram id ([find_user_by_telegram_id]) *)

Lemma find_by_telegram_id_cached config tid w d :
  cache_lookup w (Py.strip tid) = Some d → dict_truthy d = true →
  Client.find_user_by_telegram_id config tid w = (Ok (Some d), w).
Proof.
  intros Hc Hd. unfold Client.find_user_by_telegram_id. cbv zeta.
  rewrite (bind_ok _ _ _ _ _ (get_from_cache_run (Py.strip tid) w)).
  rewrite Hc. cbn [truthy]. by rewrite Hd.
Qed.

Lemma find_by_telegram_id_scan config tid w :
  truthy (cache_lookup w (Py.strip tid)) = false →
  fault_free w → 1 ≤ max_cache_size config →
  match list_find (λ v, v = Py.strip tid) (stored_telegram_ids w) with
  | Some (i, _) =>
      ∃ w', Client.find_user_by_telegram_id config tid w
            = (Ok (Some (record_at w (Z.of_nat i + 1))), w')
            ∧ cells_of w' = cells_of w
            ∧ calls_of w' = S (S (calls_of w))
            ∧ Client._set_cache config (Py.strip tid) (record_at w (Z.of_nat i + 1))
                (_user_cache w)
              = (Ok (), _user_cache w')
  | None =>
      Client.find_user_by_telegram_id config tid w = (Ok None, after_call w)
  end.
Proof.
  intros Hmiss Hff HK. unfold Client.find_user_by_telegram_id. cbv zeta.
  rewrite (bind_ok _ _ _ _ _ (get_from_cache_run (Py.strip tid) w)). rewrite Hmiss.
  assert (sheet (gspread.col_values (col "Telegram_ID")) w
          = (Ok (stored_telegram_ids w), after_call w)) as Hcol.
  { apply sheet_read_ok; [by apply fault_free_hd|done]. }
  destruct (list_find _ (stored_telegram_ids w)) as [[i v]|] eqn:Hfind.
  - destruct (cache_set_run config (Py.strip tid) (record_at w (Z.of_nat i + 1))
                (after_call (after_call w)) HK) as (c' & Hset & Hpure).
    eexists. split_and!.
    + erewrite try_ok; [reflexivity|].
      erewrite bind_ok by exact Hcol. rewrite Hfind. cbv zeta.
      erewrite bind_ok; last first.
      { apply get_record_by_row_ok; [|lia].
        apply fault_free_hd. by apply fault_free_after_call. }
      change (record_at (after_call w) (Z.of_nat i + 1))
        with (record_at w (Z.of_nat i + 1)).
      erewrite bind_ok by exact Hset. reflexivity.
    + done.
    + done.
    + exact Hpure.
  - erewrite try_ok; [reflexivity|].
    erewrite bind_ok by exact Hcol. by rewrite Hfind.
Qed.

Lemma record_at_truthy w row : dict_truthy (record_at w row) = true.
Proof. unfold dict_truthy. apply orb_true_iff. right. by apply bool_decide_eq_true. Qed.

(** X13.  [find_user_by_telegram_id] strips the id it is given.  When the
    cache holds a non-empty record under that id, the record is returned
    without a call on the sheet.  Otherwise (the reads succeeding, a cache of
    at least one entry) the Telegram_ID column is searched from its first
    cell, the header, for a cell that is exactly the id; the record of the
    first such row is returned after two calls on the sheet and, for an id
    that is not empty and a cache that is enabled, is in the cache from then
    on: the next lookup returns it without a call, whatever the sheet holds
    by then.  [None] when no cell is the id. *)
Theorem find_user_by_telegram_id_exact (config : Config) (tid : string) (w : World) :
  (∀ d, cache_lookup w (Py.strip tid) = Some d → dict_truthy d = true →
        Client.find_user_by_telegram_id config tid w = (Ok (Some d), w))
  ∧ (truthy (cache_lookup w (Py.strip tid)) = false →
     fault_free w → 1 ≤ max_cache_size config →
     (∀ (k : nat),
        stored_telegram_ids w !! k = Some (Py.strip tid) →
        (∀ (k' : nat), (k' < k)%nat → stored_telegram_ids w !! k' ≠ Some (Py.strip tid)) →
        ∃ w',
          Client.find_user_by_telegram_id config tid w
          = (Ok (Some (record_at w (Z.of_nat k + 1))), w')
          ∧ cells_of w' = cells_of w
          ∧ calls_of w' = S (S (calls_of w))
          ∧ (Py.strip tid ≠ "" → is_Some (_user_cache w) →
             ∀ later, _user_cache later = _user_cache w' →
                      Client.find_user_by_telegram_id config tid later
                      = (Ok (Some (record_at w (Z.of_nat k + 1))), later)))
     ∧ (Py.strip tid ∉ stored_telegram_ids w →
        Client.find_user_by_telegram_id config tid w = (Ok None, after_call w))).
Proof.
  split; [intros d; apply find_by_telegram_id_cached|].
  intros Hmiss Hff HK.
  pose proof (find_by_telegram_id_scan config tid w Hmiss Hff HK) as Hscan.
  split.
  - intros k Hk Hmin.
    assert (list_find (λ v, v = Py.strip tid) (stored_telegram_ids w)
            = Some (k, Py.strip tid)) as Hfind.
    { apply list_find_Some. split_and!; [done|done|].
      intros j y Hj Hlt ->. by apply (Hmin j). }
    rewrite Hfind in Hscan. destruct Hscan as (w' & Hrun & Hcells & Hcalls & Hset).
    exists w'. split_and!; [done|done|done|].
    intros Hne [c Hc] later Hcache.
    apply find_by_telegram_id_cached; [|apply record_at_truthy].
    unfold cache_lookup. rewrite Hcache. rewrite Hc in Hset.
    unfold Client._set_cache in Hset.
    apply truthy_nonempty in Hne. rewrite Hne in Hset |- *. cbn [negb] in Hset |- *.
    fold (cache_key (Py.strip tid)) in Hset.
    destruct (negb _ && _).
    + destruct (PyDict.first_key c); [|done]. injection Hset as <-.
      apply PyDict_get_set.
    + injection Hset as <-. apply PyDict_get_set.
  - intros Hnone.
    assert (list_find (λ v, v = Py.strip tid) (stored_telegram_ids w) = None) as Hfind.
    { apply list_find_None. apply Forall_forall. by intros x Hx ->. }
    by rewrite Hfind in Hscan.
Qed.

(** ** Writing fields of a record ([update_user_fields]) *)

Lemma header_column h c : HEADERS_get h = Some c → 1 ≤ c ≤ 16.
Proof.
  intros Hh. apply PyDict_get_elem in Hh. unfold HEADERS in Hh.
  repeat (apply elem_of_cons in Hh as [[= -> ->]|Hh]; [lia|]).
  by apply elem_of_nil in Hh.
Qed.

Lemma letter_column c :
  1 ≤ c ≤ 16 → gspread.col_of_letter (_get_column_letter c) = c.
Proof.
  intros Hc. unfold gspread.col_of_letter, _get_column_letter.
  rewrite nat_ascii_embedding by lia. lia.
Qed.

Lemma header_inj h h' c : HEADERS_get h = Some c → HEADERS_get h' = Some c → h = h'.
Proof.
  intros Hh Hh'. apply PyDict_get_elem in Hh, Hh'. unfold HEADERS in Hh, Hh'.
  repeat (apply elem_of_cons in Hh as [[= -> ->]|Hh];
          [repeat (apply elem_of_cons in Hh' as [Heq|Hh']; [congruence|]);
           by apply elem_of_nil in Hh'|]).
  by apply elem_of_nil in Hh.
Qed.

(** The write of one field when nothing fails. *)
Lemma update_one_field_run config record h v tid row c w :
  row_number record = Some row → HEADERS_get h = Some c →
  fault_free w → 1 ≤ row → 1 ≤ max_cache_size config →
  ∃ cache',
    Client.update_user_fields config record [(h, v)] tid w
    = (Ok (set_field h v record),
       set_user_cache cache'
         (set_worksheet
            (gspread.Worksheet (gspread.set_cell (cells_of w) row c v) []
                               (S (calls_of w))) w))
    ∧ Client._set_cache config tid (set_field h v record) (_user_cache w)
      = (Ok (), cache').
Proof.
  intros Hrow Hh Hff Hge HK. unfold Client.update_user_fields. rewrite Hrow.
  assert (Client.field_updates row [(h, v)]
          = Some [gspread.Update (gspread.A1 (_get_column_letter c) row) v]) as ->.
  { unfold Client.field_updates. cbn [mapM fst snd]. rewrite Hh. reflexivity. }
  pose proof (header_column h c Hh) as Hc.
  destruct (sheet_batch_update_ok
              [gspread.Update (gspread.A1 (_get_column_letter c) row) v] w)
    as (r & Hrun & HrOk).
  { by rewrite fault_free_hd. }
  { cbn [forallb]. unfold gspread.valid_update.
    cbn [gspread.range gspread.a1_row gspread.a1_col]. rewrite letter_column by done.
    rewrite andb_true_r. apply andb_true_iff. split; apply Z.leb_le; lia. }
  rewrite (HrOk (fault_free_hd w Hff)) in Hrun.
  unfold gspread.apply_updates in Hrun.
  cbn [foldl gspread.range gspread.value gspread.a1_row gspread.a1_col] in Hrun.
  rewrite letter_column in Hrun by done.
  unfold fault_free in Hff. rewrite Hff in Hrun. cbn [tl] in Hrun.
  set (w1 := set_worksheet _ w) in Hrun.
  destruct (cache_set_run config tid (set_field h v record) w1 HK)
    as (cache' & Hset & Hpure).
  exists cache'. split; [|exact Hpure].
  erewrite try_ok; [reflexivity|].
  erewrite bind_ok by exact Hrun. cbv zeta. cbn [foldl fst snd].
  erewrite bind_ok by exact Hset. reflexivity.
Qed.

(** X14.  [update_user_fields].  A record without a row number, or a field
    that is no header of the sheet, raises [KeyError] before any call on the
    sheet is made.  When nothing fails, one field is written with one call:
    the cell of the record's row under the column of the field holds the
    value, the record returned is the record given with that field replaced,
    and it is stored in the cache under the Telegram id; whoever reads the
    row afterwards finds the value under the field and every other field as
    the sheet had it. *)
Theorem update_user_fields_spec (config : Config) (record : Dict) (tid : string)
    (w : World) :
  (row_number record = None →
   ∀ fields, Client.update_user_fields config record fields tid w = (Raise KeyError, w))
  ∧ (∀ fields,
       Exists (λ fv : string * string, HEADERS_get fv.1 = None) fields →
       Client.update_user_fields config record fields tid w = (Raise KeyError, w))
  ∧ (∀ h v row c,
       row_number record = Some row → HEADERS_get h = Some c →
       fault_free w → 1 ≤ row → 1 ≤ max_cache_size config →
       ∃ w',
         Client.update_user_fields config record [(h, v)] tid w
         = (Ok (set_field h v record), w')
         ∧ cells_of w' = gspread.set_cell (cells_of w) row c v
         ∧ calls_of w' = S (calls_of w)
         ∧ Client._set_cache config tid (set_field h v record) (_user_cache w)
           = (Ok (), _user_cache w')
         ∧ ∀ reader,
             cells_of reader = cells_of w' → fault_free reader →
             ∃ d, Client.get_record_by_row row reader = (Ok d, after_call reader)
                  ∧ fields d !! h = Some v
                  ∧ ∀ h' c', h' ≠ h → HEADERS_get h' = Some c' →
                             fields d !! h' = Some (gspread.cell (cells_of w) row c')).
Proof.
  split_and!.
  - intros Hrow fields. unfold Client.update_user_fields. by rewrite Hrow.
  - intros fields Hbad. unfold Client.update_user_fields.
    destruct (row_number record) as [row|]; [|done].
    assert (Client.field_updates row fields = None) as ->; [|done].
    unfold Client.field_updates. apply mapM_None.
    eapply Exists_impl; [exact Hbad|]. intros [f v] Hf. cbn in *. by rewrite Hf.
  - intros h v row c Hrow Hh Hff Hge HK.
    destruct (update_one_field_run config record h v tid row c w Hrow Hh Hff Hge HK)
      as (cache' & Hrun & Hset).
    pose proof (header_column h c Hh) as Hc.
    eexists. split_and!; [exact Hrun|reflexivity|reflexivity|exact Hset|].
    intros reader Hcells Hreader.
    exists (record_at reader row). split_and!.
    + apply get_record_by_row_ok; [by apply fault_free_hd|done].
    + rewrite (record_at_field reader row h c Hh), Hcells.
      cbn [cells_of worksheet set_user_cache set_worksheet gspread.cells].
      f_equal. apply cell_set_cell; lia.
    + intros h' c' Hne Hh'. pose proof (header_column h' c' Hh') as Hc'.
      rewrite (record_at_field reader row h' c' Hh'), Hcells.
      cbn [cells_of worksheet set_user_cache set_worksheet gspread.cells].
      f_equal. apply cell_set_cell_other; [lia..|].
      intros [= ->]. apply Hne. by apply (header_inj h' h c).
Qed.

Example update_user_fields_ex :
  Client.update_user_fields demo_config (record_at (world_at 0 demo_cells) 2)
    [("Phone", "1")] "55" (world_at 0 demo_cells)
  = (Raise KeyError, world_at 0 demo_cells)
  ∧ Client.update_user_fields demo_config empty_dict
      [("Logged_In", "Yes")] "55" (world_at 0 demo_cells)
    = (Raise KeyError, world_at 0 demo_cells).
Proof. split; reflexivity. Qed.

(** ** Binding a Telegram id to a row ([start_command], lines 310-319) *)

Lemma find_by_username_run config username tid w i :
  username ≠ "" → truthy (cache_lookup w tid) = false →
  fault_free w → 1 ≤ max_cache_size config →
  Client.first_match (Client.clean username) 2 (stored_usernames w) = Some i →
  ∃ cache',
    Client.find_user_by_username config username tid w
    = (Ok (Some (record_at w i)), set_user_cache cache' (after_call (after_call w))).
Proof.
  intros Hu Hmiss Hff HK Hfm. unfold Client.find_user_by_username.
  apply truthy_nonempty in Hu. rewrite Hu. cbn [negb]. cbv beta iota zeta.
  rewrite (bind_ok _ _ _ _ _ (get_from_cache_run tid w)). rewrite Hmiss.
  assert (sheet (gspread.col_values (col "Username")) w
          = (Ok ((λ r, nth (Z.to_nat (col "Username" - 1)) r "") <$> cells_of w),
             after_call w)) as Hcol.
  { apply sheet_read_ok; [by apply fault_free_hd|done]. }
  pose proof (first_match_lower_bound _ _ _ _ Hfm) as Hi.
  destruct (cache_set_run config tid (record_at w i) (after_call (after_call w)) HK)
    as (c' & Hset & Hpure).
  exists c'.
  erewrite try_ok; [reflexivity|].
  erewrite bind_ok by exact Hcol. unfold stored_usernames in Hfm. rewrite Hfm.
  erewrite bind_ok; last first.
  { apply get_record_by_row_ok; [|lia].
    apply fault_free_hd. by apply fault_free_after_call. }
  change (record_at (after_call w) i) with (record_at w i).
  erewrite bind_ok by exact Hset. reflexivity.
Qed.

Lemma telegram_ids_lookup w (k : nat) :
  (k < length (cells_of w))%nat →
  stored_telegram_ids w !! k
  = Some (gspread.cell (cells_of w) (Z.of_nat k + 1) (col "Telegram_ID")).
Proof.
  intros Hk. unfold stored_telegram_ids. rewrite list_lookup_fmap.
  destruct (lookup_lt_is_Some_2 (cells_of w) k Hk) as [row Hrow].
  rewrite Hrow. cbn [fmap option_fmap option_map]. f_equal.
  unfold gspread.cell. replace (Z.to_nat (Z.of_nat k + 1 - 1)) with k by lia.
  by rewrite (nth_lookup_Some _ _ _ _ Hrow).
Qed.

(** The lookup of [start_command] for a user who is found by username and
    not by Telegram id, when nothing fails. *)
Lemma lookup_by_username_run config user_id username w (k : nat) u :
  fault_free w → 1 ≤ max_cache_size config →
  truthy (cache_lookup w (Py.str user_id)) = false →
  Py.str user_id ∉ stored_telegram_ids w →
  username ≠ "" →
  stored_usernames w !! k = Some u →
  Client.clean u = Client.clean username →
  (∀ (k' : nat) u', (k' < k)%nat → stored_usernames w !! k' = Some u' →
                    Client.clean u' ≠ Client.clean username) →
  ∃ w',
    Client.lookup config (Py.str user_id) username w
    = (Ok (Some (set_field "Telegram_ID" (Py.str user_id)
                   (record_at w (2 + Z.of_nat k)))), w')
    ∧ cells_of w' = gspread.set_cell (cells_of w) (2 + Z.of_nat k) (col "Telegram_ID")
                                     (Py.str user_id)
    ∧ calls_of w' = (4 + calls_of w)%nat.
Proof.
  intros Hff HK Hmiss Hnew Hu Hk Hclean Hfirst.
  set (tid := Py.str user_id) in *. set (row := 2 + Z.of_nat k).
  assert (Py.strip tid = tid) as Hstrip by apply str_strip.
  assert (Client.first_match (Client.clean username) 2 (stored_usernames w) = Some row)
    as Hfm.
  { apply first_match_Some. by exists k, u. }
  assert (Client.find_user_by_telegram_id config tid w = (Ok None, after_call w)) as Hid.
  { pose proof (find_by_telegram_id_scan config tid w) as Hscan.
    rewrite Hstrip in Hscan. specialize (Hscan Hmiss Hff HK).
    assert (list_find (λ v, v = tid) (stored_telegram_ids w) = None) as Hfind.
    { apply list_find_None. apply Forall_forall. by intros x Hx ->. }
    by rewrite Hfind in Hscan. }
  destruct (find_by_username_run config username tid (after_call w) row)
    as (cache1 & Hname); [done|done|by apply fault_free_after_call|done|done|].
  change (record_at (after_call w) row) with (record_at w row) in Hname.
  set (w2 := set_user_cache cache1 (after_call (after_call (after_call w)))) in Hname.
  assert (fault_free w2) as Hff2.
  { unfold fault_free in *. cbn. by rewrite Hff. }
  destruct (update_one_field_run config (record_at w row) "Telegram_ID" tid tid row
              (col "Telegram_ID") w2) as (cache2 & Hwrite & _);
    [done|done|done|unfold row; lia|done|].
  eexists. split_and!.
  - unfold Client.lookup. erewrite bind_ok by exact Hid.
    apply truthy_nonempty in Hu. rewrite Hu. cbn [truthy negb andb].
    erewrite bind_ok by exact Hname. cbv beta iota. rewrite record_at_truthy.
    unfold fmap, M_fmap. rewrite Hwrite. reflexivity.
  - reflexivity.
  - reflexivity.
Qed.

(** X15.  The first [/start] of a user the sheet does not know by Telegram id
    but by username.  When nothing fails, the lookup of [start_command] finds
    the first row whose username matches, writes the user's Telegram id to
    the Telegram_ID cell of that row with the fourth call on the sheet, and
    returns the record with the id.  From then on the row is found by the id
    alone: a lookup in any process that sees these cells, under whatever
    username or none, returns the record of that row. *)
Theorem lookup_binds_telegram_id (config : Config) (user_id : Z) (username : string)
    (w : World) (k : nat) (u : string) :
  fault_free w → 1 ≤ max_cache_size config →
  truthy (cache_lookup w (Py.str user_id)) = false →
  Py.str user_id ∉ stored_telegram_ids w →
  username ≠ "" →
  stored_usernames w !! k = Some u →
  Client.clean u = Client.clean username →
  (∀ (k' : nat) u', (k' < k)%nat → stored_usernames w !! k' = Some u' →
                    Client.clean u' ≠ Client.clean username) →
  ∃ w',
    Client.lookup config (Py.str user_id) username w
    = (Ok (Some (set_field "Telegram_ID" (Py.str user_id)
                   (record_at w (2 + Z.of_nat k)))), w')
    ∧ cells_of w' = gspread.set_cell (cells_of w) (2 + Z.of_nat k) (col "Telegram_ID")
                                     (Py.str user_id)
    ∧ calls_of w' = (4 + calls_of w)%nat
    ∧ ∀ fresh username',
        cells_of fresh = cells_of w' → fault_free fresh →
        truthy (cache_lookup fresh (Py.str user_id)) = false →
        ∃ fresh',
          Client.lookup config (Py.str user_id) username' fresh
          = (Ok (Some (record_at fresh (2 + Z.of_nat k))), fresh')
          ∧ cells_of fresh' = cells_of fresh
          ∧ get (record_at fresh (2 + Z.of_nat k)) "Telegram_ID" "" = Py.str user_id.
Proof.
  intros Hff HK Hmiss Hnew Hu Hk Hclean Hfirst.
  destruct (lookup_by_username_run config user_id username w k u)
    as (w' & Hrun & Hwritten & Hcalls); try done.
  set (tid := Py.str user_id) in *. set (row := 2 + Z.of_nat k) in *.
  assert (Py.strip tid = tid) as Hstrip by apply str_strip.
  assert (row ≤ Z.of_nat (length (cells_of w))) as Hrow.
  { apply lookup_lt_Some in Hk. unfold stored_usernames in Hk.
    rewrite length_drop, length_fmap in Hk. unfold row. lia. }
  exists w'. split_and!; [exact Hrun|exact Hwritten|exact Hcalls|].
  clear Hrun Hcalls.
  intros fresh username' Hcells Hfresh Hmiss'. rewrite Hwritten in Hcells.
  assert (1 ≤ col "Telegram_ID") as Hcol by (vm_compute; discriminate).
  assert (length (cells_of fresh) = length (cells_of w)) as Hlen.
  { rewrite Hcells, length_set_cell. unfold row in *. lia. }
  assert (list_find (λ v, v = tid) (stored_telegram_ids fresh)
          = Some (Z.to_nat (row - 1), tid)) as Hfind.
  { apply list_find_Some. split_and!; [|done|].
    - rewrite telegram_ids_lookup by (unfold row in *; lia).
      replace (Z.of_nat (Z.to_nat (row - 1)) + 1) with row by (unfold row; lia).
      rewrite Hcells. f_equal. apply cell_set_cell; [unfold row; lia|done].
    - intros j y Hj Hlt ->. apply Hnew.
      rewrite telegram_ids_lookup in Hj by (unfold row in *; lia).
      injection Hj as Hj. rewrite Hcells in Hj.
      rewrite cell_set_cell_other in Hj;
        [|unfold row; lia|done|lia|done|intros [= ?]; unfold row in *; lia].
      apply list_elem_of_lookup. exists j.
      rewrite telegram_ids_lookup by (unfold row in *; lia). by rewrite Hj. }
  pose proof (find_by_telegram_id_scan config tid fresh) as Hscan.
  rewrite Hstrip in Hscan. specialize (Hscan Hmiss' Hfresh HK).
  rewrite Hfind in Hscan.
  replace (Z.of_nat (Z.to_nat (row - 1)) + 1) with row in Hscan by (unfold row; lia).
  destruct Hscan as (fresh' & Hrun & Hsame & _).
  exists fresh'. split_and!.
  + unfold Client.lookup. erewrite bind_ok by exact Hrun.
    cbn [truthy]. cbv beta iota. rewrite record_at_truthy. reflexivity.
  + exact Hsame.
  + unfold get. rewrite (record_at_field fresh row "Telegram_ID" (col "Telegram_ID"))
      by reflexivity.
    cbn [from_option]. unfold id. rewrite Hcells.
    apply cell_set_cell; [unfold row; lia|done].
Qed.

Lemma lookup_binds_telegram_id_witness :
  ∃ w',
    Client.lookup demo_config (Py.str 55) "ann" (world_at 0 demo_cells)
    = (Ok (Some (set_field "Telegram_ID" (Py.str 55)
                   (record_at (world_at 0 demo_cells) (2 + Z.of_nat 0)))), w')
    ∧ calls_of w' = 4%nat
    ∧ ∃ fresh',
        Client.lookup demo_config (Py.str 55) "" (world_at 9 (cells_of w'))
        = (Ok (Some (record_at (world_at 9 (cells_of w')) (2 + Z.of_nat 0))), fresh').
Proof.
  destruct (lookup_binds_telegram_id demo_config 55 "ann" (world_at 0 demo_cells)
              0 "@Ann") as (w' & Hrun & _ & Hcalls & Hlater).
  - reflexivity.
  - vm_compute. discriminate.
  - reflexivity.
  - apply (bool_decide_unpack _). vm_compute. exact I.
  - discriminate.
  - reflexivity.
  - vm_compute. reflexivity.
  - intros k' u' Hlt. lia.
  - exists w'. split_and!; [exact Hrun|exact Hcalls|].
    destruct (Hlater (world_at 9 (cells_of w')) "") as (fresh' & Hfresh & _);
      [reflexivity|reflexivity|reflexivity|].
    by exists fresh'.
Defined.

(** X16.  The first [/start] of an applicant, from the command to the
    question for the password.  The sheet does not know the sender by
    Telegram id but by username, the row found does not say "logged in", the
    sender is not banned and nothing fails.  Then the Telegram id is written
    to the row, the conversation holds the record with the id from now on,
    the sender is welcomed by the name of the row, and the conversation waits
    for the password. *)
Theorem first_start_awaits_password (config : Config) (user_id : Z)
    (username : string) (w : World) (k : nat) (u : string) :
  calm w → 1 ≤ max_cache_size config →
  user_attempts w !! Py.str user_id = None →
  truthy (cache_lookup w (Py.str user_id)) = false →
  Py.str user_id ∉ stored_telegram_ids w →
  username ≠ "" →
  stored_usernames w !! k = Some u →
  Client.clean u = Client.clean username →
  (∀ (k' : nat) u', (k' < k)%nat → stored_usernames w !! k' = Some u' →
                    Client.clean u' ≠ Client.clean username) →
  Client._is_user_logged_in (record_at w (2 + Z.of_nat k)) = false →
  let record := set_field "Telegram_ID" (Py.str user_id) (record_at w (2 + Z.of_nat k)) in
  ∃ w',
    Client.start_command config user_id username w = (Ok Client.WAITING_PASSWORD, w')
    ∧ outbox_of w'
      = outbox_of w ++ [Telegram.reply_text (MsgWelcome (fields record !! "Name"))]
    ∧ user_data w' !! user_id = Some (mkUserData (Some record) (Some (Py.str user_id)))
    ∧ gspread.cell (cells_of w') (2 + Z.of_nat k) (col "Telegram_ID") = Py.str user_id
    ∧ user_attempts w' !! Py.str user_id = None.
Proof.
  intros [Hff Htg] HK Hfree Hmiss Hnew Hu Hk Hclean Hfirst Hlogged. cbv zeta.
  destruct (lookup_by_username_run config user_id username w k u)
    as (w1 & Hrun & Hwritten & _); try done.
  set (tid := Py.str user_id) in *. set (row := 2 + Z.of_nat k) in *.
  set (record := set_field "Telegram_ID" tid (record_at w row)) in *.
  pose proof (lookup_frame telegram config tid username ltac:(done) ltac:(done) w) as Ht.
  pose proof (lookup_frame user_data config tid username ltac:(done) ltac:(done) w) as Hd.
  pose proof (lookup_frame user_attempts config tid username ltac:(done) ltac:(done) w)
    as Ha.
  rewrite Hrun in Ht, Hd, Ha. cbn [snd] in Ht, Hd, Ha.
  assert (dict_truthy record = true) as Htruthy.
  { unfold dict_truthy. apply orb_true_iff. right. by apply bool_decide_eq_true. }
  assert (Client._is_user_logged_in record = false) as Hlogged'.
  { rewrite <- Hlogged. unfold Client._is_user_logged_in, get, record, set_field.
    cbn [fields]. by rewrite lookup_insert_ne. }
  eexists. split_and!.
  - unfold Client.start_command. cbv zeta. fold tid.
    erewrite bind_ok by (by apply is_banned_absent). cbv beta iota.
    erewrite bind_ok by exact Hrun. cbv beta iota. rewrite Htruthy.
    unfold modify at 1. unfold mbind at 1, M_bind at 1. cbv beta iota.
    unfold Client.put_user_data at 1, modify at 1. unfold mbind at 1, M_bind at 1.
    cbv beta iota. rewrite Hlogged'.
    erewrite bind_ok; [reflexivity|]. apply tg_send_ok; [|done].
    exact (eq_trans (f_equal Telegram.tg_faults Ht) Htg).
  - exact (f_equal (λ t, Telegram.outbox t ++ _) Ht).
  - cbn [user_data set_telegram set_user_data]. by rewrite lookup_insert_eq.
  - change (cells_of (set_telegram ?t ?x)) with (cells_of x).
    change (cells_of (set_user_data ?t ?x)) with (cells_of x).
    change (cells_of (set_user_attempts ?t ?x)) with (cells_of x).
    rewrite Hwritten. apply cell_set_cell; [unfold row; lia|vm_compute; discriminate].
  - cbn [user_attempts set_telegram set_user_data set_user_attempts].
    apply lookup_delete_eq.
Qed.

Lemma first_start_awaits_password_witness :
  ∃ w',
    Client.start_command demo_config 55 "ann" (world_at 0 demo_cells)
    = (Ok Client.WAITING_PASSWORD, w')
    ∧ outbox_of w' = [Telegram.reply_text (MsgWelcome (Some "Ann"))]
    ∧ gspread.cell (cells_of w') 2 (col "Telegram_ID") = "55".
Proof.
  destruct (first_start_awaits_password demo_config 55 "ann" (world_at 0 demo_cells)
              0 "@Ann") as (w' & Hrun & Hout & _ & Hcell & _).
  - split; reflexivity.
  - vm_compute. discriminate.
  - reflexivity.
  - reflexivity.
  - apply (bool_decide_unpack _). vm_compute. exact I.
  - discriminate.
  - reflexivity.
  - vm_compute. reflexivity.
  - intros k' u' Hlt. lia.
  - vm_compute. reflexivity.
  - exists w'. split_and!; [exact Hrun| |exact Hcell].
    rewrite Hout. vm_compute. reflexivity.
Defined.

(** ** Telling the applicant ([send_notification_to_user]) *)

Lemma notify_calm telegram_id m w :
  tg_fault_free w →
  Manager.send_notification_to_user telegram_id m w
  = (Ok (notifiable w telegram_id),
     if notifiable w telegram_id
     then set_telegram
            (Telegram.Channel
               (outbox_of w ++ [Telegram.send_notification telegram_id m]) []
               (Telegram.blocked (telegram w))) w
     else if Py.truthy telegram_id && negb (bool_decide (Py.strip telegram_id = ""))
          then set_telegram
                 (Telegram.Channel (outbox_of w) [] (Telegram.blocked (telegram w))) w
          else w).
Proof.
  intros Htg. unfold Manager.send_notification_to_user, notifiable.
  destruct (Py.truthy telegram_id); cbn [negb orb andb]; [|reflexivity].
  destruct (bool_decide (Py.strip telegram_id = "")); cbn [negb orb andb];
    [reflexivity|].
  unfold try_except, mbind, M_bind, tg, zoom, Telegram.send.
  unfold tg_fault_free in Htg. rewrite Htg. cbn [hd tl orb].
  unfold Telegram.unreachable. cbn [Telegram.recipient].
  destruct (bool_decide (telegram_id ∈ Telegram.blocked (telegram w))); reflexivity.
Qed.

(** X17.  What a decision that goes through tells the applicant.  The
    applicant is sent one notification, worded for the decision with the
    name and the committee of the row (and for an acceptance the links),
    exactly when the row says the applicant is logged in, its Telegram_ID is
    not empty and the applicant can be reached.  The caption of the
    reviewer's prompt says whether the notification went through, and says
    neither for an applicant who is not logged in; the decision is written
    all the same. *)
Theorem decision_notification (config : Config) (user : Z) (callback action : string)
    (row : Z) (w : World) :
  Manager.is_admin config user = true →
  parses callback action row →
  calm w → 1 ≤ row →
  row ∉ processed_records w →
  nth (Z.to_nat (row - 1)) (cells_of w) [] ≠ [] →
  Manager.unresolved (status_read w row) = true →
  let record := manager_record_at w row in
  let telegram_id := Py.strip (get record "Telegram_ID" "") in
  let accepted := bool_decide (action = "accept") in
  let logged_in := Manager._is_user_logged_in record in
  ∃ w',
    Manager.handle_decision config user callback w = (Ok (), w')
    ∧ outbox_of w'
      = outbox_of w
        ++ (if logged_in && notifiable w telegram_id
            then [Telegram.send_notification telegram_id
                    (decision_message config accepted record)]
            else [])
        ++ [Telegram.edit_message_caption
              (MsgCaption row accepted
                 (if logged_in then Some (notifiable w telegram_id) else None));
            Telegram.answer (MsgDecided accepted logged_in) false]
    ∧ gspread.cell (cells_of w') row (col "Status")
      = (if accepted then "Accepted" else "Rejected").
Proof.
  intros Hadmin Hparse [Hff Htg] Hrow Hfresh Hvals Hunres. cbv zeta.
  set (record := manager_record_at w row).
  set (tid := Py.strip (get record "Telegram_ID" "")).
  set (accepted := bool_decide (action = "accept")).
  set (link := if accepted
               then default "" (committee_links config
                                !! Py.strip (get record "Committee" "نامشخص"))
               else "").
  rewrite (handle_decision_parsed _ _ _ _ _ _ Hadmin Hparse).
  assert (Manager.decide_row config action row w
          = Manager.apply_decision config action row record (after_call w)) as Hdecide.
  { rewrite decide_row_read by (done || by apply fault_free_hd). by rewrite Hunres. }
  set (w0 := set_processed_records ({[row]} ∪ processed_records (after_call w))
                                   (after_call w)).
  assert (fault_free w0) as Hff0 by (by apply fault_free_after_call).
  pose proof (update_status_ok row (if accepted then "Accepted" else "Rejected") link
                w0 Hff0 Hrow) as Hwrite.
  set (w1 := set_worksheet _ w0) in Hwrite.
  assert (tg_fault_free w1) as Htg1 by exact Htg.
  pose proof (notify_calm tid (decision_message config accepted record) w1 Htg1) as Hnote.
  change (notifiable w1 tid) with (notifiable w tid) in Hnote.
  change (outbox_of w1) with (outbox_of w) in Hnote.
  change (Telegram.blocked (telegram w1)) with (Telegram.blocked (telegram w)) in Hnote.
  set (w2 := if notifiable w tid then _ else _) in Hnote.
  assert (tg_fault_free w2 ∧ cells_of w2 = cells_of w1
          ∧ Telegram.blocked (telegram w2) = Telegram.blocked (telegram w)
          ∧ outbox_of w2
            = outbox_of w
              ++ (if notifiable w tid
                  then [Telegram.send_notification tid
                          (decision_message config accepted record)] else []))
    as (Htg2 & Hcells2 & Hbl2 & Hout2).
  { unfold w2. destruct (notifiable w tid).
    - split_and!; reflexivity.
    - destruct (Py.truthy tid && _); (split_and!; [done|done|done|]);
        by rewrite app_nil_r. }
  clearbody w2.
  assert (∃ w3 flag,
            (if accepted
             then Manager.update_status_and_group_link row "Accepted"
                    (default "" (committee_links config
                                 !! Py.strip (get record "Committee" "نامشخص")));;
                  (if Manager._is_user_logged_in record
                   then Some <$> Manager.send_notification_to_user tid
                                   (decision_message config true record)
                   else mret None)
             else Manager.update_status_and_group_link row "Rejected" "";;
                  (if Manager._is_user_logged_in record
                   then Some <$> Manager.send_notification_to_user tid
                                   (decision_message config false record)
                   else mret None)) w0 = (Ok flag, w3)
            ∧ flag = (if Manager._is_user_logged_in record
                      then Some (notifiable w tid) else None)
            ∧ tg_fault_free w3 ∧ cells_of w3 = cells_of w1
            ∧ outbox_of w3
              = outbox_of w
                ++ (if Manager._is_user_logged_in record && notifiable w tid
                    then [Telegram.send_notification tid
                            (decision_message config accepted record)] else []))
    as (w3 & flag & Hrun & Hflag & Htg3 & Hcells3 & Hout3).
  { unfold link in Hwrite. destruct accepted;
      erewrite bind_ok by exact Hwrite;
      destruct (Manager._is_user_logged_in record); cbn [andb].
    - exists w2, (Some (notifiable w tid)). unfold fmap, M_fmap. rewrite Hnote. done.
    - exists w1, None. split_and!; [done|done|done|done|]. by rewrite app_nil_r.
    - exists w2, (Some (notifiable w tid)). unfold fmap, M_fmap. rewrite Hnote. done.
    - exists w1, None. split_and!; [done|done|done|done|]. by rewrite app_nil_r. }
  eexists. split_and!.
  - erewrite try_ok; [reflexivity|]. rewrite Hdecide.
    unfold Manager.apply_decision. cbv zeta.
    unfold modify at 1. unfold mbind at 1, M_bind at 1. cbv beta iota.
    fold w0. fold record. fold tid. fold accepted.
    unfold decision_message in Hrun. cbv zeta in Hrun.
    erewrite bind_ok by exact Hrun.
    erewrite bind_ok by (by apply tg_send_ok).
    by apply tg_send_ok.
  - unfold outbox_of in *. cbn [telegram set_telegram Telegram.outbox].
    rewrite Hout3, Hflag. rewrite <- !app_assoc. reflexivity.
  - change (cells_of (set_telegram ?t ?x)) with (cells_of x).
    change (cells_of (set_telegram ?t ?x)) with (cells_of x).
    rewrite Hcells3. unfold w1, link. cbn [cells_of worksheet set_worksheet gspread.cells].
    by apply status_cell_after_update.
Qed.

Lemma decision_notification_witness :
  ∃ w',
    Manager.handle_decision demo_config 1 "accept_3" (world_at 0 demo_cells) = (Ok (), w')
    ∧ outbox_of w'
      = [Telegram.send_notification "77"
           (MsgAccepted (Some "Bob") (Some "Art") "" "");
         Telegram.edit_message_caption (MsgCaption 3 true (Some true));
         Telegram.answer (MsgDecided true true) false].
Proof.
  destruct (decision_notification demo_config 1 "accept_3" "accept" 3
              (world_at 0 demo_cells)) as (w' & Hrun & Hout & _).
  - vm_compute. reflexivity.
  - exists "3", []. split; vm_compute; reflexivity.
  - split; reflexivity.
  - lia.
  - change (3 ∉ (∅ : gset Z)). apply not_elem_of_empty.
  - vm_compute. discriminate.
  - vm_compute. reflexivity.
  - exists w'. split; [exact Hrun|]. rewrite Hout. vm_compute. reflexivity.
Defined.

(** ** What the status display says *)

Lemma reply_run m w :
  tg_fault_free w →
  (tg (Telegram.reply_text m);; mret Client.END) w
  = (Ok Client.END,
     set_telegram
       (Telegram.Channel (Telegram.outbox (telegram w) ++ [Telegram.reply_text m]) []
                         (Telegram.blocked (telegram w))) w).
Proof. intros Htg. erewrite bind_ok by (by apply tg_send_ok). reflexivity. Qed.

(** X18.  The status display of a record that is held without a final status,
    when nothing fails.  The status cell of the record's row is read, and the
    applicant is told what it says, stripped and in lower case: the
    acceptance, with the group link as the sheet has it now, for "accepted",
    the rejection for "rejected", and for anything else that the request is
    still under review.  The conversation ends and no cell changes. *)
Theorem status_display (config : Config) (user_id : Z) (record : Dict) (w : World)
    (row : Z) :
  row_number record = Some row → 1 ≤ row →
  Client.status_of record ∉ ["accepted"; "rejected"] →
  calm w →
  let status := Py.lower (Py.strip (gspread.cell (cells_of w) row (col "Status"))) in
  let name := fields record !! "Name" in
  let committee := fields record !! "Committee" in
  ∃ w',
    Client.show_status config user_id record w = (Ok Client.END, w')
    ∧ outbox_of w'
      = outbox_of w
        ++ [Telegram.reply_text
              (if decide (status = "accepted")
               then MsgAccepted name committee
                      (Py.strip (gspread.cell (cells_of w) row (col "Group_Link")))
                      (team_link config)
               else if decide (status = "rejected") then MsgRejected name committee
               else MsgPending name)]
    ∧ cells_of w' = cells_of w.
Proof.
  intros Hrow Hge Hheld [Hff Htg]. cbv zeta.
  set (fresh := gspread.cell (cells_of w) row (col "Status")).
  set (link := gspread.cell (cells_of w) row (col "Group_Link")).
  destruct (decide (Py.lower (Py.strip fresh) = Client.status_of record)) as [Hsame|Hdiff].
  - (* the sheet says what the record says *)
    assert (Client.show_status config user_id record w
            = Client.send_pending record (after_call w)) as Hrun.
    { unfold Client.show_status, Client.the_user_data.
      unfold mbind at 1, M_bind at 1, gets. cbv beta iota zeta.
      rewrite bool_decide_eq_false_2 by done.
      assert (Client.fresh_status record (Client.status_of record) w
              = (Ok None, after_call w)) as Hfresh.
      { unfold Client.fresh_status. rewrite Hrow.
        erewrite bind_ok; last first.
        { apply acell_ok; [by apply fault_free_hd|done|done|done]. }
        fold fresh. by rewrite decide_False by (intros H; by apply H). }
      erewrite bind_ok; last first.
      { erewrite try_ok; [reflexivity|exact Hfresh]. }
      cbv beta iota. unfold mbind at 1, M_bind at 1. cbn [mret M_ret].
      rewrite decide_False by (intros H; apply Hheld; rewrite H; left).
      rewrite decide_False by (intros H; apply Hheld; rewrite H; right; left).
      reflexivity. }
    rewrite Hrun. unfold Client.send_pending. rewrite reply_run by exact Htg.
    eexists. split; [reflexivity|]. split; [|reflexivity].
    unfold outbox_of. cbn [telegram set_telegram Telegram.outbox]. do 3 f_equal.
    rewrite Hsame.
    rewrite decide_False by (intros H; apply Hheld; rewrite H; left).
    rewrite decide_False by (intros H; apply Hheld; rewrite H; right; left).
    reflexivity.
  - destruct (show_status_refresh config user_id record w row fresh link)
      as (w' & Hrun & Hcells & Htgw & _); try done.
    set (record' := set_field "Group_Link" link (set_field "Status" fresh record)) in *.
    assert (Client.status_of record' = Py.lower (Py.strip fresh)) as Hstatus.
    { unfold Client.status_of, get, record', set_field. cbn [fields].
      rewrite lookup_insert_ne by done. by rewrite lookup_insert_eq. }
    assert (fields record' !! "Name" = fields record !! "Name") as Hname.
    { unfold record', set_field. cbn [fields]. by rewrite !lookup_insert_ne. }
    assert (fields record' !! "Committee" = fields record !! "Committee") as Hcom.
    { unfold record', set_field. cbn [fields]. by rewrite !lookup_insert_ne. }
    assert (get record' "Group_Link" "" = link) as HL.
    { unfold get, record', set_field. cbn [fields]. by rewrite lookup_insert_eq. }
    assert (tg_fault_free w') as Htg'.
    { unfold tg_fault_free. by rewrite Htgw. }
    cbv zeta in Hrun. rewrite Hstatus in Hrun. rewrite Hrun.
    unfold outbox_of. 
    destruct (decide (Py.lower (Py.strip fresh) = "accepted")).
    + rewrite send_accepted_run, reply_run by exact Htg'.
      eexists. split; [reflexivity|]. split; [|exact Hcells].
      cbn [telegram set_telegram Telegram.outbox]. by rewrite Htgw, Hname, Hcom, HL.
    + destruct (decide (Py.lower (Py.strip fresh) = "rejected")).
      * unfold Client.send_rejected. rewrite reply_run by exact Htg'.
        eexists. split; [reflexivity|]. split; [|exact Hcells].
        cbn [telegram set_telegram Telegram.outbox]. by rewrite Htgw, Hname, Hcom.
      * unfold Client.send_pending. rewrite reply_run by exact Htg'.
        eexists. split; [reflexivity|]. split; [|exact Hcells].
        cbn [telegram set_telegram Telegram.outbox]. by rewrite Htgw, Hname.
Qed.

Lemma status_display_witness :
  ∃ w',
    Client.show_status demo_config 77 (record_at (world_at 0 demo_cells) 3)
      (world_at 0 (gspread.set_cell demo_cells 3 (col "Status") " REJECTED "))
    = (Ok Client.END, w')
    ∧ outbox_of w' = [Telegram.reply_text (MsgRejected (Some "Bob") (Some "Art"))].
Proof.
  destruct (status_display demo_config 77 (record_at (world_at 0 demo_cells) 3)
              (world_at 0 (gspread.set_cell demo_cells 3 (col "Status") " REJECTED ")) 3)
    as (w' & Hrun & Hout & _).
  - reflexivity.
  - lia.
  - apply (bool_decide_unpack _). vm_compute. exact I.
  - split; reflexivity.
  - exists w'. split; [exact Hrun|]. rewrite Hout. vm_compute. reflexivity.
Defined.

(** ** A decision on a row that cannot be read *)

(** X19.  A reviewer's button for a row that is not in the set of processed
    rows, when the read of the row fails, or the row number is below 1, or
    the row holds no value.  The reviewer is told that the record was not
    found, in the first case as in the others; one call was made on the
    sheet, no cell has changed and the row is not claimed. *)
Theorem decision_on_unreadable_row (config : Config) (user : Z)
    (callback action : string) (row : Z) (w : World) :
  Manager.is_admin config user = true →
  parses callback action row →
  row ∉ processed_records w →
  hd false (Telegram.tg_faults (telegram w)) = false →
  failing w ∨ row < 1 ∨ nth (Z.to_nat (row - 1)) (cells_of w) [] = [] →
  Manager.handle_decision config user callback w
  = (Ok (), sent (Telegram.answer MsgRecordNotFound true) (after_call w)).
Proof.
  intros Hadmin Hparse Hfree Htg Hbad.
  rewrite (handle_decision_parsed _ _ _ _ _ _ Hadmin Hparse).
  erewrite try_ok; [reflexivity|].
  assert (Manager.get_record_by_row row w = (Ok empty_dict, after_call w)) as Hget.
  { destruct (hd gspread.NoFault (gspread.faults (worksheet w))) eqn:Hhd;
      [|apply manager_get_record_fault; unfold failing; by rewrite Hhd..].
    destruct Hbad as [Hf|[Hlow|Hempty]].
    - unfold failing in Hf. by rewrite Hhd in Hf.
    - unfold Manager.get_record_by_row, gspread.row_values.
      erewrite try_raise; [reflexivity|]. erewrite bind_raise; [reflexivity|].
      unfold sheet, zoom, gspread.read, gspread.next_fault, mbind, M_bind.
      cbn [fst snd]. rewrite Hhd.
      assert ((1 <=? row) = false) as -> by (apply Z.leb_gt; lia). reflexivity.
    - destruct (decide (1 ≤ row)) as [Hrow|Hrow].
      + rewrite manager_get_record_ok by done. by rewrite Hempty.
      + unfold Manager.get_record_by_row, gspread.row_values.
        erewrite try_raise; [reflexivity|]. erewrite bind_raise; [reflexivity|].
        unfold sheet, zoom, gspread.read, gspread.next_fault, mbind, M_bind.
        cbn [fst snd]. rewrite Hhd.
        assert ((1 <=? row) = false) as -> by (apply Z.leb_gt; lia). reflexivity. }
  unfold Manager.decide_row. unfold mbind at 1, M_bind at 1, gets.
  rewrite bool_decide_eq_false_2 by done.
  erewrite bind_ok by exact Hget.
  assert (dict_truthy empty_dict = false) as -> by (vm_compute; reflexivity).
  cbn [negb]. by apply answer_ok.
Qed.

Lemma decision_on_unreadable_row_witness :
  Manager.handle_decision demo_config 1 "accept_2"
    (with_faults [gspread.FailAfter] (world_at 0 demo_cells))
  = (Ok (), sent (Telegram.answer MsgRecordNotFound true)
              (after_call (with_faults [gspread.FailAfter] (world_at 0 demo_cells))))
  ∧ Manager.handle_decision demo_config 1 "accept_9" (world_at 0 demo_cells)
    = (Ok (), sent (Telegram.answer MsgRecordNotFound true)
                (after_call (world_at 0 demo_cells))).
Proof.
  split.
  - apply (decision_on_unreadable_row demo_config 1 "accept_2" "accept" 2).
    + vm_compute. reflexivity.
    + exists "2", []. split; vm_compute; reflexivity.
    + change (2 ∉ (∅ : gset Z)). apply not_elem_of_empty.
    + reflexivity.
    + left. vm_compute. discriminate.
  - apply (decision_on_unreadable_row demo_config 1 "accept_9" "accept" 9).
    + vm_compute. reflexivity.
    + exists "9", []. split; vm_compute; reflexivity.
    + change (9 ∉ (∅ : gset Z)). apply not_elem_of_empty.
    + reflexivity.
    + right. right. reflexivity.
Defined.

(** ** The two bots reading the same row *)

Lemma rev_app_app s acc : String.rev_app s acc = String.rev s +:+ acc.
Proof.
  unfold String.rev. revert acc. induction s as [|c s IH]; intros acc; [reflexivity|].
  cbn [String.rev_app]. rewrite (IH (String c acc)), (IH (String c "")).
  rewrite string_app_assoc. reflexivity.
Qed.

Lemma rev_rev s : String.rev (String.rev s) = s.
Proof.
  unfold String.rev. rewrite rev_app_rev_app. cbn [String.rev_app].
  apply string_app_nil_r.
Qed.

Lemma lstrip_idem p s : Py.lstrip_with p (Py.lstrip_with p s) = Py.lstrip_with p s.
Proof.
  induction s as [|c s IH]; [reflexivity|]. cbn [Py.lstrip_with].
  destruct (p c) eqn:Hc; [exact IH|]. cbn [Py.lstrip_with]. by rewrite Hc.
Qed.

Lemma lstrip_length p s : (String.length (Py.lstrip_with p s) ≤ String.length s)%nat.
Proof.
  induction s as [|c s IH]; [done|]. cbn [Py.lstrip_with].
  destruct (p c); cbn [String.length]; lia.
Qed.

Lemma lstrip_fixed_head p c s :
  Py.lstrip_with p (String c s) = String c s → p c = false.
Proof.
  cbn [Py.lstrip_with]. destruct (p c); [|done]. intros Heq.
  pose proof (lstrip_length p s) as Hlen. rewrite Heq in Hlen.
  cbn [String.length] in Hlen. lia.
Qed.

Lemma lstrip_fixed_app p a b :
  a ≠ "" → Py.lstrip_with p (a +:+ b) = a +:+ b → Py.lstrip_with p a = a.
Proof.
  destruct a as [|c a]; [done|]. intros _.
  change (String c a +:+ b) with (String c (a +:+ b)). intros Hfix.
  apply lstrip_fixed_head in Hfix. cbn [Py.lstrip_with]. by rewrite Hfix.
Qed.

(** Stripping on the left keeps a text free of whitespace on the right. *)
Lemma lstrip_keeps_right p y :
  Py.lstrip_with p (String.rev y) = String.rev y →
  Py.lstrip_with p (String.rev (Py.lstrip_with p y)) = String.rev (Py.lstrip_with p y).
Proof.
  induction y as [|c y IH]; [done|]. intros Hfix. cbn [Py.lstrip_with].
  destruct (p c); [|exact Hfix]. apply IH.
  unfold String.rev in Hfix. cbn [String.rev_app] in Hfix. rewrite rev_app_app in Hfix.
  destruct (String.rev y) as [|d z] eqn:Hrev; [reflexivity|].
  by apply (lstrip_fixed_app p (String d z) (String c "")).
Qed.

Lemma strip_idem s : Py.strip (Py.strip s) = Py.strip s.
Proof.
  unfold Py.strip, Py.rstrip_with.
  set (t := Py.lstrip_with Py.isspace s).
  set (q := Py.lstrip_with Py.isspace (String.rev t)).
  assert (Py.lstrip_with Py.isspace (String.rev q) = String.rev q) as Hleft.
  { unfold q. apply lstrip_keeps_right. rewrite rev_rev. apply lstrip_idem. }
  rewrite Hleft, rev_rev. unfold q. by rewrite lstrip_idem.
Qed.

Lemma manager_record_at_field w row h c :
  HEADERS_get h = Some c →
  fields (manager_record_at w row) !! h
  = Some (Py.strip (gspread.cell (cells_of w) row c)).
Proof.
  intros Hh. unfold manager_record_at. cbn [fields].
  rewrite (manager_record_of_lookup _ h c Hh). cbv zeta. f_equal.
  pose proof (header_column h c Hh) as Hc.
  pose proof (pad_row_length (nth (Z.to_nat (row - 1)) (cells_of w) [])) as Hlen.
  rewrite bool_decide_eq_true_2 by lia.
  unfold Manager.pad_row. rewrite pad_nth. fold (gspread.cell (cells_of w) row c).
  destruct (gspread.cell (cells_of w) row c) eqn:Hcell; reflexivity.
Qed.

(** X20.  The two bots reading the same row, the read succeeding.  For a row
    that holds a value, the record of the reviewer-facing bot holds under
    every header the stripped text of what the record of the
    applicant-facing bot holds, and the two bots agree on whether the row
    says that the applicant is logged in.  For a row without a value the
    reviewer-facing bot gets the empty dict, which it takes for "not found",
    while the applicant-facing bot gets a record of sixteen empty fields. *)
Theorem adapters_read_alike (w : World) (row : Z) :
  fault_free w → 1 ≤ row →
  (nth (Z.to_nat (row - 1)) (cells_of w) [] ≠ [] →
   ∃ reviewer applicant,
     Manager.get_record_by_row row w = (Ok reviewer, after_call w)
     ∧ Client.get_record_by_row row w = (Ok applicant, after_call w)
     ∧ row_number reviewer = Some row ∧ row_number applicant = Some row
     ∧ (∀ h c, HEADERS_get h = Some c →
               get reviewer h "" = Py.strip (get applicant h ""))
     ∧ Manager._is_user_logged_in reviewer = Client._is_user_logged_in applicant)
  ∧ (nth (Z.to_nat (row - 1)) (cells_of w) [] = [] →
     Manager.get_record_by_row row w = (Ok empty_dict, after_call w)
     ∧ dict_truthy empty_dict = false
     ∧ ∃ applicant,
         Client.get_record_by_row row w = (Ok applicant, after_call w)
         ∧ dict_truthy applicant = true
         ∧ ∀ h c, HEADERS_get h = Some c → fields applicant !! h = Some "").
Proof.
  intros Hff Hrow.
  pose proof (fault_free_hd w Hff) as Hhd.
  assert (∀ h c, HEADERS_get h = Some c →
            get (manager_record_at w row) h "" = Py.strip (get (record_at w row) h ""))
    as Hfields.
  { intros h c Hh. unfold get.
    by rewrite (manager_record_at_field w row h c Hh), (record_at_field w row h c Hh). }
  split.
  - intros Hvals. exists (manager_record_at w row), (record_at w row). split_and!.
    + rewrite manager_get_record_ok by done.
      by destruct (nth (Z.to_nat (row - 1)) (cells_of w) []).
    + by apply get_record_by_row_ok.
    + reflexivity.
    + reflexivity.
    + exact Hfields.
    + unfold Manager._is_user_logged_in, Client._is_user_logged_in.
      rewrite (Hfields "Logged_In" 16) by reflexivity. by rewrite strip_idem.
  - intros Hempty. split_and!.
    + rewrite manager_get_record_ok by done. by rewrite Hempty.
    + vm_compute. reflexivity.
    + exists (record_at w row). split_and!.
      * by apply get_record_by_row_ok.
      * apply record_at_truthy.
      * intros h c Hh. rewrite (record_at_field w row h c Hh).
        unfold gspread.cell. rewrite Hempty. f_equal.
        by destruct (Z.to_nat (c - 1)).
Qed.

Lemma adapters_read_alike_witness :
  ∃ reviewer applicant,
    Manager.get_record_by_row 3 (world_at 0 demo_cells)
    = (Ok reviewer, after_call (world_at 0 demo_cells))
    ∧ Client.get_record_by_row 3 (world_at 0 demo_cells)
      = (Ok applicant, after_call (world_at 0 demo_cells))
    ∧ Manager._is_user_logged_in reviewer = Client._is_user_logged_in applicant.
Proof.
  destruct (adapters_read_alike (world_at 0 demo_cells) 3) as [Hrow _].
  - reflexivity.
  - lia.
  - destruct Hrow as (reviewer & applicant & Hm & Hc & _ & _ & _ & Hlogged).
    + vm_compute. discriminate.
    + by exists reviewer, applicant.
Defined.
